(** * MCP_toolbox: the arXiv daily-papers tool

    A shallow embedding of [src/mcp_arxiv_tool]: the Benty Fields client
    ([benty_client.py]), the PDF processor ([pdf_processor.py]), the summary
    generator ([generate_summary.py]) and the tools of the MCP dispatcher
    ([server.py]), followed by the properties of the specification that were
    checked against them.

    Conventions.
    - A Python [str] is a [string]; one character of the model stands for one
      code point of the Python string, so the strings of the model are the
      Python strings whose characters are below U+0100.  White space, digits
      and printable characters are those of Python on this range.
    - A file is known by its bytes when it was written in binary mode and by
      its text when it was written in text mode; its size is the number of
      bytes of the UTF-8 encoding of the text.  The file system is POSIX.
    - A Python exception is a value of [exn]; a call that can raise returns a
      [result].
    - The network, the HTML parser, the clock and the PDF libraries are outside
      the repository: they are variables of the sections that use them.  The
      parser is taken on the pages that it parses: [html_parser] gives the
      tree of a page, and a page on which [BeautifulSoup] raises is not
      covered. *)

From Stdlib Require Import ZArith Ascii String Lia.
From stdpp Require Import base option list gmap strings.

Local Open Scope Z_scope.

(** ** Exceptions and results *)

(** The exceptions that the code raises or lets through.  [HTTPError] is
    what [raise_for_status] raises, [RequestException] a failure of the
    transport, [LibraryError] an exception of a PDF library that
    [extract_text] raises again. *)
Inductive exn : Type :=
| ValueError (msg : string)
| KeyError (key : string)
| RuntimeError (msg : string)
| FileNotFoundError (msg : string)
| FileExistsError (msg : string)
| IsADirectoryError (msg : string)
| NotADirectoryError (msg : string)
| HTTPError (status : Z) (reason url : string)
| RequestException (msg : string)
| LibraryError (msg : string).

Inductive result (A : Type) : Type :=
| Ok (a : A)
| Raise (e : exn).
Arguments Ok {A} a.
Arguments Raise {A} e.

Definition bind {A B : Type} (r : result A) (k : A -> result B) : result B :=
  match r with
  | Ok a => k a
  | Raise e => Raise e
  end.

Notation "x <- r ;; k" := (bind r (fun x => k))
  (at level 100, r at next level, right associativity).

Definition is_ok {A : Type} (r : result A) : bool :=
  match r with Ok _ => true | Raise _ => false end.

(** The value of a call inside [try: ... except Exception: continue]. *)
Definition ok_value {A : Type} (r : result A) : option A :=
  match r with Ok a => Some a | Raise _ => None end.

(** What a call into a PDF library does: it returns, or it raises an
    exception of the library. *)
Inductive outcome (A : Type) : Type :=
| Done (a : A)
| Failed (why : string).
Arguments Done {A} a.
Arguments Failed {A} why.

Definition is_done {A : Type} (o : outcome A) : bool :=
  match o with Done _ => true | Failed _ => false end.

(** ** Python strings *)

Module PyStr.

(** [str.isspace] below U+0100: TAB, LF, VT, FF, CR, FS, GS, RS, US, the
    space, NEL (U+0085) and the no-break space (U+00A0). *)
Definition isspace (c : ascii) : bool :=
  let n := nat_of_ascii c in
  ((9 <=? n) && (n <=? 13) || (28 <=? n) && (n <=? 32)
   || (n =? 133) || (n =? 160))%nat.

Fixpoint lstrip (s : string) : string :=
  match s with
  | EmptyString => EmptyString
  | String c s' => if isspace c then lstrip s' else s
  end.

(** The string without its trailing white space. *)
Fixpoint rstrip (s : string) : string :=
  match s with
  | EmptyString => EmptyString
  | String c s' =>
      match rstrip s' with
      | EmptyString => if isspace c then EmptyString else String c EmptyString
      | r => String c r
      end
  end.

(** [s.strip()] *)
Definition strip (s : string) : string := rstrip (lstrip s).

(** [s[:n]] for [n >= 0]. *)
Definition slice_to (n : nat) (s : string) : string := substring 0 n s.

(** [s[a:b]] for [0 <= a <= b]. *)
Definition slice (a b : nat) (s : string) : string := substring a (b - a) s.

(** [s.startswith(p)] *)
Definition startswith (s p : string) : bool := String.prefix p s.

(** [s.endswith(suf)] *)
Definition endswith (s suf : string) : bool :=
  (String.length suf <=? String.length s)%nat
  && String.eqb (substring (String.length s - String.length suf)
                           (String.length suf) s) suf.

(** [sub in s] *)
Definition contains (sub s : string) : bool :=
  match String.index 0 sub s with
  | Some _ => true
  | None => false
  end.

(** [s.split(sep)] for a separator of one character [c]: the first piece
    and the list of the pieces after it.  The result of the Python call is
    never empty. *)
Fixpoint split_go (c : ascii) (s : string) : string * list string :=
  match s with
  | EmptyString => (EmptyString, [])
  | String a s' =>
      let '(h, t) := split_go c s' in
      if Ascii.eqb a c then (EmptyString, h :: t) else (String a h, t)
  end.

Definition split (c : ascii) (s : string) : list string :=
  let '(h, t) := split_go c s in h :: t.

(** [s.split(sep)[0]] *)
Definition split_first (c : ascii) (s : string) : string :=
  fst (split_go c s).

(** [s.split(sep)[-1]] *)
Definition split_last (c : ascii) (s : string) : string :=
  let '(h, t) := split_go c s in List.last t h.

(** [s.split(sep, 1)]: one piece when [sep] does not occur, two otherwise. *)
Fixpoint split1 (c : ascii) (s : string) : list string :=
  match s with
  | EmptyString => [EmptyString]
  | String a s' =>
      if Ascii.eqb a c then [EmptyString; s']
      else match split1 c s' with
           | h :: t => String a h :: t
           | [] => []
           end
  end.

Definition digit_val (c : ascii) : option Z :=
  let n := nat_of_ascii c in
  if ((48 <=? n) && (n <=? 57))%nat then Some (Z.of_nat n - 48) else None.

(** The digits of an integer literal: single underscores are allowed
    between digits. *)
Fixpoint parse_digits (s : string) (acc : Z) (after_digit : bool) : option Z :=
  match s with
  | EmptyString => if after_digit then Some acc else None
  | String c s' =>
      if Ascii.eqb c "_"%char
      then (if after_digit then parse_digits s' acc false else None)
      else match digit_val c with
           | Some d => parse_digits s' (10 * acc + d) true
           | None => None
           end
  end.

(** The white space that [int] skips around a literal: TAB, LF, VT, FF, CR
    and the space, and the white space beyond ASCII (NEL and the no-break
    space), which [int] reads as spaces.  FS, GS, RS and US are white space
    for [strip] and not for [int]. *)
Definition int_space (c : ascii) : bool :=
  let n := nat_of_ascii c in
  ((9 <=? n) && (n <=? 13) || (n =? 32) || (n =? 133) || (n =? 160))%nat.

Fixpoint lskip (space : ascii -> bool) (s : string) : string :=
  match s with
  | EmptyString => EmptyString
  | String c s' => if space c then lskip space s' else s
  end.

Fixpoint rskip (space : ascii -> bool) (s : string) : string :=
  match s with
  | EmptyString => EmptyString
  | String c s' =>
      match rskip space s' with
      | EmptyString => if space c then EmptyString else String c EmptyString
      | r => String c r
      end
  end.

(** [c in s] for a character [c]. *)
Fixpoint has_char (c : ascii) (s : string) : bool :=
  match s with
  | EmptyString => false
  | String a s' => Ascii.eqb a c || has_char c s'
  end.

(** A hexadecimal digit, in lower case. *)
Definition hex_digit (n : nat) : ascii :=
  if (n <? 10)%nat then ascii_of_nat (48 + n) else ascii_of_nat (87 + n).

(** [str.isprintable] below U+0100: the control characters, the no-break
    space and the soft hyphen are not printable. *)
Definition isprintable (c : ascii) : bool :=
  let n := nat_of_ascii c in
  ((32 <=? n) && (n <? 127) || (161 <=? n) && negb (n =? 173))%nat.

(** One character of [repr(s)] between the quotes [q]. *)
Definition repr_char (q c : ascii) : string :=
  let n := nat_of_ascii c in
  if Ascii.eqb c q || Ascii.eqb c "\"%char then String "\"%char (String c EmptyString)
  else if (n =? 9)%nat then "\t"
  else if (n =? 10)%nat then "\n"
  else if (n =? 13)%nat then "\r"
  else if isprintable c then String c EmptyString
  else String "\"%char (String "x"%char
         (String (hex_digit (n / 16)) (String (hex_digit (n mod 16)) EmptyString))).

Fixpoint repr_body (q : ascii) (s : string) : string :=
  match s with
  | EmptyString => EmptyString
  | String c s' => repr_char q c +:+ repr_body q s'
  end.

(** [repr(s)]: single quotes, unless the string has a single quote and no
    double quote. *)
Definition repr (s : string) : string :=
  let double_quote := ascii_of_nat 34 in
  let q := if has_char "'"%char s && negb (has_char double_quote s)
           then double_quote else "'"%char in
  String q (repr_body q s) +:+ String q EmptyString.

(** [int(s)] in base 10: surrounding white space, an optional sign, digits. *)
Definition int (s : string) : result Z :=
  let body := rskip int_space (lskip int_space s) in
  let parsed :=
    match body with
    | String c r =>
        if Ascii.eqb c "+"%char then parse_digits r 0 false
        else if Ascii.eqb c "-"%char then Z.opp <$> parse_digits r 0 false
        else parse_digits body 0 false
    | EmptyString => None
    end in
  match parsed with
  | Some z => Ok z
  | None => Raise (ValueError ("invalid literal for int() with base 10: " +:+ repr s))
  end.

Definition digit_char (d : Z) : ascii := ascii_of_nat (Z.to_nat (48 + d)).

Fixpoint digits_go (fuel : nat) (n : Z) (acc : string) : string :=
  let acc' := String (digit_char (n mod 10)) acc in
  match fuel with
  | O => acc'
  | S fuel' => if n <? 10 then acc' else digits_go fuel' (n / 10) acc'
  end.

(** [str(n)] for an integer: its decimal digits, with a minus sign when
    negative. *)
Definition of_int (n : Z) : string :=
  let a := Z.abs n in
  let ds := digits_go (Z.to_nat (Z.log2 a)) a EmptyString in
  if n <? 0 then String "-"%char ds else ds.

(** A notion used to state properties of the functions above: the text
    from position [n] on. *)
Fixpoint drop_chars (n : nat) (s : string) : string :=
  match n, s with
  | O, _ => s
  | S n', String _ s' => drop_chars n' s'
  | S _, EmptyString => EmptyString
  end.

(** [s.replace(old, new)] for a non-empty [old]: the occurrences of [old]
    are taken from left to right, without overlap.  [skip] counts the
    characters of an occurrence that are still to be passed. *)
Fixpoint replace_go (old new : string) (skip : nat) (s : string) : string :=
  match s with
  | EmptyString => EmptyString
  | String c s' =>
      match skip with
      | S k => replace_go old new k s'
      | O =>
          if startswith s old
          then new +:+ replace_go old new (String.length old - 1) s'
          else String c (replace_go old new 0 s')
      end
  end.

Definition replace (old new s : string) : string := replace_go old new 0 s.

(** What a text file gives when it is read with universal newlines, the
    default of [open]: a CR, alone or followed by LF, is read as LF. *)
Fixpoint universal_newlines (s : string) : string :=
  match s with
  | EmptyString => EmptyString
  | String c s' =>
      let rest := universal_newlines s' in
      if Ascii.eqb c "013"%char then
        match s' with
        | String c' _ => if Ascii.eqb c' "010"%char then rest else String "010"%char rest
        | EmptyString => String "010"%char rest
        end
      else String c rest
  end.

(** [len(s.encode("utf-8"))]: a character below U+0080 takes one byte, a
    character from U+0080 to U+00FF two. *)
Fixpoint utf8_length (s : string) : nat :=
  match s with
  | EmptyString => O
  | String c s' => ((if (nat_of_ascii c <? 128)%nat then 1 else 2) + utf8_length s')%nat
  end.

End PyStr.

(** ** The parsed HTML tree (BeautifulSoup) *)

Module Bs4.

(** A node of the tree that [BeautifulSoup(text, "html.parser")] builds:
    a string, or a tag with its attributes and contents.  The attributes
    stand for the dictionary [tag.attrs]: the first binding of a key is its
    value. *)
#[warnings="-register-all"] Inductive node : Type :=
| NavigableString (s : string)
| Tag (name : string) (attrs : list (string * string)) (contents : list node).

(** The nodes below [n], in document order. *)
Fixpoint descendants (n : node) : list node :=
  match n with
  | NavigableString _ => []
  | Tag _ _ cs =>
      (fix go (l : list node) : list node :=
         match l with
         | [] => []
         | c :: l' => (c :: descendants c) ++ go l'
         end) cs
  end.

(** [tag.get(key)] *)
Fixpoint get_attr (key : string) (attrs : list (string * string)) : option string :=
  match attrs with
  | [] => None
  | (k, v) :: rest => if String.eqb k key then Some v else get_attr key rest
  end.

(** The values of a multi-valued attribute such as [class]. *)
Fixpoint tokens_go (cur : option string) (s : string) : list string :=
  match s with
  | EmptyString => option_list (String.rev <$> cur)
  | String a s' =>
      if PyStr.isspace a
      then option_list (String.rev <$> cur) ++ tokens_go None s'
      else tokens_go (Some (String a (default EmptyString cur))) s'
  end.
Definition tokens (s : string) : list string := tokens_go None s.

(** [class_=c]: one of the classes of the tag is [c]. *)
Definition has_class (c : string) (attrs : list (string * string)) : bool :=
  match get_attr "class" attrs with
  | Some v => existsb (String.eqb c) (tokens v)
  | None => false
  end.

(** [find_all(name, ...)] with a test on the attributes. *)
Definition matches (name : string) (test : list (string * string) -> bool)
    (n : node) : bool :=
  match n with
  | NavigableString _ => false
  | Tag nm attrs _ => String.eqb nm name && test attrs
  end.

Definition find_all (name : string) (test : list (string * string) -> bool)
    (n : node) : list node :=
  List.filter (matches name test) (descendants n).

(** [find(name, ...)]: the first match, or [None]. *)
Definition find (name : string) (test : list (string * string) -> bool)
    (n : node) : option node :=
  head (find_all name test n).

(** [attrs={key: value}] *)
Definition attr_is (key value : string) (attrs : list (string * string)) : bool :=
  match get_attr key attrs with
  | Some v => String.eqb v value
  | None => false
  end.

(** [href=lambda x: x and p(x)] *)
Definition href_with (p : string -> bool) (attrs : list (string * string)) : bool :=
  match get_attr "href" attrs with
  | Some v => negb (String.eqb v EmptyString) && p v
  | None => false
  end.

(** [tag.get_text(strip=True)]: the strings below the tag, each stripped,
    the empty ones dropped, concatenated. *)
Definition stripped_strings (n : node) : list string :=
  List.filter (fun s => negb (String.eqb s EmptyString))
    (omap (fun d => match d with
                    | NavigableString s => Some (PyStr.strip s)
                    | Tag _ _ _ => None
                    end) (descendants n)).

Definition get_text_strip (n : node) : string :=
  String.concat EmptyString (stripped_strings n).

(** [tag[key]] *)
Definition getitem (n : node) (key : string) : result string :=
  match n with
  | Tag _ attrs _ =>
      match get_attr key attrs with
      | Some v => Ok v
      | None => Raise (KeyError key)
      end
  | NavigableString _ => Raise (KeyError key)
  end.

End Bs4.

(** ** Python values that reach the date parameter *)

Inductive pyval : Type :=
| PyNone
| PyBool (b : bool)
| PyInt (z : Z)
| PyStr (s : string).

(** [f"{v}"] *)
Definition py_format (v : pyval) : string :=
  match v with
  | PyNone => "None"
  | PyBool true => "True"
  | PyBool false => "False"
  | PyInt z => PyStr.of_int z
  | PyStr s => s
  end.

(** [datetime.now()], as far as [strftime] reads it. *)
Record datetime : Type := {
  year : Z; month : Z; day : Z; hour : Z; minute : Z; second : Z
}.

(** A field of [strftime]: [n] on [k] digits, padded with zeros. *)
Fixpoint zero_padded (k : nat) (n : Z) (acc : string) : string :=
  match k with
  | O => acc
  | S k' => zero_padded k' (n / 10) (String (PyStr.digit_char (n mod 10)) acc)
  end.

(** [d.strftime("%Y-%m-%d")], for a year of four digits. *)
Definition strftime_Ymd (d : datetime) : string :=
  zero_padded 4 (year d) ("-" +:+ zero_padded 2 (month d) ("-" +:+ zero_padded 2 (day d) "")).

(** ** HTTP *)

Module Http.

Inductive request : Type :=
| GET (url : string)
| POST (url : string) (data : list (string * string)).

(** A response: its status, the reason phrase of its status line, its URL
    and its body. *)
Record response : Type := { status_code : Z; reason : string; url : string; text : string }.

(** [resp.raise_for_status()] on a response with this status, reason and
    URL. *)
Definition raise_for_status (status : Z) (reason url : string) : result unit :=
  if (400 <=? status) && (status <? 600) then Raise (HTTPError status reason url)
  else Ok tt.

(** A streamed response ([stream=True]): the status, the chunks that
    [iter_content] yields, and the exception it raises after them when the
    transfer breaks. *)
Record stream : Type := {
  stream_status : Z;
  stream_reason : string;
  stream_url : string;
  chunks : list string;
  broken : option exn
}.

End Http.

(** ** benty_client.py *)

Module BentyClient.
Import Http Bs4.

(** A paper dictionary, as [_parse_paper] builds it. *)
Record paper : Type := {
  rank : Z;
  title : string;
  authors : string;
  abstract : string;
  arxiv_id : string;
  arxiv_version : string;
  pdf_url : string;
  abs_url : string
}.

(** [BentyFieldsClient]: the credentials, the flag, and the requests its
    session has sent so far. *)
Record client : Type := {
  email : string;
  password : string;
  logged_in : bool;
  sent : list request
}.

Definition set_logged_in (c : client) : client :=
  {| email := email c; password := password c; logged_in := true; sent := sent c |}.

Definition record_request (q : request) (c : client) : client :=
  {| email := email c; password := password c; logged_in := logged_in c;
     sent := sent c ++ [q] |}.

(** [_parse_paper(paper_div)] *)
Definition _parse_paper (paper_div : node) : result paper :=
  match find "h4" (has_class "paper_row") paper_div with
  | None => Raise (ValueError "Could not find paper title")
  | Some h4 =>
      let raw_title := get_text_strip h4 in
      match PyStr.split1 "."%char raw_title with
      | [rank_str; title] =>
          match find "p" (has_class "paper_row") paper_div with
          | None => Raise (ValueError "Could not find authors")
          | Some authors_p =>
              let authors := get_text_strip authors_p in
              match find "a" (href_with (PyStr.contains "arxiv.org/abs")) paper_div with
              | None => Raise (ValueError "Could not find arXiv abstract link")
              | Some abs_link =>
                  match find "a" (href_with (fun x => PyStr.endswith x ".pdf")) paper_div with
                  | None => Raise (ValueError "Could not find PDF link")
                  | Some pdf_link =>
                      let arxiv_version := get_text_strip abs_link in
                      let arxiv_id := PyStr.split_first "v"%char arxiv_version in
                      let abstract :=
                        match find "p" (attr_is "name" "abstract_field") paper_div with
                        | Some abstract_p => get_text_strip abstract_p
                        | None => EmptyString
                        end in
                      rank <- PyStr.int rank_str ;;
                      pdf_href <- getitem pdf_link "href" ;;
                      abs_href <- getitem abs_link "href" ;;
                      Ok {| rank := rank;
                            title := PyStr.strip title;
                            authors := authors;
                            abstract := abstract;
                            arxiv_id := arxiv_id;
                            arxiv_version := arxiv_version;
                            pdf_url := pdf_href;
                            abs_url := abs_href |}
                  end
              end
          end
      | _ => Raise (ValueError "not enough values to unpack (expected 2, got 1)")
      end
  end.

(** [l[:n]] for a Python integer [n]. *)
Definition slice_list {A : Type} (n : Z) (l : list A) : list A :=
  if n <? 0 then take (length l - Z.to_nat (- n)) l else take (Z.to_nat n) l.

(** The loop of [fetch_daily_papers]: a block whose parse raises is
    skipped. *)
Fixpoint parse_all (paper_divs : list node) (papers : list paper) : list paper :=
  match paper_divs with
  | [] => papers
  | paper_div :: rest =>
      match _parse_paper paper_div with
      | Ok paper_info => parse_all rest (papers ++ [paper_info])
      | Raise _ => parse_all rest papers
      end
  end.

Section Client.
(** The site: what it answers to a request, given the requests the session
    sent before; [Raise] is a transport failure. *)
Variable site : list request -> request -> result response.
(** [BeautifulSoup(text, "html.parser")] *)
Variable html_parser : string -> node.
(** [datetime.now()] *)
Variable now : datetime.

Definition login_url : string := "https://www.benty-fields.com/login".

(** [self.session.get(url)] and [self.session.post(url, data)] *)
Definition send (q : request) (c : client) : result response * client :=
  (site (sent c) q, record_request q c).

(** [login(self)] *)
Definition login (c : client) : result bool * client :=
  match send (GET login_url) c with
  | (Raise e, c1) => (Raise e, c1)
  | (Ok resp, c1) =>
      match raise_for_status (status_code resp) (reason resp) (url resp) with
      | Raise e => (Raise e, c1)
      | Ok _ =>
          let soup := html_parser (text resp) in
          match find "input" (attr_is "name" "csrf_token") soup with
          | None => (Raise (RuntimeError "Could not find CSRF token on login page"), c1)
          | Some csrf_token_input =>
              match getitem csrf_token_input "value" with
              | Raise e => (Raise e, c1)
              | Ok csrf_token =>
                  let payload := [("email", email c1); ("password", password c1);
                                  ("csrf_token", csrf_token)] in
                  match send (POST login_url payload) c1 with
                  | (Raise e, c2) => (Raise e, c2)
                  | (Ok resp2, c2) =>
                      match raise_for_status (status_code resp2) (reason resp2) (url resp2) with
                      | Raise e => (Raise e, c2)
                      | Ok _ =>
                          if negb (PyStr.contains "Logout" (text resp2))
                          then (Raise (RuntimeError "Login failed - check credentials"), c2)
                          else (Ok true, set_logged_in c2)
                      end
                  end
              end
          end
      end
  end.

(** [_ensure_logged_in(self)] *)
Definition _ensure_logged_in (c : client) : result unit * client :=
  if negb (logged_in c)
  then match login c with
       | (Ok _, c') => (Ok tt, c')
       | (Raise e, c') => (Raise e, c')
       end
  else (Ok tt, c).

(** Lines 69-70: [if date is None: date = datetime.now().strftime("%Y-%m-%d")] *)
Definition date_or_today (date : pyval) : pyval :=
  match date with
  | PyNone => PyStr (strftime_Ymd now)
  | _ => date
  end.

Definition listing_url (date : pyval) : string :=
  "https://www.benty-fields.com/daily_arXiv_results?date=" +:+ py_format date.

(** The blocks of the listing page that the loop visits. *)
Definition paper_divs (soup : node) (num_papers : Z) : list node :=
  slice_list num_papers (find_all "div" (has_class "paper") soup).

(** [fetch_daily_papers(self, date, num_papers)] *)
Definition fetch_daily_papers (date : pyval) (num_papers : Z) (c : client)
  : result (list paper) * client :=
  match _ensure_logged_in c with
  | (Raise e, c1) => (Raise e, c1)
  | (Ok _, c1) =>
      let date := date_or_today date in
      match send (GET (listing_url date)) c1 with
      | (Raise e, c2) => (Raise e, c2)
      | (Ok resp, c2) =>
          match raise_for_status (status_code resp) (reason resp) (url resp) with
          | Raise e => (Raise e, c2)
          | Ok _ =>
              let soup := html_parser (text resp) in
              (Ok (parse_all (paper_divs soup num_papers) []), c2)
          end
      end
  end.

End Client.

End BentyClient.

(** ** Paths and the file system *)

Module PathLib.

(** A [pathlib.Path] (POSIX flavour): whether it starts at the root, and its
    components. *)
Record path : Type := { absolute : bool; parts : list string }.

Global Instance path_eq_dec : EqDecision path.
Proof. solve_decision. Defined.

Global Instance path_countable : Countable path :=
  inj_countable' (fun p => (absolute p, parts p))
                 (fun x => {| absolute := x.1; parts := x.2 |})
                 (fun p => match p with Build_path _ _ => eq_refl end).

Definition is_component (s : string) : bool :=
  negb (String.eqb s "") && negb (String.eqb s ".").

(** [Path(s)]: empty components and ["."] are dropped.  A path is the file
    it names: a string that starts with exactly two slashes, which [pathlib]
    prints with both and a POSIX system resolves as with one, is the path
    with one. *)
Definition of_string (s : string) : path :=
  {| absolute := PyStr.startswith s "/";
     parts := List.filter is_component (PyStr.split "/"%char s) |}.

(** [p / s] *)
Definition joinpath (p : path) (s : string) : path :=
  let q := of_string s in
  if absolute q then q
  else {| absolute := absolute p; parts := parts p ++ parts q |}.

(** [p.name] *)
Definition name (p : path) : string := List.last (parts p) "".

(** [p.parent] *)
Definition parent (p : path) : path :=
  {| absolute := absolute p; parts := removelast (parts p) |}.

(** [s.rfind(".")], counted from the left. *)
Fixpoint rfind_dot (s : string) : option nat :=
  match s with
  | EmptyString => None
  | String c s' =>
      match rfind_dot s' with
      | Some i => Some (S i)
      | None => if Ascii.eqb c "."%char then Some O else None
      end
  end.

(** [p.suffix]: from the last dot of the name, unless that dot is the first
    or the last character. *)
Definition suffix_of (nm : string) : string :=
  match rfind_dot nm with
  | Some i =>
      if ((0 <? i) && (i <? String.length nm - 1))%nat
      then substring i (String.length nm - i) nm
      else ""
  | None => ""
  end.

(** [p.with_suffix(suffix)] for a suffix that starts with a dot. *)
Definition with_suffix (p : path) (suffix : string) : result path :=
  let nm := name p in
  if String.eqb nm "" then Raise (ValueError "path has an empty name")
  else
    let old_suffix := suffix_of nm in
    let stem := substring 0 (String.length nm - String.length old_suffix) nm in
    Ok {| absolute := absolute p; parts := removelast (parts p) ++ [stem +:+ suffix] |}.

(** [str(p)] *)
Definition to_string (p : path) : string :=
  match absolute p, parts p with
  | true, ps => "/" +:+ String.concat "/" ps
  | false, [] => "."
  | false, ps => String.concat "/" ps
  end.

(** What a path names. *)
Inductive entry : Type :=
| File (content : string)
| Dir.

(** The root and the current directory are directories of every file
    system. *)
Definition lookup_entry (fs : gmap path entry) (p : path) : option entry :=
  match parts p with
  | [] => Some Dir
  | _ => fs !! p
  end.

(** [p.exists()] *)
Definition path_exists (fs : gmap path entry) (p : path) : bool :=
  match lookup_entry fs p with
  | Some _ => true
  | None => false
  end.

(** [str(e)] for an [OSError] of the operating system: the error number,
    its text and the name of the file. *)
Definition os_error (errno : Z) (strerror : string) (p : path) : string :=
  "[Errno " +:+ PyStr.of_int errno +:+ "] " +:+ strerror +:+ ": "
  +:+ PyStr.repr (to_string p).

(** [open(p, "wb")] and [open(p, "w", encoding="utf-8")]: the file is
    created or emptied; its directory must be there. *)
Definition open_w (p : path) (fs : gmap path entry) : result (gmap path entry) :=
  match lookup_entry fs p with
  | Some Dir => Raise (IsADirectoryError (os_error 21 "Is a directory" p))
  | _ =>
      match lookup_entry fs (parent p) with
      | Some Dir => Ok (<[p := File ""]> fs)
      | Some (File _) => Raise (NotADirectoryError (os_error 20 "Not a directory" p))
      | None => Raise (FileNotFoundError (os_error 2 "No such file or directory" p))
      end
  end.

(** [f.write(data)] on a file opened by [open_w]. *)
Definition write (p : path) (data : string) (fs : gmap path entry) : gmap path entry :=
  match fs !! p with
  | Some (File old) => <[p := File (old +:+ data)]> fs
  | _ => fs
  end.

(** [d.mkdir(parents=True, exist_ok=True)]: the directories from [done]
    downwards along [todo].  A file in the way is reported under the name of
    the directory that was to be made. *)
Fixpoint mkdir_go (abs : bool) (done todo : list string) (fs : gmap path entry)
  : result (gmap path entry) :=
  match todo with
  | [] => Ok fs
  | d :: todo' =>
      let here := {| absolute := abs; parts := done ++ [d] |} in
      match fs !! here with
      | Some Dir => mkdir_go abs (done ++ [d]) todo' fs
      | Some (File _) =>
          match todo' with
          | [] => Raise (FileExistsError (os_error 17 "File exists" here))
          | _ =>
              Raise (NotADirectoryError
                       (os_error 20 "Not a directory"
                          {| absolute := abs; parts := done ++ d :: todo' |}))
          end
      | None => mkdir_go abs (done ++ [d]) todo' (<[here := Dir]> fs)
      end
  end.

Definition mkdir_parents (d : path) (fs : gmap path entry) : result (gmap path entry) :=
  mkdir_go (absolute d) [] (parts d) fs.

End PathLib.

(** [str(e)] *)
Definition exn_str (e : exn) : string :=
  match e with
  | ValueError m | RuntimeError m | FileNotFoundError m | FileExistsError m
  | IsADirectoryError m | NotADirectoryError m | RequestException m
  | LibraryError m => m
  | KeyError k => PyStr.repr k
  | HTTPError st reason url =>
      if (400 <=? st) && (st <? 500)
      then PyStr.of_int st +:+ " Client Error: " +:+ reason +:+ " for url: " +:+ url
      else if (500 <=? st) && (st <? 600)
      then PyStr.of_int st +:+ " Server Error: " +:+ reason +:+ " for url: " +:+ url
      else ""
  end.

(** ** pdf_processor.py *)

Module PdfProcessor.
Import Http PathLib.

(** A call that leaves the process: an HTTP request for a PDF, or a PDF
    library opening a file. *)
Inductive call : Type :=
| RequestsGet (url : string)
| FitzOpen (pdf : path)
| PdfplumberOpen (pdf : path)
| ToMarkdown (pdf : path).

Global Instance call_eq_dec : EqDecision call.
Proof. solve_decision. Defined.

(** The world the processor acts on: the files, and the calls made so far. *)
Record world : Type := { files : gmap path entry; calls : list call }.

Definition log (c : call) (w : world) : world :=
  {| files := files w; calls := calls w ++ [c] |}.

Definition with_files (fs : gmap path entry) (w : world) : world :=
  {| files := fs; calls := calls w |}.

(** The requests for PDFs among the calls. *)
Definition downloads (w : world) : list string :=
  omap (fun c => match c with RequestsGet u => Some u | _ => None end) (calls w).

(** The conversions to Markdown among the calls. *)
Definition conversions (w : world) : list path :=
  omap (fun c => match c with ToMarkdown p => Some p | _ => None end) (calls w).

(** A document opened by PyMuPDF: what [get_text] gives page by page, and
    what [close] does. *)
Record fitz_doc : Type := { fitz_pages : list (outcome string); fitz_close : outcome unit }.

(** The loop [for page in doc: text += page.get_text()]: the outcome and the
    text accumulated until then. *)
Fixpoint fitz_loop (pages : list (outcome string)) (text : string) : outcome unit * string :=
  match pages with
  | [] => (Done tt, text)
  | Done t :: rest => fitz_loop rest (text +:+ t)
  | Failed why :: _ => (Failed why, text)
  end.

(** The loop over [pdf.pages] of pdfplumber: [extract_text] gives a string
    or [None]. *)
Fixpoint pdfplumber_loop (pages : list (outcome (option string))) (text : string)
  : outcome string :=
  match pages with
  | [] => Done text
  | Done (Some page_text) :: rest =>
      if String.eqb page_text "" then pdfplumber_loop rest text
      else pdfplumber_loop rest (text +:+ page_text +:+ String "010"%char "")
  | Done None :: rest => pdfplumber_loop rest text
  | Failed why :: _ => Failed why
  end.

(** [for chunk in r.iter_content(...): if chunk: f.write(chunk)] *)
Fixpoint write_chunks (p : path) (chunks : list string) (fs : gmap path entry)
  : gmap path entry :=
  match chunks with
  | [] => fs
  | chunk :: rest =>
      if String.eqb chunk "" then write_chunks p rest fs
      else write_chunks p rest (write p chunk fs)
  end.

Section Processor.
(** The import flags of the module. *)
Variable PYMUPDF_AVAILABLE : bool.
Variable PDFPLUMBER_AVAILABLE : bool.
Variable PYMUPDF4LLM_AVAILABLE : bool.
(** [requests.get(url, headers, stream=True, timeout=30)], given the PDFs
    requested before; [Raise] is a failure before any response. *)
Variable origin : list string -> string -> result stream.
(** [fitz.open(path)] on what the path names. *)
Variable fitz_open : entry -> outcome fitz_doc.
(** [pdfplumber.open(path)] and its pages. *)
Variable pdfplumber_open : entry -> outcome (list (outcome (option string))).
(** [pymupdf4llm.to_markdown(path, show_progress=False)] *)
Variable to_markdown : entry -> outcome string.

(** [self.tmp_dir] *)
Variable tmp_dir : path.

(** [__init__]: the directory is made, and one PDF library is required. *)
Definition init (w : world) : result unit * world :=
  match mkdir_parents tmp_dir (files w) with
  | Raise e => (Raise e, w)
  | Ok fs =>
      if negb PYMUPDF_AVAILABLE && negb PDFPLUMBER_AVAILABLE
      then (Raise (RuntimeError "No PDF library available. Please install PyMuPDF (pip install pymupdf) or pdfplumber (pip install pdfplumber)"),
            with_files fs w)
      else (Ok tt, with_files fs w)
  end.

(** The file name that [download_pdf] takes from the URL. *)
Definition default_filename (pdf_url : string) : string :=
  let filename := PyStr.split_last "/"%char pdf_url in
  if negb (PyStr.endswith filename ".pdf") then filename +:+ ".pdf" else filename.

(** Lines 63-70: where [download_pdf] saves. *)
Definition destination (pdf_url : string) (save_path : option path) : path :=
  match save_path with
  | None => joinpath tmp_dir (default_filename pdf_url)
  | Some p => p
  end.

(** [download_pdf(self, pdf_url, save_path)] *)
Definition download_pdf (pdf_url : string) (save_path : option path) (w : world)
  : result path * world :=
  let save_path := destination pdf_url save_path in
  if path_exists (files w) save_path then (Ok save_path, w)
  else
    let w1 := log (RequestsGet pdf_url) w in
    match origin (downloads w) pdf_url with
    | Raise e => (Raise e, w1)
    | Ok r =>
        match raise_for_status (stream_status r) (stream_reason r) (stream_url r) with
        | Raise e => (Raise e, w1)
        | Ok _ =>
            match open_w save_path (files w1) with
            | Raise e => (Raise e, w1)
            | Ok fs =>
                let w2 := with_files (write_chunks save_path (chunks r) fs) w1 in
                match broken r with
                | Some e => (Raise e, w2)
                | None => (Ok save_path, w2)
                end
            end
        end
    end.

(** The cache path of a paper: [self.tmp_dir / f"{arxiv_id}.pdf"]. *)
Definition pdf_cache_path (arxiv_id : string) : path :=
  joinpath tmp_dir (arxiv_id +:+ ".pdf").

(** [download_paper_pdf(self, paper)] *)
Definition download_paper_pdf (paper : BentyClient.paper) (w : world)
  : result path * world :=
  let arxiv_id := BentyClient.arxiv_id paper in
  let pdf_url := BentyClient.pdf_url paper in
  let pdf_path := pdf_cache_path arxiv_id in
  if path_exists (files w) pdf_path then (Ok pdf_path, w)
  else download_pdf pdf_url (Some pdf_path) w.

(** The [try] block of PyMuPDF, lines 130-136: the text, or the failure;
    and in both cases the text accumulated. *)
Definition fitz_extract (e : entry) (text : string) : outcome string * string :=
  match fitz_open e with
  | Failed why => (Failed why, text)
  | Done doc =>
      match fitz_loop (fitz_pages doc) text with
      | (Failed why, text') => (Failed why, text')
      | (Done _, text') =>
          match fitz_close doc with
          | Failed why => (Failed why, text')
          | Done _ => (Done text', text')
          end
      end
  end.

(** The [try] block of pdfplumber, lines 142-149. *)
Definition pdfplumber_extract (e : entry) (text : string) : outcome string :=
  match pdfplumber_open e with
  | Failed why => Failed why
  | Done pages => pdfplumber_loop pages text
  end.

(** The second half of [extract_text]: pdfplumber, whose exception is raised
    again, or no library at all. *)
Definition extract_fallback (pdf_path : path) (e : entry) (text : string) (w : world)
  : result string * world :=
  if PDFPLUMBER_AVAILABLE then
    let w1 := log (PdfplumberOpen pdf_path) w in
    match pdfplumber_extract e text with
    | Failed why => (Raise (LibraryError why), w1)
    | Done text' => (Ok text', w1)
    end
  else (Raise (RuntimeError "No PDF extraction library available"), w).

(** [extract_text(self, pdf_path)] *)
Definition extract_text (pdf_path : path) (w : world) : result string * world :=
  match lookup_entry (files w) pdf_path with
  | None => (Raise (FileNotFoundError ("PDF file not found: " +:+ to_string pdf_path)), w)
  | Some e =>
      let text := "" in
      if PYMUPDF_AVAILABLE then
        let w1 := log (FitzOpen pdf_path) w in
        match fitz_extract e text with
        | (Done text', _) => (Ok text', w1)
        | (Failed _, text') => extract_fallback pdf_path e text' w1
        end
      else extract_fallback pdf_path e text w
  end.

(** [convert_to_markdown(self, pdf_path)] *)
Definition convert_to_markdown (pdf_path : path) (w : world) : result string * world :=
  match lookup_entry (files w) pdf_path with
  | None => (Raise (FileNotFoundError ("PDF file not found: " +:+ to_string pdf_path)), w)
  | Some e =>
      if negb PYMUPDF4LLM_AVAILABLE
      then (Raise (RuntimeError "pymupdf4llm is not available. Please install it: pip install pymupdf4llm"), w)
      else
        let w1 := log (ToMarkdown pdf_path) w in
        match to_markdown e with
        | Done markdown => (Ok markdown, w1)
        | Failed why =>
            (Raise (RuntimeError ("PDF to Markdown conversion failed: " +:+ why)), w1)
        end
  end.

(** [get_markdown_path(self, pdf_path)] *)
Definition get_markdown_path (pdf_path : path) : result path :=
  with_suffix pdf_path ".md".

(** [convert_and_save_markdown(self, pdf_path, markdown_path)] *)
Definition convert_and_save_markdown (pdf_path : path) (markdown_path : option path)
    (w : world) : result path * world :=
  let target :=
    match markdown_path with
    | None => get_markdown_path pdf_path
    | Some p => Ok p
    end in
  match target with
  | Raise e => (Raise e, w)
  | Ok markdown_path =>
      if path_exists (files w) markdown_path then (Ok markdown_path, w)
      else
        match convert_to_markdown pdf_path w with
        | (Raise e, w1) => (Raise e, w1)
        | (Ok markdown, w1) =>
            match mkdir_parents (parent markdown_path) (files w1) with
            | Raise e => (Raise e, w1)
            | Ok fs1 =>
                match open_w markdown_path fs1 with
                | Raise e => (Raise e, with_files fs1 w1)
                | Ok fs2 =>
                    (Ok markdown_path, with_files (write markdown_path markdown fs2) w1)
                end
            end
        end
  end.

End Processor.

(** What a library does with a document, told on its own calls; these
    notions state the properties of [extract_text]. *)

(** PyMuPDF reads the document: it opens it, every page gives its text, and
    the document closes. *)
Definition fitz_reads (fitz_open : entry -> outcome fitz_doc) (e : entry)
    (texts : list string) : Prop :=
  exists doc,
    fitz_open e = Done doc /\ fitz_pages doc = Done <$> texts /\ fitz_close doc = Done tt.

(** PyMuPDF fails after it has read the pages [texts]: when it opens the
    document, at the next page, or when it closes the document. *)
Definition fitz_fails (fitz_open : entry -> outcome fitz_doc) (e : entry)
    (texts : list string) : Prop :=
  (texts = [] /\ exists why, fitz_open e = Failed why)
  \/ exists doc,
       fitz_open e = Done doc
       /\ ((exists why rest, fitz_pages doc = (Done <$> texts) ++ Failed why :: rest)
           \/ (fitz_pages doc = Done <$> texts /\ exists why, fitz_close doc = Failed why)).

(** The text of the pages of pdfplumber: each text that is there and not
    empty, followed by a line feed. *)
Definition page_lines (pages : list (option string)) : string :=
  String.concat ""
    ((fun page => match page with
                  | Some page_text =>
                      if String.eqb page_text "" then ""
                      else page_text +:+ String "010"%char ""
                  | None => ""
                  end) <$> pages).

(** pdfplumber reads the document: it opens it and every page gives its
    text or [None]. *)
Definition pdfplumber_reads
    (pdfplumber_open : entry -> outcome (list (outcome (option string))))
    (e : entry) (pages : list (option string)) : Prop :=
  pdfplumber_open e = Done (Done <$> pages).

(** pdfplumber fails: when it opens the document, or at a page. *)
Definition pdfplumber_fails
    (pdfplumber_open : entry -> outcome (list (outcome (option string))))
    (e : entry) (why : string) : Prop :=
  pdfplumber_open e = Failed why
  \/ exists pages rest, pdfplumber_open e = Done ((Done <$> pages) ++ Failed why :: rest).

(** Lines 39-42 of [__init__]: the directory of [PDFProcessor(tmp_dir)],
    where [system_tmp] is [Path(tempfile.gettempdir())]. *)
Definition resolve_tmp_dir (system_tmp : path) (tmp_dir : option string) : path :=
  match tmp_dir with
  | None => joinpath system_tmp "benty_arxiv_pdfs"
  | Some s => of_string s
  end.

End PdfProcessor.

(** ** generate_summary.py *)

Module GenerateSummary.
Import PathLib PdfProcessor.

(** The line feed of the Python source. *)
Definition LF : string := String "010"%char "".

(** The bounds on the content shown in a section. *)
#[warnings="-abstract-large-number"] Definition markdown_bound : nat := 10000.
Definition text_bound : nat := 5000.

Definition markdown_marker : string :=
  LF +:+ LF +:+ "... (truncated, full content available in Markdown file)".
Definition text_marker : string := "...".

(** [content_preview], lines 167-169. *)
Definition content_preview (markdown_content : string) : string :=
  let content_preview := PyStr.slice_to markdown_bound markdown_content in
  if (markdown_bound <? String.length markdown_content)%nat
  then content_preview +:+ markdown_marker
  else content_preview.

(** [text[:5000] + ("..." if len(text) > 5000 else "")], line 189. *)
Definition text_preview (text : string) : string :=
  PyStr.slice_to text_bound text
  +:+ (if (text_bound <? String.length text)%nat then text_marker else "").

(** The lines of a Markdown content block. *)
Definition markdown_section (md_path : path) (markdown_content : string) : list string :=
  [ "**Paper Content (Markdown):**"; "";
    "```markdown";
    content_preview markdown_content;
    "```"; "";
    "*Full Markdown file: " +:+ to_string md_path +:+ "*"; "" ].

(** The lines of a plain-text content block. *)
Definition text_section (text : string) : list string :=
  [ "**Extracted PDF Text:**"; "";
    "```";
    text_preview text;
    "```"; "" ].

Definition failure_notice (e : exn) : string :=
  "*PDF content extraction failed: " +:+ exn_str e +:+ "*" +:+ LF.

(** [with open(p, "r", encoding="utf-8") as f: f.read()] on a file that
    holds a text: the text, with its line ends read as LF. *)
Definition read_text (p : path) (fs : gmap path entry) : result string :=
  match lookup_entry fs p with
  | Some (File content) => Ok (PyStr.universal_newlines content)
  | Some Dir => Raise (IsADirectoryError (os_error 21 "Is a directory" p))
  | None => Raise (FileNotFoundError (os_error 2 "No such file or directory" p))
  end.

(** The four sections of the analysis: a dictionary read with [get]. *)
Record ai_sections : Type := {
  motivation : option string;
  methodology : option string;
  data_used : option string;
  conclusions : option string
}.

Section Summary.
Variable PYMUPDF_AVAILABLE : bool.
Variable PDFPLUMBER_AVAILABLE : bool.
Variable PYMUPDF4LLM_AVAILABLE : bool.
Variable origin : list string -> string -> result Http.stream.
Variable fitz_open : entry -> outcome fitz_doc.
Variable pdfplumber_open : entry -> outcome (list (outcome (option string))).
Variable to_markdown : entry -> outcome string.
Variable tmp_dir : path.
(** [fill_ai_sections(title, abstract, authors)], lines 34-107: the sections
    of the analysis of a paper.  The function catches every exception of its
    request and of the parse of the answer, so it always returns sections; it
    is taken here as the sections it returns for a paper.  The request it
    sends to the service of the analysis is not a call of the processor and
    is not among the [calls] of the world. *)
Variable fill_ai_sections : string -> string -> string -> ai_sections.
(** [datetime.now().strftime('%Y-%m-%d %H:%M:%S')] *)
Variable generated : string.

Definition extract (pdf_path : path) (w : world) : result string * world :=
  extract_text PYMUPDF_AVAILABLE PDFPLUMBER_AVAILABLE fitz_open pdfplumber_open pdf_path w.

Definition save_markdown (pdf_path : path) (w : world) : result path * world :=
  convert_and_save_markdown PYMUPDF4LLM_AVAILABLE to_markdown pdf_path None w.

(** The handler of the inner [try]: the text of the PDF instead of its
    Markdown. *)
Definition text_fallback (pdf_path : path) (w : world) : result (list string) * world :=
  match extract pdf_path w with
  | (Ok text, w1) => (Ok (text_section text), w1)
  | (Raise e, w1) => (Raise e, w1)
  end.

(** The Markdown block of a PDF that was already in the cache, lines
    156-192. *)
Definition cached_markdown (pdf_path : path) (w : world) : result (list string) * world :=
  let found :=
    match get_markdown_path pdf_path with
    | Raise e => (Raise e, w)
    | Ok md_path =>
        if negb (path_exists (files w) md_path) then save_markdown pdf_path w
        else (Ok md_path, w)
    end in
  match found with
  | (Raise _, w1) => text_fallback pdf_path w1
  | (Ok md_path, w1) =>
      match read_text md_path (files w1) with
      | Raise _ => text_fallback pdf_path w1
      | Ok markdown_content => (Ok (markdown_section md_path markdown_content), w1)
      end
  end.

(** The Markdown block of a PDF that was just downloaded, lines 200-227. *)
Definition fresh_markdown (pdf_path : path) (w : world) : result (list string) * world :=
  match save_markdown pdf_path w with
  | (Raise _, w1) => text_fallback pdf_path w1
  | (Ok md_path, w1) =>
      match read_text md_path (files w1) with
      | Raise _ => text_fallback pdf_path w1
      | Ok markdown_content => (Ok (markdown_section md_path markdown_content), w1)
      end
  end.

(** The body of [if include_pdf_text:], lines 151-243: the lines added for
    one paper. *)
Definition content_lines (paper : BentyClient.paper) (use_markdown : bool) (w : world)
  : list string * world :=
  let pdf_path := pdf_cache_path tmp_dir (BentyClient.arxiv_id paper) in
  let attempt :=
    if path_exists (files w) pdf_path then
      if use_markdown then cached_markdown pdf_path w
      else (Ok [], w)
    else
      match download_paper_pdf origin tmp_dir paper w with
      | (Raise e, w1) => (Raise e, w1)
      | (Ok pdf_path, w1) =>
          if path_exists (files w1) pdf_path then
            if use_markdown then fresh_markdown pdf_path w1
            else text_fallback pdf_path w1
          else (Ok [], w1)
      end in
  match attempt with
  | (Ok lines, w1) => (lines, w1)
  | (Raise e, w1) => ([failure_notice e], w1)
  end.

(** The lines that every section starts with, lines 133-147. *)
Definition metadata_lines (paper : BentyClient.paper) : list string :=
  [ "## " +:+ PyStr.of_int (BentyClient.rank paper) +:+ ". " +:+ BentyClient.title paper; "";
    "**Authors:** " +:+ BentyClient.authors paper; "";
    "**ArXiv ID:** " +:+ BentyClient.arxiv_id paper
      +:+ " (" +:+ BentyClient.arxiv_version paper +:+ ")"; "";
    "**Abstract:**";
    BentyClient.abstract paper; "";
    "**Links:**";
    "- [Abstract](" +:+ BentyClient.abs_url paper +:+ ")";
    "- [PDF](" +:+ BentyClient.pdf_url paper +:+ ")";
    "" ].

(** The analysis block, lines 246-266. *)
Definition analysis_lines (paper : BentyClient.paper) : list string :=
  let ai := fill_ai_sections (BentyClient.title paper) (BentyClient.abstract paper)
                             (BentyClient.authors paper) in
  let unavailable := "*AI analysis unavailable*" in
  [ "### Research Motivation"; ""; default unavailable (motivation ai); "";
    "### Methodology"; ""; default unavailable (methodology ai); "";
    "### Data Used"; ""; default unavailable (data_used ai); "";
    "### Conclusions"; ""; default unavailable (conclusions ai); "";
    "---"; "" ].

(** The loop over the papers, lines 123-266. *)
Fixpoint sections (papers : list BentyClient.paper) (include_pdf_text use_markdown : bool)
    (markdown_lines : list string) (w : world) : list string * world :=
  match papers with
  | [] => (markdown_lines, w)
  | paper :: rest =>
      let lines1 := markdown_lines ++ metadata_lines paper in
      let '(content, w1) :=
        if include_pdf_text then content_lines paper use_markdown w else ([], w) in
      sections rest include_pdf_text use_markdown
        (lines1 ++ content ++ analysis_lines paper) w1
  end.

Definition header_lines : list string :=
  [ "# Daily ArXiv Papers Summary"; ""; "Generated: " +:+ generated; ""; "---"; "" ].

(** What [generate_daily_summary] returns.  The size is [st_size], the
    number of bytes of the file. *)
Record summary : Type := {
  output_path : string;
  papers_count : nat;
  file_size : nat
}.

(** [generate_daily_summary(papers, output_path, processor, include_pdf_text,
    use_markdown)] *)
Definition generate_daily_summary (papers : list BentyClient.paper) (out : path)
    (include_pdf_text use_markdown : bool) (w : world) : result summary * world :=
  let '(markdown_lines, w1) :=
    sections papers include_pdf_text use_markdown header_lines w in
  match mkdir_parents (parent out) (files w1) with
  | Raise e => (Raise e, w1)
  | Ok fs1 =>
      match open_w out fs1 with
      | Raise e => (Raise e, with_files fs1 w1)
      | Ok fs2 =>
          let document := String.concat LF markdown_lines in
          (Ok {| output_path := to_string out;
                 papers_count := length papers;
                 file_size := PyStr.utf8_length document |},
           with_files (write out document fs2) w1)
      end
  end.

End Summary.

(** The shapes of what a paper gets between its metadata and its analysis:
    nothing, the notice of a failure, a text block or a Markdown block. *)
Definition content_block (c : list string) : Prop :=
  c = []
  \/ (exists e, c = [failure_notice e])
  \/ (exists text, c = text_section text)
  \/ (exists md_path markdown_content, c = markdown_section md_path markdown_content).

(** What [config.json] holds for the script: [benty_fields.email] and
    [benty_fields.password] (the empty string when absent), [num_papers],
    [output_dir] and [tmp_dir]. *)
Record script_config : Type := {
  sc_email : string;
  sc_password : string;
  sc_num_papers : option Z;
  sc_output_dir : option string;
  sc_tmp_dir : option string
}.

Section Script.
Variable PYMUPDF_AVAILABLE : bool.
Variable PDFPLUMBER_AVAILABLE : bool.
Variable PYMUPDF4LLM_AVAILABLE : bool.
Variable site : list Http.request -> Http.request -> result Http.response.
Variable html_parser : string -> Bs4.node.
Variable now : datetime.
Variable origin : list string -> string -> result Http.stream.
Variable fitz_open : entry -> outcome fitz_doc.
Variable pdfplumber_open : entry -> outcome (list (outcome (option string))).
Variable to_markdown : entry -> outcome string.
Variable fill_ai_sections : string -> string -> string -> ai_sections.
Variable generated : string.
(** [Path(tempfile.gettempdir())] *)
Variable system_tmp : path.
(** [load_config()] *)
Variable load_config : result script_config.

(** Line 291. *)
Definition date : string := "2026-01-09".

(** Line 325: [Path(output_dir) / f"summary_{date.replace('-', '')}.md"] *)
Definition summary_path (output_dir : string) : path :=
  joinpath (of_string output_dir) ("summary_" +:+ PyStr.replace "-" "" date +:+ ".md").

(** [main()]: what it returns when it does not raise ([None] when the
    listing is empty), the requests that its client has sent, and the
    world. *)
Definition main (w : world)
  : result (option summary) * (list Http.request * world) :=
  match load_config with
  | Raise e => (Raise e, ([], w))
  | Ok config =>
      if String.eqb (sc_email config) "" || String.eqb (sc_password config) ""
      then (Raise (ValueError "benty_fields.email and benty_fields.password must be set in config.json"),
            ([], w))
      else
        let num_papers := default 10 (sc_num_papers config) in
        let output_dir := default "./summaries" (sc_output_dir config) in
        let client := {| BentyClient.email := sc_email config;
                         BentyClient.password := sc_password config;
                         BentyClient.logged_in := false;
                         BentyClient.sent := [] |} in
        match BentyClient.login site html_parser client with
        | (Raise e, c1) => (Raise e, (BentyClient.sent c1, w))
        | (Ok _, c1) =>
            let tmp_dir := resolve_tmp_dir system_tmp (sc_tmp_dir config) in
            match init PYMUPDF_AVAILABLE PDFPLUMBER_AVAILABLE tmp_dir w with
            | (Raise e, w1) => (Raise e, (BentyClient.sent c1, w1))
            | (Ok _, w1) =>
                match BentyClient.fetch_daily_papers site html_parser now (PyStr date)
                        num_papers c1 with
                | (Raise e, c2) => (Raise e, (BentyClient.sent c2, w1))
                | (Ok papers, c2) =>
                    if (length papers =? 0)%nat then (Ok None, (BentyClient.sent c2, w1))
                    else
                      match generate_daily_summary PYMUPDF_AVAILABLE PDFPLUMBER_AVAILABLE
                              PYMUPDF4LLM_AVAILABLE origin fitz_open pdfplumber_open
                              to_markdown tmp_dir fill_ai_sections generated
                              papers (summary_path output_dir) false true w1 with
                      | (Raise e, w2) => (Raise e, (BentyClient.sent c2, w2))
                      | (Ok result, w2) => (Ok (Some result), (BentyClient.sent c2, w2))
                      end
                end
            end
        end
  end.

End Script.

End GenerateSummary.

(** ** server.py: the date and the count of the [fetch_daily_papers] tool *)

Module Server.
Import BentyClient.

(** What [config.json] holds for the tool: [config.get("date")] and
    [config.get("num_papers")]. *)
Record config : Type := {
  cfg_email : string;
  cfg_password : string;
  cfg_date : pyval;
  cfg_num_papers : option Z
}.

(** [isinstance(v, int)] *)
Definition is_int (v : pyval) : bool :=
  match v with
  | PyInt _ | PyBool _ => true
  | _ => false
  end.

(** Lines 206-209: a number of eight characters becomes a date with
    dashes. *)
Definition normalize_numeric (date : pyval) : pyval :=
  if is_int date then
    let date_str := py_format date in
    if (String.length date_str =? 8)%nat
    then PyStr (PyStr.slice_to 4 date_str +:+ "-" +:+ PyStr.slice 4 6 date_str
                +:+ "-" +:+ PyStr.slice 6 8 date_str)
    else date
  else date.

Section Tool.
Variable site : list Http.request -> Http.request -> result Http.response.
Variable html_parser : string -> Bs4.node.
Variable now : datetime.
(** [load_config()] *)
Variable load_config : result config.

(** Lines 199-209: the date of the call. *)
Definition resolve_date (arg_date : pyval) : result pyval :=
  match arg_date with
  | PyNone =>
      config <- load_config ;;
      match cfg_date config with
      | PyNone => Ok (PyStr (strftime_Ymd now))
      | date => Ok (normalize_numeric date)
      end
  | date => Ok date
  end.

(** Lines 212-215: the number of papers of the call. *)
Definition resolve_num_papers (arg_num_papers : option Z) : result Z :=
  match arg_num_papers with
  | None => config <- load_config ;; Ok (default 10 (cfg_num_papers config))
  | Some n => Ok n
  end.

(** [get_client()]: the client is made and logged in at its first use. *)
Definition get_client (global : option client) : result client * option client :=
  match global with
  | Some c => (Ok c, global)
  | None =>
      match load_config with
      | Raise e => (Raise e, None)
      | Ok config =>
          if String.eqb (cfg_email config) "" || String.eqb (cfg_password config) ""
          then (Raise (ValueError "benty_fields.email and benty_fields.password must be set in config.json"), None)
          else
            let c := {| email := cfg_email config; password := cfg_password config;
                        logged_in := false; sent := [] |} in
            match login site html_parser c with
            | (Ok _, c') => (Ok c', Some c')
            | (Raise e, c') => (Raise e, Some c')
            end
      end
  end.

(** The result of the tool before it is printed as JSON. *)
Record listing : Type := {
  date_used : pyval;
  num_papers_requested : Z;
  papers : list paper
}.

(** The branch [name == "fetch_daily_papers"] of [call_tool], lines
    197-235. *)
Definition call_fetch_daily_papers (arg_date : pyval) (arg_num_papers : option Z)
    (global : option client) : result listing * option client :=
  match resolve_date arg_date with
  | Raise e => (Raise e, global)
  | Ok date =>
      match resolve_num_papers arg_num_papers with
      | Raise e => (Raise e, global)
      | Ok num_papers =>
          match get_client global with
          | (Raise e, g) => (Raise e, g)
          | (Ok c, _) =>
              match fetch_daily_papers site html_parser now date num_papers c with
              | (Raise e, c') => (Raise e, Some c')
              | (Ok found, c') =>
                  (Ok {| date_used := date; num_papers_requested := num_papers;
                         papers := found |}, Some c')
              end
          end
      end
  end.

(** The global client after the calls of [fetch_daily_papers] that a server
    handles one after the other, each with its date and its number of
    papers. *)
Fixpoint fetch_session (requests : list (pyval * option Z)) (global : option client)
  : option client :=
  match requests with
  | [] => global
  | (arg_date, arg_num_papers) :: rest =>
      fetch_session rest (call_fetch_daily_papers arg_date arg_num_papers global).2
  end.

End Tool.

(** *** The tools that use the processor *)

(** The results of the tools before they are printed as JSON. *)
Record downloaded : Type := {
  dl_arxiv_id : string;
  dl_pdf_path : string;
  dl_exists : bool
}.

Record converted : Type := {
  cv_pdf_path : string;
  cv_markdown_length : nat;
  cv_markdown : string;
  cv_markdown_path : option string
}.

(** Line 251: [arxiv_id or pdf_url.split("/")[-1].replace(".pdf", "")] *)
Definition paper_id (pdf_url : string) (arxiv_id : option string) : string :=
  let from_url := PyStr.replace ".pdf" "" (PyStr.split_last "/"%char pdf_url) in
  match arxiv_id with
  | Some a => if String.eqb a "" then from_url else a
  | None => from_url
  end.

(** Lines 249-252: the dictionary with the two keys that
    [download_paper_pdf] reads; the other fields are not there. *)
Definition minimal_paper (pdf_url arxiv_id : string) : paper :=
  {| rank := 0; title := ""; authors := ""; abstract := "";
     arxiv_id := arxiv_id; arxiv_version := "";
     pdf_url := pdf_url; abs_url := "" |}.

(** Lines 410-429: the analysis sections of the tool. *)
Definition placeholder_lines : list string :=
  [ "### Research Motivation"; ""; "*To be filled by AI analysis*"; "";
    "### Methodology"; ""; "*To be filled by AI analysis*"; "";
    "### Data Used"; ""; "*To be filled by AI analysis*"; "";
    "### Conclusions"; ""; "*To be filled by AI analysis*"; "";
    "---"; "" ].

Section Processing.
Variable PYMUPDF_AVAILABLE : bool.
Variable PDFPLUMBER_AVAILABLE : bool.
Variable PYMUPDF4LLM_AVAILABLE : bool.
Variable origin : list string -> string -> result Http.stream.
Variable fitz_open : PathLib.entry -> outcome PdfProcessor.fitz_doc.
Variable pdfplumber_open : PathLib.entry -> outcome (list (outcome (option string))).
Variable to_markdown : PathLib.entry -> outcome string.
(** [datetime.now().strftime('%Y-%m-%d %H:%M:%S')] *)
Variable generated : string.
(** [Path(tempfile.gettempdir())] *)
Variable system_tmp : PathLib.path.
(** [load_config()] followed by [config.get("tmp_dir")] *)
Variable load_tmp_dir : result (option string).

(** [get_processor()]: the processor, known by its directory, is made at
    its first use; the global is set when [PDFProcessor(...)] has
    returned. *)
Definition get_processor (global : option PathLib.path) (w : PdfProcessor.world)
  : result PathLib.path * (option PathLib.path * PdfProcessor.world) :=
  match global with
  | Some tmp_dir => (Ok tmp_dir, (global, w))
  | None =>
      match load_tmp_dir with
      | Raise e => (Raise e, (None, w))
      | Ok configured =>
          let tmp_dir := PdfProcessor.resolve_tmp_dir system_tmp configured in
          match PdfProcessor.init PYMUPDF_AVAILABLE PDFPLUMBER_AVAILABLE tmp_dir w with
          | (Raise e, w1) => (Raise e, (None, w1))
          | (Ok _, w1) => (Ok tmp_dir, (Some tmp_dir, w1))
          end
      end
  end.

(** The branch [name == "download_paper_pdf"], lines 242-265. *)
Definition call_download_paper_pdf (pdf_url : string) (arxiv_id : option string)
    (global : option PathLib.path) (w : PdfProcessor.world)
  : result downloaded * (option PathLib.path * PdfProcessor.world) :=
  match get_processor global w with
  | (Raise e, st) => (Raise e, st)
  | (Ok tmp_dir, (g, w1)) =>
      let paper := minimal_paper pdf_url (paper_id pdf_url arxiv_id) in
      match PdfProcessor.download_paper_pdf origin tmp_dir paper w1 with
      | (Raise e, w2) => (Raise e, (g, w2))
      | (Ok pdf_path, w2) =>
          (Ok {| dl_arxiv_id := BentyClient.arxiv_id paper;
                 dl_pdf_path := PathLib.to_string pdf_path;
                 dl_exists := PathLib.path_exists (PdfProcessor.files w2) pdf_path |},
           (g, w2))
      end
  end.

(** The branch [name == "convert_pdf_to_markdown"], lines 284-304. *)
Definition call_convert_pdf_to_markdown (pdf_path : string) (save_to_file : bool)
    (global : option PathLib.path) (w : PdfProcessor.world)
  : result converted * (option PathLib.path * PdfProcessor.world) :=
  let pdf_path := PathLib.of_string pdf_path in
  match get_processor global w with
  | (Raise e, st) => (Raise e, st)
  | (Ok _, (g, w1)) =>
      match PdfProcessor.convert_to_markdown PYMUPDF4LLM_AVAILABLE to_markdown
              pdf_path w1 with
      | (Raise e, w2) => (Raise e, (g, w2))
      | (Ok markdown, w2) =>
          if save_to_file then
            match PdfProcessor.convert_and_save_markdown PYMUPDF4LLM_AVAILABLE
                    to_markdown pdf_path None w2 with
            | (Raise e, w3) => (Raise e, (g, w3))
            | (Ok md_path, w3) =>
                (Ok {| cv_pdf_path := PathLib.to_string pdf_path;
                       cv_markdown_length := String.length markdown;
                       cv_markdown := markdown;
                       cv_markdown_path := Some (PathLib.to_string md_path) |},
                 (g, w3))
            end
          else
            (Ok {| cv_pdf_path := PathLib.to_string pdf_path;
                   cv_markdown_length := String.length markdown;
                   cv_markdown := markdown;
                   cv_markdown_path := None |},
             (g, w2))
      end
  end.

(** The body of [if include_pdf_text:] in the tool, lines 352-407: the
    Markdown part (lines 357-393) is the one of the script (its lines
    156-192). *)
Definition tool_content_lines (tmp_dir : PathLib.path) (paper : paper)
    (use_markdown : bool) (w : PdfProcessor.world) : list string * PdfProcessor.world :=
  let pdf_path := PdfProcessor.pdf_cache_path tmp_dir (arxiv_id paper) in
  let attempt :=
    if PathLib.path_exists (PdfProcessor.files w) pdf_path then
      if use_markdown then
        GenerateSummary.cached_markdown PYMUPDF_AVAILABLE PDFPLUMBER_AVAILABLE
          PYMUPDF4LLM_AVAILABLE fitz_open pdfplumber_open to_markdown pdf_path w
      else
        GenerateSummary.text_fallback PYMUPDF_AVAILABLE PDFPLUMBER_AVAILABLE
          fitz_open pdfplumber_open pdf_path w
    else (Ok [], w) in
  match attempt with
  | (Ok lines, w1) => (lines, w1)
  | (Raise e, w1) => ([GenerateSummary.failure_notice e], w1)
  end.

(** The loop over the papers, lines 324-429; the metadata (lines 334-348)
    are those of the script (its lines 133-147). *)
Fixpoint tool_sections (tmp_dir : PathLib.path) (papers : list paper)
    (include_pdf_text use_markdown : bool) (markdown_lines : list string)
    (w : PdfProcessor.world) : list string * PdfProcessor.world :=
  match papers with
  | [] => (markdown_lines, w)
  | paper :: rest =>
      let lines1 := markdown_lines ++ GenerateSummary.metadata_lines paper in
      let '(content, w1) :=
        if include_pdf_text then tool_content_lines tmp_dir paper use_markdown w
        else ([], w) in
      tool_sections tmp_dir rest include_pdf_text use_markdown
        (lines1 ++ content ++ placeholder_lines) w1
  end.

(** The branch [name == "generate_daily_summary"], lines 306-445. *)
Definition call_generate_daily_summary (papers : list paper) (output_path : string)
    (include_pdf_text use_markdown : bool)
    (global : option PathLib.path) (w : PdfProcessor.world)
  : result GenerateSummary.summary * (option PathLib.path * PdfProcessor.world) :=
  let output_path := PathLib.of_string output_path in
  match get_processor global w with
  | (Raise e, st) => (Raise e, st)
  | (Ok tmp_dir, (g, w1)) =>
      let '(markdown_lines, w2) :=
        tool_sections tmp_dir papers include_pdf_text use_markdown
          (GenerateSummary.header_lines generated) w1 in
      match PathLib.mkdir_parents (PathLib.parent output_path) (PdfProcessor.files w2) with
      | Raise e => (Raise e, (g, w2))
      | Ok fs1 =>
          match PathLib.open_w output_path fs1 with
          | Raise e => (Raise e, (g, PdfProcessor.with_files fs1 w2))
          | Ok fs2 =>
              let document := String.concat GenerateSummary.LF markdown_lines in
              (Ok {| GenerateSummary.output_path := PathLib.to_string output_path;
                     GenerateSummary.papers_count := length papers;
                     GenerateSummary.file_size := PyStr.utf8_length document |},
               (g, PdfProcessor.with_files (PathLib.write output_path document fs2) w2))
          end
      end
  end.

End Processing.

End Server.

(** ** Sample data *)

Module Samples.
Import Http PathLib PdfProcessor.

Definition cache_root : path := of_string "/tmp/benty_arxiv_pdfs".

(** A cache directory with nothing in it, and no call made yet. *)
Definition empty_cache : world := {| files := {[ cache_root := Dir ]}; calls := [] |}.

Definition sample_paper : BentyClient.paper :=
  {| BentyClient.rank := 1;
     BentyClient.title := "A sample paper";
     BentyClient.authors := "A. Author, B. Author";
     BentyClient.abstract := "We study a sample.";
     BentyClient.arxiv_id := "2601.04344";
     BentyClient.arxiv_version := "2601.04344v1";
     BentyClient.pdf_url := "https://arxiv.org/pdf/2601.04344v1";
     BentyClient.abs_url := "https://arxiv.org/abs/2601.04344v1" |}.

Definition sample_pdf_path : path := joinpath cache_root "2601.04344.pdf".

(** An origin that serves the PDF in three chunks. *)
Definition good_origin (_ : list string) (address : string) : result stream :=
  Ok {| stream_status := 200; stream_reason := "OK"; stream_url := address;
        chunks := ["%PDF-"; ""; "1.7"]; broken := None |}.

(** An origin that answers 404. *)
Definition missing_origin (_ : list string) (address : string) : result stream :=
  Ok {| stream_status := 404; stream_reason := "Not Found"; stream_url := address;
        chunks := []; broken := None |}.

(** An origin whose connection breaks after the first chunk. *)
Definition broken_origin (_ : list string) (address : string) : result stream :=
  Ok {| stream_status := 200; stream_reason := "OK"; stream_url := address;
        chunks := ["%PDF-"];
        broken := Some (RequestException "Connection broken: IncompleteRead") |}.

Definition sample_md_path : path := joinpath cache_root "2601.04344.md".

(** The cache with the PDF of the sample paper in it. *)
Definition cached_pdf : world :=
  {| files := <[sample_pdf_path := File "%PDF-1.7"]> {[ cache_root := Dir ]};
     calls := [] |}.

Definition sample_to_markdown (_ : entry) : outcome string := Done "# A sample paper".

(** PyMuPDF cannot open the document; pdfplumber reads two of its three
    pages. *)
Definition failing_fitz (_ : entry) : outcome fitz_doc :=
  Failed "cannot open broken document".

Definition sample_pdfplumber (_ : entry) : outcome (list (outcome (option string))) :=
  Done [Done (Some "Page one."); Done None; Done (Some "Page two.")].

(** pdfplumber reads the first page and fails at the second. *)
Definition failing_pdfplumber (_ : entry) : outcome (list (outcome (option string))) :=
  Done [Done (Some "Page one."); Failed "page 2 is damaged"].



(** A block of the listing page. *)
Definition paper_block (heading authors version abs_href pdf_href summary : string)
  : Bs4.node :=
  Bs4.Tag "div" [("class", "paper")]
    [ Bs4.Tag "h4" [("class", "paper_row")] [Bs4.NavigableString heading];
      Bs4.Tag "p" [("class", "paper_row")] [Bs4.NavigableString authors];
      Bs4.Tag "a" [("href", abs_href)] [Bs4.NavigableString version];
      Bs4.Tag "a" [("href", pdf_href)] [Bs4.NavigableString "pdf"];
      Bs4.Tag "p" [("name", "abstract_field")] [Bs4.NavigableString summary] ].

(** The same block without the link to the PDF. *)
Definition block_without_pdf (heading authors version abs_href summary : string)
  : Bs4.node :=
  Bs4.Tag "div" [("class", "paper")]
    [ Bs4.Tag "h4" [("class", "paper_row")] [Bs4.NavigableString heading];
      Bs4.Tag "p" [("class", "paper_row")] [Bs4.NavigableString authors];
      Bs4.Tag "a" [("href", abs_href)] [Bs4.NavigableString version];
      Bs4.Tag "p" [("name", "abstract_field")] [Bs4.NavigableString summary] ].

Definition page (blocks : list Bs4.node) : Bs4.node :=
  Bs4.Tag "[document]" [] [Bs4.Tag "html" [] [Bs4.Tag "body" [] blocks]].

Definition block1 : Bs4.node :=
  paper_block "1. Dark matter halos" "A. Author" "2601.04344v1"
    "https://arxiv.org/abs/2601.04344v1" "https://arxiv.org/pdf/2601.04344v1.pdf"
    "We study halos.".
Definition block2 : Bs4.node :=
  paper_block "2. Galaxy clustering" "B. Author" "2601.04350v2"
    "https://arxiv.org/abs/2601.04350v2" "https://arxiv.org/pdf/2601.04350v2.pdf"
    "We study clustering.".
Definition block3 : Bs4.node :=
  paper_block "3. Weak lensing" "C. Author" "2601.04361v1"
    "https://arxiv.org/abs/2601.04361v1" "https://arxiv.org/pdf/2601.04361v1.pdf"
    "We study lensing.".

(** The second block without its PDF link. *)
Definition block2_without_pdf : Bs4.node :=
  block_without_pdf "2. Galaxy clustering" "B. Author" "2601.04350v2"
    "https://arxiv.org/abs/2601.04350v2" "We study clustering.".

(** A replacement of a paper of the archive [solv-int]. *)
Definition old_style_block : Bs4.node :=
  paper_block "4. Integrable lattices" "D. Author" "solv-int/9701001v2"
    "https://arxiv.org/abs/solv-int/9701001v2" "https://arxiv.org/pdf/solv-int/9701001v2.pdf"
    "We study lattices.".

(** The listing of 2026-01-09: three blocks, numbered 1, 2, 3. *)
Definition listing_soup : Bs4.node := page [block1; block2; block3].
(** A listing whose first two blocks are numbered 2 and 1. *)
Definition swapped_soup : Bs4.node := page [block2; block1].
(** A listing whose second block lacks the PDF link. *)
Definition partial_soup : Bs4.node := page [block1; block2_without_pdf; block3].

Definition login_soup : Bs4.node :=
  page [Bs4.Tag "form" []
          [Bs4.Tag "input" [("name", "csrf_token"); ("value", "token-123")] []]].

(** The parser on the pages of the sample site. *)
Definition sample_parser (text : string) : Bs4.node :=
  if String.eqb text "login" then login_soup
  else if String.eqb text "listing" then listing_soup
  else if String.eqb text "swapped" then swapped_soup
  else if String.eqb text "partial" then partial_soup
  else page [].

Definition listing_of (day : string) : string :=
  "https://www.benty-fields.com/daily_arXiv_results?date=" +:+ day.

(** The response 200 to a request for [address]. *)
Definition served (address body : string) : response :=
  {| status_code := 200; reason := "OK"; url := address; text := body |}.

(** The sample site: it has listings for three days and an empty page for
    every other date. *)
Definition sample_site (_ : list request) (q : request) : result response :=
  match q with
  | GET address =>
      if String.eqb address "https://www.benty-fields.com/login"
      then Ok (served address "login")
      else if String.eqb address (listing_of "2026-01-09")
      then Ok (served address "listing")
      else if String.eqb address (listing_of "2026-01-10")
      then Ok (served address "swapped")
      else if String.eqb address (listing_of "2026-01-11")
      then Ok (served address "partial")
      else Ok (served address "")
  | POST address _ => Ok (served address "Welcome. Logout")
  end.

Definition sample_now : datetime :=
  {| year := 2026; month := 1; day := 9; hour := 8; minute := 30; second := 0 |}.

Definition new_client : BentyClient.client :=
  {| BentyClient.email := "user@example.org"; BentyClient.password := "secret";
     BentyClient.logged_in := false; BentyClient.sent := [] |}.

(** The morning of the next day. *)
Definition next_day : datetime :=
  {| year := 2026; month := 1; day := 10; hour := 8; minute := 30; second := 0 |}.

(** A configuration whose date is the number 20260109. *)
Definition sample_config : Server.config :=
  {| Server.cfg_email := "user@example.org"; Server.cfg_password := "secret";
     Server.cfg_date := PyInt 20260109; Server.cfg_num_papers := Some 10 |}.

(** A block whose heading has no dot. *)
Definition block_without_dot : Bs4.node :=
  paper_block "Dark matter halos" "A. Author" "2601.04344v1"
    "https://arxiv.org/abs/2601.04344v1" "https://arxiv.org/pdf/2601.04344v1.pdf"
    "We study halos.".

(** A block whose heading has a no-break space (U+00A0) after the rank and
    at its end. *)
Definition block_with_nbsp : Bs4.node :=
  paper_block ("3" +:+ String (ascii_of_nat 160)
                 (". Dark matter halos" +:+ String (ascii_of_nat 160) ""))
    "A. Author" "2601.04344v1"
    "https://arxiv.org/abs/2601.04344v1" "https://arxiv.org/pdf/2601.04344v1.pdf"
    "We study halos.".

(** A block whose heading has a file separator (U+001C) after the rank. *)
Definition block_with_separator : Bs4.node :=
  paper_block ("3" +:+ String (ascii_of_nat 28) ". Dark matter halos")
    "A. Author" "2601.04344v1"
    "https://arxiv.org/abs/2601.04344v1" "https://arxiv.org/pdf/2601.04344v1.pdf"
    "We study halos.".

(** A site whose pages are all empty: its login page has no token field. *)
Definition tokenless_site (_ : list request) (q : request) : result response :=
  Ok (served (match q with GET address | POST address _ => address end) "").

(** A site that lets the client in and answers 503 to every listing
    request, with a listing in the body. *)
Definition unavailable_site (_ : list request) (q : request) : result response :=
  match q with
  | GET address =>
      if String.eqb address "https://www.benty-fields.com/login"
      then Ok (served address "login")
      else Ok {| status_code := 503; reason := "Service Unavailable"; url := address;
                 text := "listing" |}
  | POST address _ => Ok (served address "Welcome. Logout")
  end.

(** A file system with nothing in it. *)
Definition bare_world : world := {| files := ∅; calls := [] |}.

(** PyMuPDF reads the first page and fails on the second. *)
Definition partial_fitz (_ : entry) : outcome fitz_doc :=
  Done {| fitz_pages := [Done "Page one."; Failed "damaged page"];
          fitz_close := Done tt |}.

(** An analysis with two of its four sections. *)
Definition sample_ai (_ _ _ : string) : GenerateSummary.ai_sections :=
  {| GenerateSummary.motivation := Some "Halos are not well measured.";
     GenerateSummary.methodology := None;
     GenerateSummary.data_used := Some "A sample of halos.";
     GenerateSummary.conclusions := None |}.

Definition sample_generated : string := "2026-01-09 08:30:00".

(** A paper whose title has an accented letter (U+00E9). *)
Definition accented_paper : BentyClient.paper :=
  {| BentyClient.rank := 2;
     BentyClient.title := "Poincar" +:+ String (ascii_of_nat 233) " maps";
     BentyClient.authors := "C. Author";
     BentyClient.abstract := "We study maps.";
     BentyClient.arxiv_id := "2601.04345";
     BentyClient.arxiv_version := "2601.04345v1";
     BentyClient.pdf_url := "https://arxiv.org/pdf/2601.04345v1";
     BentyClient.abs_url := "https://arxiv.org/abs/2601.04345v1" |}.

Definition sample_out : path := of_string "/tmp/summaries/summary_20260109.md".

Definition sample_script_config : GenerateSummary.script_config :=
  {| GenerateSummary.sc_email := "user@example.org";
     GenerateSummary.sc_password := "secret";
     GenerateSummary.sc_num_papers := Some 2;
     GenerateSummary.sc_output_dir := None;
     GenerateSummary.sc_tmp_dir := Some "/tmp/benty_arxiv_pdfs" |}.

(** The cache directory as [__init__] leaves it on an empty file system. *)
Definition made_cache : world :=
  {| files := <[cache_root := Dir]> {[ of_string "/tmp" := Dir ]}; calls := [] |}.

(** A conversion whose Markdown has a line that ends in CR LF. *)
Definition crlf_to_markdown (_ : entry) : outcome string :=
  Done ("# A sample paper" +:+ String "013" (String "010" "Text.")).

(** A conversion that fails. *)
Definition failing_to_markdown (_ : entry) : outcome string :=
  Failed "cannot open broken document".

End Samples.

(** * Properties *)

Lemma pair_eta {A B : Type} (x : A * B) (a : A) : x.1 = a -> x = (a, x.2).
Proof. destruct x. simpl. by intros ->. Qed.

(** ** Python strings *)

Module PyStrFacts.
Import PyStr.

Lemma app_cons (a : ascii) (s t : string) : String a s +:+ t = String a (s +:+ t).
Proof. reflexivity. Qed.

Lemma app_empty_l (s : string) : "" +:+ s = s.
Proof. reflexivity. Qed.

Lemma app_empty_r (s : string) : s +:+ "" = s.
Proof. induction s as [|a s IH]; [reflexivity|]. by rewrite app_cons, IH. Qed.

Lemma app_assoc (s t u : string) : (s +:+ t) +:+ u = s +:+ (t +:+ u).
Proof. induction s as [|a s IH]; [reflexivity|]. by rewrite !app_cons, IH. Qed.

Lemma length_app (s t : string) :
  String.length (s +:+ t) = (String.length s + String.length t)%nat.
Proof. induction s as [|a s IH]; [reflexivity|]. rewrite app_cons. simpl. by rewrite IH. Qed.

Lemma slice_to_drop (n : nat) (s : string) : s = slice_to n s +:+ drop_chars n s.
Proof.
  unfold slice_to. revert s. induction n as [|n IH]; intros [|a s]; simpl; try reflexivity.
  rewrite app_cons. f_equal. apply IH.
Qed.

Lemma length_slice_to (n : nat) (s : string) :
  String.length (slice_to n s) = Nat.min n (String.length s).
Proof.
  unfold slice_to. revert s. induction n as [|n IH]; intros [|a s]; simpl; try reflexivity.
  by rewrite IH.
Qed.

Lemma slice_to_all (n : nat) (s : string) :
  (String.length s <= n)%nat -> slice_to n s = s.
Proof.
  unfold slice_to. revert s. induction n as [|n IH]; intros [|a s]; simpl; intros Hlen;
    try reflexivity; try lia.
  f_equal. apply IH. lia.
Qed.

Lemma substring_app_r (p suf : string) :
  substring (String.length p) (String.length suf) (p +:+ suf) = suf.
Proof.
  induction p as [|a p IH].
  - rewrite app_empty_l. apply (slice_to_all (String.length suf) suf). lia.
  - rewrite app_cons. exact IH.
Qed.

Lemma substring_drop (n m : nat) (s : string) :
  substring n m s = slice_to m (drop_chars n s).
Proof.
  unfold slice_to. revert s. induction n as [|n IH]; intros s; [reflexivity|].
  destruct s as [|a s]; simpl; [by destruct m|]. apply IH.
Qed.

Lemma length_drop_chars (n : nat) (s : string) :
  String.length (drop_chars n s) = (String.length s - n)%nat.
Proof.
  revert s. induction n as [|n IH]; intros [|a s]; simpl; try reflexivity; try lia.
  apply IH.
Qed.

Lemma drop_chars_split (n : nat) (s : string) :
  (n <= String.length s)%nat ->
  exists p, s = p +:+ drop_chars n s /\ String.length p = n.
Proof.
  intros Hn. exists (slice_to n s). split; [apply slice_to_drop|].
  rewrite length_slice_to. lia.
Qed.

(** [endswith] decides the existence of a prefix. *)
Lemma endswith_spec (s suf : string) :
  endswith s suf = true <-> exists p, s = p +:+ suf.
Proof.
  unfold endswith. split.
  - intros [Hlen Heq]%andb_prop.
    apply Nat.leb_le in Hlen. apply String.eqb_eq in Heq.
    rewrite substring_drop in Heq.
    destruct (drop_chars_split (String.length s - String.length suf) s) as (p & Hs & Hp);
      [lia|].
    exists p. rewrite Hs at 1. f_equal.
    etransitivity; [|exact Heq]. symmetry. apply slice_to_all.
    rewrite length_drop_chars. lia.
  - intros [p ->]. rewrite length_app.
    apply andb_true_intro. split; [apply Nat.leb_le; lia|].
    replace (String.length p + String.length suf - String.length suf)%nat
      with (String.length p) by lia.
    rewrite substring_app_r. apply String.eqb_refl.
Qed.

Lemma has_char_app (c : ascii) (s t : string) :
  has_char c (s +:+ t) = has_char c s || has_char c t.
Proof.
  induction s as [|a s IH]; [reflexivity|].
  rewrite app_cons. simpl. rewrite IH. by rewrite orb_assoc.
Qed.

Lemma split_go_cons (c a : ascii) (s : string) :
  split_go c (String a s) =
    if Ascii.eqb a c then ("", (split_go c s).1 :: (split_go c s).2)
    else (String a (split_go c s).1, (split_go c s).2).
Proof. simpl. by destruct (split_go c s). Qed.

Lemma split_go_no_sep (c : ascii) (s : string) :
  has_char c s = false -> split_go c s = (s, []).
Proof.
  induction s as [|a s IH]; [done|]. intros [Hac Hno]%orb_false_elim.
  by rewrite split_go_cons, Hac, (IH Hno).
Qed.

Lemma split_go_sep (c : ascii) (s : string) :
  has_char c s = true -> (split_go c s).2 <> [].
Proof.
  induction s as [|a s IH]; [done|]. rewrite split_go_cons. simpl.
  destruct (Ascii.eqb a c); simpl; [done|]. exact IH.
Qed.

Lemma split_go_app (c : ascii) (s rest : string) :
  has_char c s = false ->
  split_go c (s +:+ String c rest) = (s, (split_go c rest).1 :: (split_go c rest).2).
Proof.
  induction s as [|a s IH]; intros Hno.
  - rewrite app_empty_l, split_go_cons. by rewrite Ascii.eqb_refl.
  - apply orb_false_elim in Hno as [Hac Hno].
    by rewrite app_cons, split_go_cons, Hac, (IH Hno).
Qed.

Lemma split_go_first_no_sep (c : ascii) (s : string) :
  has_char c (split_go c s).1 = false.
Proof.
  induction s as [|a s IH]; [done|]. rewrite split_go_cons.
  destruct (Ascii.eqb a c) eqn:Hac; [done|]. simpl. by rewrite Hac.
Qed.

(** [s.split(c)[0]] is the text before the first [c]. *)
Lemma split_first_no_sep (c : ascii) (s : string) : has_char c (split_first c s) = false.
Proof. apply split_go_first_no_sep. Qed.

Lemma split_first_app (c : ascii) (s rest : string) :
  has_char c s = false -> split_first c (s +:+ String c rest) = s.
Proof. intros Hno. unfold split_first. by rewrite split_go_app. Qed.

Lemma split_first_spec (c : ascii) (s : string) :
  (has_char c s = false /\ split_first c s = s)
  \/ (exists rest, s = split_first c s +:+ String c rest).
Proof.
  unfold split_first. induction s as [|a s IH]; [by left|].
  rewrite split_go_cons. simpl.
  destruct (Ascii.eqb_spec a c) as [->|Hac]; simpl.
  - right. by exists s.
  - destruct IH as [[Hno Hs]|[rest Hs]].
    + left. by rewrite Hs.
    + right. exists rest. rewrite app_cons. by f_equal.
Qed.

Lemma last_indep {A : Type} (l : list A) (d d' : A) :
  l <> [] -> List.last l d = List.last l d'.
Proof.
  induction l as [|x l IH]; [done|]. intros _.
  destruct l as [|y l]; [done|]. change (List.last (y :: l) d = List.last (y :: l) d').
  by apply IH.
Qed.

Lemma split_last_cons (c a : ascii) (s : string) :
  split_last c (String a s) =
    if has_char c s then split_last c s
    else if Ascii.eqb a c then s else String a s.
Proof.
  unfold split_last. rewrite split_go_cons.
  destruct (has_char c s) eqn:Hs.
  - pose proof (split_go_sep c s Hs) as Hne.
    destruct (split_go c s) as [h t]. simpl in *.
    destruct (Ascii.eqb a c).
    + destruct t as [|x t]; [done|].
      change (List.last (x :: t) "" = List.last (x :: t) h). by apply last_indep.
    + by apply last_indep.
  - rewrite (split_go_no_sep c s Hs). simpl. by destruct (Ascii.eqb a c).
Qed.

(** [s.split(c)[-1]] is the text after the last [c]. *)
Lemma split_last_spec (c : ascii) (s : string) :
  (has_char c s = false /\ split_last c s = s)
  \/ (exists before, s = before +:+ String c (split_last c s)).
Proof.
  induction s as [|a s IH]; [by left|].
  rewrite split_last_cons. simpl.
  destruct IH as [[Hno Hl]|[before Hb]].
  - rewrite Hno. destruct (Ascii.eqb_spec a c) as [->|Hac].
    + right. by exists "".
    + left. by rewrite orb_false_r.
  - right. destruct (has_char c s) eqn:Hs.
    + exists (String a before). rewrite app_cons. by f_equal.
    + exfalso. rewrite Hb, has_char_app in Hs. simpl in Hs.
      rewrite Ascii.eqb_refl in Hs. simpl in Hs. by rewrite orb_true_r in Hs.
Qed.

Lemma split_last_no_sep (c : ascii) (s : string) : has_char c (split_last c s) = false.
Proof.
  induction s as [|a s IH]; [done|]. rewrite split_last_cons.
  destruct (has_char c s) eqn:Hs; [done|].
  destruct (Ascii.eqb a c) eqn:Hac; [done|]. simpl. by rewrite Hac.
Qed.

Lemma split_no_sep (c : ascii) (s : string) :
  has_char c s = false -> split c s = [s].
Proof. intros Hno. unfold split. by rewrite split_go_no_sep. Qed.

End PyStrFacts.

(** ** Paths *)

Module PathFacts.
Import PyStr PyStrFacts PathLib.

Lemma startswith_no_sep (c : ascii) (s : string) :
  has_char c s = false -> startswith s (String c "") = false.
Proof.
  destruct s as [|a s]; [done|]. simpl. intros [Hac _]%orb_false_elim.
  destruct (ascii_dec c a) as [->|Hne]; [|done].
  by rewrite Ascii.eqb_refl in Hac.
Qed.

(** A name without a slash, other than [""] and ["."], is a path of one
    component. *)
Lemma of_string_name (nm : string) :
  has_char "/" nm = false -> is_component nm = true ->
  of_string nm = {| absolute := false; parts := [nm] |}.
Proof.
  intros Hno Hc. unfold of_string.
  rewrite (startswith_no_sep "/" nm Hno), (split_no_sep "/" nm Hno).
  simpl. by rewrite Hc.
Qed.

Lemma joinpath_name (d : path) (nm : string) :
  has_char "/" nm = false -> is_component nm = true ->
  joinpath d nm = {| absolute := absolute d; parts := parts d ++ [nm] |}.
Proof. intros Hno Hc. unfold joinpath. by rewrite (of_string_name nm Hno Hc). Qed.

Lemma parent_joinpath_name (d : path) (nm : string) :
  has_char "/" nm = false -> is_component nm = true ->
  parent (joinpath d nm) = d /\ name (joinpath d nm) = nm.
Proof.
  intros Hno Hc. rewrite (joinpath_name d nm Hno Hc). unfold parent, name. simpl.
  rewrite removelast_last, last_last. by destruct d.
Qed.

(** A name that ends in [".pdf"] is neither empty nor ["."]. *)
Lemma is_component_pdf (p : string) : is_component (p +:+ ".pdf") = true.
Proof.
  unfold is_component.
  assert (Hlen : (4 <= String.length (p +:+ ".pdf"))%nat)
    by (rewrite length_app; simpl; lia).
  destruct (p +:+ ".pdf") as [|a [|b s]]; simpl in Hlen; try lia. 
  simpl. by destruct (Ascii.eqb a ".").
Qed.

End PathFacts.

(** ** The file system *)

Module FsFacts.
Import PyStr PyStrFacts PathLib.

Lemma lookup_entry_parts (fs : gmap path entry) (p : path) :
  parts p <> [] -> lookup_entry fs p = fs !! p.
Proof. unfold lookup_entry. by destruct (parts p). Qed.

Lemma path_exists_lookup (fs : gmap path entry) (p : path) (e : entry) :
  fs !! p = Some e -> path_exists fs p = true.
Proof.
  intros Hp. unfold path_exists, lookup_entry. destruct (parts p); [done|]. by rewrite Hp.
Qed.

Lemma path_exists_false (fs : gmap path entry) (p : path) :
  path_exists fs p = false -> fs !! p = None /\ parts p <> [].
Proof.
  unfold path_exists, lookup_entry. destruct (parts p); [done|].
  by destruct (fs !! p).
Qed.

(** Opening a file for writing creates it empty and touches nothing else. *)
Lemma open_w_ok (p : path) (fs fs' : gmap path entry) :
  open_w p fs = Ok fs' -> fs' = <[p := File ""]> fs /\ parts p <> [].
Proof.
  unfold open_w. intros H.
  assert (Hp : parts p <> []).
  { intros Hnil. unfold lookup_entry in H at 1. by rewrite Hnil in H. }
  split; [|done].
  destruct (lookup_entry fs p) as [[c|]|]; [|done|];
    destruct (lookup_entry fs (parent p)) as [[c'|]|]; by simplify_eq.
Qed.

Lemma write_lookup (p : path) (data old : string) (fs : gmap path entry) :
  fs !! p = Some (File old) -> write p data fs !! p = Some (File (old +:+ data)).
Proof. intros H. unfold write. rewrite H. apply lookup_insert_eq. Qed.

Lemma write_lookup_ne (p q : path) (data : string) (fs : gmap path entry) :
  p <> q -> write p data fs !! q = fs !! q.
Proof.
  intros Hne. unfold write. destruct (fs !! p) as [[old|]|]; [|done..].
  by apply lookup_insert_ne.
Qed.

End FsFacts.

(** ** pdf_processor.py *)

Module PdfProcessorFacts.
Import Http PyStr PyStrFacts PathLib PathFacts FsFacts PdfProcessor.

Lemma write_chunks_lookup (p : path) (chunks : list string) (old : string)
    (fs : gmap path entry) :
  fs !! p = Some (File old) ->
  write_chunks p chunks fs !! p = Some (File (old +:+ String.concat "" chunks)).
Proof.
  revert old fs. induction chunks as [|chunk rest IH]; intros old fs Hp.
  - simpl. by rewrite app_empty_r.
  - assert (Hcat : String.concat "" (chunk :: rest) = chunk +:+ String.concat "" rest).
    { destruct rest; simpl; [by rewrite app_empty_r|done]. }
    rewrite Hcat. cbn [write_chunks]. destruct (String.eqb_spec chunk "") as [->|Hne].
    + rewrite app_empty_l. by apply IH.
    + rewrite <- app_assoc. apply IH. by apply write_lookup.
Qed.

Lemma write_chunks_lookup_ne (p q : path) (chunks : list string) (fs : gmap path entry) :
  p <> q -> write_chunks p chunks fs !! q = fs !! q.
Proof.
  intros Hne. revert fs. induction chunks as [|chunk rest IH]; intros fs; simpl; [done|].
  destruct (String.eqb chunk ""); [apply IH|].
  rewrite IH. by apply write_lookup_ne.
Qed.

Lemma default_filename_spec (pdf_url : string) :
  let segment := split_last "/" pdf_url in
  ((exists p, segment = p +:+ ".pdf") -> default_filename pdf_url = segment)
  /\ (~ (exists p, segment = p +:+ ".pdf") -> default_filename pdf_url = segment +:+ ".pdf").
Proof.
  unfold default_filename. simpl. split; intros H.
  - apply endswith_spec in H. by rewrite H.
  - destruct (endswith (split_last "/" pdf_url) ".pdf") eqn:He; [|done].
    apply endswith_spec in He. contradiction.
Qed.

Lemma default_filename_name (pdf_url : string) :
  has_char "/" (default_filename pdf_url) = false
  /\ is_component (default_filename pdf_url) = true.
Proof.
  unfold default_filename.
  pose proof (split_last_no_sep "/" pdf_url) as Hno.
  destruct (endswith (split_last "/" pdf_url) ".pdf") eqn:He; simpl.
  - split; [done|]. apply endswith_spec in He as [p ->]. apply is_component_pdf.
  - split; [|apply is_component_pdf]. by rewrite has_char_app, Hno.
Qed.

Section Processor.
Variable origin : list string -> string -> result stream.
Variable tmp_dir : path.

Lemma download_pdf_hit (pdf_url : string) (save_path : option path) (w : world) :
  path_exists (files w) (destination tmp_dir pdf_url save_path) = true ->
  download_pdf origin tmp_dir pdf_url save_path w = (Ok (destination tmp_dir pdf_url save_path), w).
Proof. intros H. unfold download_pdf. fold (destination tmp_dir pdf_url save_path). by rewrite H. Qed.

(** A download that returns has put the body at the path it returns, with
    one request. *)
Lemma download_pdf_miss_ok (pdf_url : string) (save_path : option path) (w w' : world)
    (p : path) :
  path_exists (files w) (destination tmp_dir pdf_url save_path) = false ->
  download_pdf origin tmp_dir pdf_url save_path w = (Ok p, w') ->
  p = destination tmp_dir pdf_url save_path
  /\ calls w' = calls w ++ [RequestsGet pdf_url]
  /\ exists r, origin (downloads w) pdf_url = Ok r
       /\ files w' !! p = Some (File (String.concat "" (chunks r))).
Proof.
  intros Hmiss. unfold download_pdf. fold (destination tmp_dir pdf_url save_path). rewrite Hmiss.
  destruct (origin (downloads w) pdf_url) as [r|e]; [|done].
  destruct (raise_for_status (stream_status r) (stream_reason r) (stream_url r)); [|done].
  destruct (open_w (destination tmp_dir pdf_url save_path) (files (log (RequestsGet pdf_url) w)))
    as [fs|e] eqn:Hopen; [|done].
  destruct (broken r); [done|]. intros [= <- <-]. split; [done|]. split; [done|].
  exists r. split; [done|]. simpl.
  apply open_w_ok in Hopen as [-> _].
  rewrite (write_chunks_lookup _ _ ""); [done|]. apply lookup_insert_eq.
Qed.

Lemma download_pdf_ok (pdf_url : string) (save_path : option path) (w w' : world)
    (p : path) :
  download_pdf origin tmp_dir pdf_url save_path w = (Ok p, w') ->
  p = destination tmp_dir pdf_url save_path /\ path_exists (files w') p = true.
Proof.
  intros H. destruct (path_exists (files w) (destination tmp_dir pdf_url save_path)) eqn:Hex.
  - rewrite (download_pdf_hit _ _ _ Hex) in H. by simplify_eq.
  - destruct (download_pdf_miss_ok _ _ _ _ _ Hex H) as (-> & _ & r & _ & Hp).
    split; [done|]. by eapply path_exists_lookup.
Qed.

(** C10. Without a save path, [download_pdf] names the file after the last
    segment of the URL (the text after its last slash), adds [".pdf"] exactly
    when that segment does not already end in [".pdf"], and saves it directly
    under the cache root: the parent of the path is the cache root, and a call
    that returns has returned this path, where a file then is. *)
Theorem download_pdf_default_path (pdf_url : string) (w : world) :
  let segment := split_last "/" pdf_url in
  let filename := default_filename pdf_url in
  let save_path := destination tmp_dir pdf_url None in
  has_char "/" segment = false
  /\ ((has_char "/" pdf_url = false /\ segment = pdf_url)
      \/ exists before, pdf_url = before +:+ "/" +:+ segment)
  /\ ((exists p, segment = p +:+ ".pdf") -> filename = segment)
  /\ (~ (exists p, segment = p +:+ ".pdf") -> filename = segment +:+ ".pdf")
  /\ parent save_path = tmp_dir
  /\ name save_path = filename
  /\ forall p w', download_pdf origin tmp_dir pdf_url None w = (Ok p, w') ->
       p = save_path /\ path_exists (files w') p = true.
Proof.
  simpl. split; [apply split_last_no_sep|]. split; [apply split_last_spec|].
  destruct (default_filename_spec pdf_url) as [Hyes Hno].
  destruct (default_filename_name pdf_url) as [Hslash Hcomp].
  split; [exact Hyes|]. split; [exact Hno|].
  destruct (parent_joinpath_name tmp_dir _ Hslash Hcomp) as [Hparent Hname].
  split; [exact Hparent|]. split; [exact Hname|].
  intros p w' H. by apply download_pdf_ok in H.
Qed.

(** C2 (amended). A call of [download_pdf] that fails was a cache miss and
    made one request.  When it fails before the body is streamed (no
    response, or a status from 400 to 599) the files are unchanged and
    nothing is at the path; when the status is good, either the file could
    not be opened and the files are unchanged, or the transfer broke and the
    file at the path holds the chunks received until then. *)
Theorem download_pdf_failure (pdf_url : string) (save_path : option path)
    (w w' : world) (e : exn) :
  download_pdf origin tmp_dir pdf_url save_path w = (Raise e, w') ->
  let p := destination tmp_dir pdf_url save_path in
  path_exists (files w) p = false
  /\ calls w' = calls w ++ [RequestsGet pdf_url]
  /\ (forall e0, origin (downloads w) pdf_url = Raise e0 ->
        e = e0 /\ files w' = files w /\ path_exists (files w') p = false)
  /\ (forall r, origin (downloads w) pdf_url = Ok r ->
        (is_ok (raise_for_status (stream_status r) (stream_reason r) (stream_url r)) = false ->
           e = HTTPError (stream_status r) (stream_reason r) (stream_url r)
           /\ files w' = files w /\ path_exists (files w') p = false)
        /\ (is_ok (raise_for_status (stream_status r) (stream_reason r) (stream_url r)) = true ->
              (is_ok (open_w p (files w)) = false
               /\ files w' = files w /\ path_exists (files w') p = false)
              \/ (broken r = Some e
                  /\ files w' !! p = Some (File (String.concat "" (chunks r)))
                  /\ path_exists (files w') p = true))).
Proof.
  unfold download_pdf. cbv zeta.
  destruct (path_exists (files w) (destination tmp_dir pdf_url save_path)) eqn:Hmiss;
    [done|].
  intros H. split; [done|].
  destruct (origin (downloads w) pdf_url) as [r|e0].
  - unfold raise_for_status in *.
    destruct ((400 <=? stream_status r) && (stream_status r <? 600)) eqn:Hst.
    + injection H as <- <-. split; [done|]. split; [done|].
      intros r' [= <-]. rewrite Hst. simpl. split; [done|]. done.
    + destruct (open_w (destination tmp_dir pdf_url save_path)
                  (files (log (RequestsGet pdf_url) w))) as [fs|e1] eqn:Hopen.
      * destruct (broken r) as [e1|] eqn:Hbroken; [|done].
        injection H as <- <-. split; [done|]. split; [done|].
        intros r' [= <-]. rewrite Hst. simpl. split; [done|].
        intros _. right. rewrite Hbroken. split; [done|].
        apply open_w_ok in Hopen as [-> _].
        assert (Hp : write_chunks (destination tmp_dir pdf_url save_path) (chunks r)
                  (<[destination tmp_dir pdf_url save_path := File ""]>
                     (files (log (RequestsGet pdf_url) w)))
                !! destination tmp_dir pdf_url save_path
                = Some (File (String.concat "" (chunks r)))).
        { rewrite (write_chunks_lookup _ _ ""); [done|]. apply lookup_insert_eq. }
        split; [exact Hp|]. by eapply path_exists_lookup.
      * injection H as <- <-. split; [done|]. split; [done|].
        intros r' [= <-]. rewrite Hst. simpl. split; [done|].
        intros _. left. simpl in Hopen. by rewrite Hopen.
  - injection H as <- <-. split; [done|]. split; [|done].
    intros e1 [= <-]. done.
Qed.

(** C4. After a call of [download_paper_pdf] that returned, a second call
    with the same paper returns the same path, the cache path of the
    identifier, and changes nothing: no request is made.  The first call
    made exactly one request when the PDF was not yet in the cache, and none
    when it was. *)
Theorem download_paper_pdf_twice (paper : BentyClient.paper) (w w1 : world) (p : path) :
  download_paper_pdf origin tmp_dir paper w = (Ok p, w1) ->
  p = joinpath tmp_dir (BentyClient.arxiv_id paper +:+ ".pdf")
  /\ download_paper_pdf origin tmp_dir paper w1 = (Ok p, w1)
  /\ (path_exists (files w) p = false ->
        calls w1 = calls w ++ [RequestsGet (BentyClient.pdf_url paper)])
  /\ (path_exists (files w) p = true -> w1 = w).
Proof.
  unfold download_paper_pdf, pdf_cache_path.
  set (pdf_path := joinpath tmp_dir (BentyClient.arxiv_id paper +:+ ".pdf")).
  destruct (path_exists (files w) pdf_path) eqn:Hex.
  - intros [= <- <-]. rewrite Hex. done.
  - intros H.
    destruct (download_pdf_miss_ok (BentyClient.pdf_url paper) (Some pdf_path) w w1 p
                Hex H) as (-> & Hcalls & r & _ & Hp).
    simpl in *. fold pdf_path in Hp |- *.
    rewrite (path_exists_lookup _ _ _ Hp).
    split; [done|]. split; [done|]. split; [done|]. intros Hhit. congruence.
Qed.

End Processor.

Section Conversion.
Variable PYMUPDF4LLM_AVAILABLE : bool.
Variable to_markdown : entry -> outcome string.

Lemma path_exists_insert (fs : gmap path entry) (p q : path) (e : entry) :
  path_exists fs q = true -> path_exists (<[p := e]> fs) q = true.
Proof.
  unfold path_exists, lookup_entry. destruct (parts q); [done|].
  destruct (decide (p = q)) as [->|Hne].
  - by rewrite lookup_insert_eq.
  - by rewrite lookup_insert_ne.
Qed.

Lemma convert_to_markdown_calls (pdf_path : path) (w w1 : world) (r : result string) :
  convert_to_markdown PYMUPDF4LLM_AVAILABLE to_markdown pdf_path w = (r, w1) ->
  files w1 = files w
  /\ (is_ok r = true -> calls w1 = calls w ++ [ToMarkdown pdf_path]).
Proof.
  unfold convert_to_markdown.
  destruct (lookup_entry (files w) pdf_path) as [e|]; [|by intros [= <- <-]].
  destruct PYMUPDF4LLM_AVAILABLE; simpl; [|by intros [= <- <-]].
  destruct (to_markdown e); by intros [= <- <-].
Qed.

(** C5. A call of [convert_and_save_markdown] that finds the derived
    Markdown path returns it and changes nothing: no conversion is made and
    the PDF is not looked at, whatever the PDF is by then.  So after a call
    that returned, a second call makes no conversion, also when the PDF was
    replaced in between; and the first call made exactly one conversion when
    the Markdown file was not there, and none when it was. *)
Theorem convert_and_save_markdown_twice (pdf_path md : path) (w w1 : world) :
  convert_and_save_markdown PYMUPDF4LLM_AVAILABLE to_markdown pdf_path None w = (Ok md, w1) ->
  get_markdown_path pdf_path = Ok md
  /\ (path_exists (files w) md = false -> calls w1 = calls w ++ [ToMarkdown pdf_path])
  /\ (path_exists (files w) md = true -> w1 = w)
  /\ convert_and_save_markdown PYMUPDF4LLM_AVAILABLE to_markdown pdf_path None w1 = (Ok md, w1)
  /\ (forall changed : string,
        let w2 := with_files (<[pdf_path := File changed]> (files w1)) w1 in
        convert_and_save_markdown PYMUPDF4LLM_AVAILABLE to_markdown pdf_path None w2
        = (Ok md, w2))
  /\ (forall w2 : world,
        path_exists (files w2) md = true ->
        convert_and_save_markdown PYMUPDF4LLM_AVAILABLE to_markdown pdf_path None w2
        = (Ok md, w2)).
Proof.
  unfold convert_and_save_markdown.
  destruct (get_markdown_path pdf_path) as [md'|e] eqn:Hpath; [|done].
  intros H.
  assert (Hmd : md' = md /\ path_exists (files w1) md = true
                /\ (path_exists (files w) md = false ->
                    calls w1 = calls w ++ [ToMarkdown pdf_path])
                /\ (path_exists (files w) md = true -> w1 = w)).
  { destruct (path_exists (files w) md') eqn:Hex.
    - injection H as <- <-. split; [done|]. split; [done|]. split; [congruence|done].
    - destruct (convert_to_markdown PYMUPDF4LLM_AVAILABLE to_markdown pdf_path w)
        as [[markdown|e] wc] eqn:Hconv; [|done].
      apply convert_to_markdown_calls in Hconv as [Hfiles Hcalls].
      destruct (mkdir_parents (parent md') (files wc)) as [fs1|e]; [|done].
      destruct (open_w md' fs1) as [fs2|e] eqn:Hopen; [|done].
      injection H as <- <-. split; [done|].
      apply open_w_ok in Hopen as [-> _]. simpl.
      split; [|split; [intros _; by apply Hcalls|congruence]].
      eapply path_exists_lookup. apply write_lookup. apply lookup_insert_eq. }
  destruct Hmd as (-> & Hex1 & Hmiss & Hhit).
  split; [done|]. split; [exact Hmiss|]. split; [exact Hhit|].
  rewrite Hex1. split; [done|]. split.
  - intros changed. simpl. by rewrite (path_exists_insert _ pdf_path md _ Hex1).
  - intros w2 Hex2. by rewrite Hex2.
Qed.

End Conversion.

Lemma concat_empty_cons (a : string) (l : list string) :
  String.concat "" (a :: l) = a +:+ String.concat "" l.
Proof. destruct l; simpl; [by rewrite app_empty_r|done]. Qed.

Lemma concat_empty_app (l k : list string) :
  String.concat "" (l ++ k) = String.concat "" l +:+ String.concat "" k.
Proof.
  induction l as [|a l IH]; [done|].
  change ((a :: l) ++ k) with (a :: (l ++ k)).
  by rewrite !concat_empty_cons, IH, app_assoc.
Qed.

Lemma fitz_loop_done (texts : list string) (text : string) :
  fitz_loop (Done <$> texts) text = (Done tt, text +:+ String.concat "" texts).
Proof.
  revert text. induction texts as [|t texts IH]; intros text.
  - simpl. by rewrite app_empty_r.
  - rewrite concat_empty_cons. cbn [fmap list_fmap fitz_loop].
    change (fitz_loop (Done <$> texts) (text +:+ t)
            = (Done tt, text +:+ t +:+ String.concat "" texts)).
    by rewrite IH, app_assoc.
Qed.

Lemma fitz_loop_failed (texts : list string) (why : string)
    (rest : list (outcome string)) (text : string) :
  fitz_loop ((Done <$> texts) ++ Failed why :: rest) text
  = (Failed why, text +:+ String.concat "" texts).
Proof.
  revert text. induction texts as [|t texts IH]; intros text.
  - simpl. by rewrite app_empty_r.
  - rewrite concat_empty_cons.
    change (fitz_loop ((Done <$> texts) ++ Failed why :: rest) (text +:+ t)
            = (Failed why, text +:+ t +:+ String.concat "" texts)).
    by rewrite IH, app_assoc.
Qed.

(** A list of outcomes is a list of results, or some results followed by a
    failure. *)
Lemma outcomes_split {A : Type} (l : list (outcome A)) :
  (exists xs, l = Done <$> xs)
  \/ (exists xs why rest, l = (Done <$> xs) ++ Failed why :: rest).
Proof.
  induction l as [|[x|why] l IH].
  - left. by exists [].
  - destruct IH as [[xs ->]|(xs & why & rest & ->)].
    + left. by exists (x :: xs).
    + right. by exists (x :: xs), why, rest.
  - right. by exists [], why, l.
Qed.

Lemma results_not_failed {A : Type} (xs ys : list A) (why : string)
    (rest : list (outcome A)) :
  Done <$> xs <> (Done <$> ys) ++ Failed why :: rest.
Proof.
  revert xs. induction ys as [|y ys IH]; intros [|x xs]; simpl; try done.
  intros [= _ H]. by apply (IH xs).
Qed.

Lemma results_inj {A : Type} (xs ys : list A) :
  (Done <$> xs : list (outcome A)) = Done <$> ys -> xs = ys.
Proof.
  revert ys. induction xs as [|x xs IH]; intros [|y ys]; simpl; try done.
  intros [= -> H]. f_equal. by apply IH.
Qed.

Lemma pdfplumber_loop_reads (pages : list (option string)) (text : string) :
  pdfplumber_loop (Done <$> pages) text = Done (text +:+ page_lines pages).
Proof.
  unfold page_lines. revert text.
  induction pages as [|[page_text|] pages IH]; intros text.
  - simpl. by rewrite app_empty_r.
  - cbn [fmap list_fmap pdfplumber_loop]. rewrite concat_empty_cons.
    destruct (String.eqb page_text "").
    + rewrite app_empty_l. apply IH.
    + change (pdfplumber_loop (Done <$> pages) (text +:+ page_text +:+ String "010" "")
              = Done (text +:+ (page_text +:+ String "010" "")
                      +:+ String.concat ""
                            ((fun page =>
                                match page with
                                | Some page_text =>
                                    if String.eqb page_text "" then ""
                                    else page_text +:+ String "010" ""
                                | None => ""
                                end) <$> pages))).
      rewrite IH. by rewrite !app_assoc.
  - cbn [fmap list_fmap pdfplumber_loop]. rewrite concat_empty_cons, app_empty_l.
    apply IH.
Qed.

Lemma pdfplumber_loop_fails (pages : list (option string)) (why : string)
    (rest : list (outcome (option string))) (text : string) :
  pdfplumber_loop ((Done <$> pages) ++ Failed why :: rest) text = Failed why.
Proof.
  revert text. induction pages as [|[page_text|] pages IH]; intros text; simpl; [done|..].
  - destruct (String.eqb page_text ""); apply IH.
  - apply IH.
Qed.

Section Extraction.
Variable PYMUPDF_AVAILABLE : bool.
Variable PDFPLUMBER_AVAILABLE : bool.
Variable fitz_open : entry -> outcome fitz_doc.
Variable pdfplumber_open : entry -> outcome (list (outcome (option string))).

(** Whether pdfplumber fails does not depend on the text accumulated
    before it. *)
Lemma pdfplumber_loop_done (pages : list (outcome (option string))) (t1 t2 : string) :
  is_done (pdfplumber_loop pages t1) = is_done (pdfplumber_loop pages t2).
Proof.
  revert t1 t2. induction pages as [|[[page_text|]|why] rest IH]; intros t1 t2; simpl;
    [done| |apply IH|done].
  destruct (String.eqb page_text ""); apply IH.
Qed.

Lemma pdfplumber_extract_done (e : entry) (t1 t2 : string) :
  is_done (pdfplumber_extract pdfplumber_open e t1)
  = is_done (pdfplumber_extract pdfplumber_open e t2).
Proof.
  unfold pdfplumber_extract. destruct (pdfplumber_open e); [|done].
  apply pdfplumber_loop_done.
Qed.

(** The two libraries on a document: each one reads it or fails, and not
    both. *)
Lemma fitz_cases (e : entry) :
  (exists texts, fitz_reads fitz_open e texts)
  \/ (exists partial, fitz_fails fitz_open e partial).
Proof.
  unfold fitz_reads, fitz_fails.
  destruct (fitz_open e) as [doc|why] eqn:Hopen.
  - destruct (outcomes_split (fitz_pages doc)) as [[texts Hp]|(texts & why & rest & Hp)].
    + destruct (fitz_close doc) as [[]|why] eqn:Hclose.
      * left. exists texts, doc. by rewrite Hclose.
      * right. exists texts. right. exists doc. split; [done|]. right.
        split; [done|]. by exists why.
    + right. exists texts. right. exists doc. split; [done|]. left. by exists why, rest.
  - right. exists []. left. split; [done|]. by exists why.
Qed.

Lemma fitz_not_both (e : entry) (texts partial : list string) :
  fitz_reads fitz_open e texts -> fitz_fails fitz_open e partial -> False.
Proof.
  intros (doc & Hopen & Hpages & Hclose) [[_ [why Hwhy]]|(doc' & Hopen' & Hfail)];
    [congruence|].
  assert (doc' = doc) as -> by congruence.
  destruct Hfail as [(why & rest & Hp)|[_ [why Hwhy]]]; [|congruence].
  rewrite Hpages in Hp. by apply results_not_failed in Hp.
Qed.

Lemma pdfplumber_cases (e : entry) :
  (exists pages, pdfplumber_reads pdfplumber_open e pages)
  \/ (exists why, pdfplumber_fails pdfplumber_open e why).
Proof.
  unfold pdfplumber_reads, pdfplumber_fails.
  destruct (pdfplumber_open e) as [l|why].
  - destruct (outcomes_split l) as [[pages ->]|(pages & why & rest & ->)].
    + left. by exists pages.
    + right. exists why. right. by exists pages, rest.
  - right. exists why. by left.
Qed.

Lemma fitz_extract_reads (e : entry) (texts : list string) :
  fitz_reads fitz_open e texts ->
  fitz_extract fitz_open e "" = (Done (String.concat "" texts), String.concat "" texts).
Proof.
  intros (doc & Hopen & Hpages & Hclose). unfold fitz_extract.
  by rewrite Hopen, Hpages, fitz_loop_done, Hclose, app_empty_l.
Qed.

Lemma fitz_extract_fails (e : entry) (partial : list string) :
  fitz_fails fitz_open e partial ->
  exists why, fitz_extract fitz_open e "" = (Failed why, String.concat "" partial).
Proof.
  unfold fitz_extract.
  intros [[-> [why Hwhy]]|(doc & Hopen & [(why & rest & Hp)|[Hp [why Hwhy]]])].
  - exists why. by rewrite Hwhy.
  - exists why. by rewrite Hopen, Hp, fitz_loop_failed, app_empty_l.
  - exists why. by rewrite Hopen, Hp, fitz_loop_done, Hwhy, app_empty_l.
Qed.

Lemma pdfplumber_extract_reads (e : entry) (pages : list (option string))
    (text : string) :
  pdfplumber_reads pdfplumber_open e pages ->
  pdfplumber_extract pdfplumber_open e text = Done (text +:+ page_lines pages).
Proof.
  unfold pdfplumber_reads, pdfplumber_extract. intros ->. apply pdfplumber_loop_reads.
Qed.

Lemma pdfplumber_extract_fails (e : entry) (why text : string) :
  pdfplumber_fails pdfplumber_open e why ->
  pdfplumber_extract pdfplumber_open e text = Failed why.
Proof.
  unfold pdfplumber_fails, pdfplumber_extract. intros [->|(pages & rest & ->)]; [done|].
  apply pdfplumber_loop_fails.
Qed.

(** C8. [extract_text] raises [FileNotFoundError] exactly when the path does
    not exist, and it never changes a file.  When the path names [e], the
    outcome is told by what the libraries do with [e].  PyMuPDF, if
    available, is called first; when it opens the document, reads every page
    and closes it, the text of the pages is returned and pdfplumber is not
    called.  When PyMuPDF is not available, or fails (at the opening, at a
    page, or at the closing), pdfplumber, if available, is called next: when
    it reads every page, the call returns the text that PyMuPDF had read
    followed by the pages of pdfplumber, and when it fails, at the opening or
    at a page, its exception is raised; when pdfplumber is not available, the
    call raises a [RuntimeError].  So the call fails exactly when each
    library is unavailable or fails. *)
Theorem extract_text_backends (pdf_path : path) (w : world) :
  let r := (extract_text PYMUPDF_AVAILABLE PDFPLUMBER_AVAILABLE fitz_open pdfplumber_open
              pdf_path w).1 in
  let w' := (extract_text PYMUPDF_AVAILABLE PDFPLUMBER_AVAILABLE fitz_open pdfplumber_open
               pdf_path w).2 in
  (path_exists (files w) pdf_path = false <-> exists msg, r = Raise (FileNotFoundError msg))
  /\ files w' = files w
  /\ forall e, lookup_entry (files w) pdf_path = Some e ->
       (PYMUPDF_AVAILABLE = true ->
        forall texts, fitz_reads fitz_open e texts ->
          r = Ok (String.concat "" texts)
          /\ calls w' = calls w ++ [FitzOpen pdf_path])
       /\ (forall partial,
             (PYMUPDF_AVAILABLE = false /\ partial = [])
             \/ (PYMUPDF_AVAILABLE = true /\ fitz_fails fitz_open e partial) ->
             let tried := if PYMUPDF_AVAILABLE then [FitzOpen pdf_path] else [] in
             (PDFPLUMBER_AVAILABLE = true ->
                calls w' = calls w ++ tried ++ [PdfplumberOpen pdf_path]
                /\ (forall pages, pdfplumber_reads pdfplumber_open e pages ->
                      r = Ok (String.concat "" partial +:+ page_lines pages))
                /\ (forall why, pdfplumber_fails pdfplumber_open e why ->
                      r = Raise (LibraryError why)))
             /\ (PDFPLUMBER_AVAILABLE = false ->
                   r = Raise (RuntimeError "No PDF extraction library available")
                   /\ calls w' = calls w ++ tried))
       /\ (is_ok r = false <->
             (PYMUPDF_AVAILABLE = false \/ exists partial, fitz_fails fitz_open e partial)
             /\ (PDFPLUMBER_AVAILABLE = false
                 \/ exists why, pdfplumber_fails pdfplumber_open e why)).
Proof.
  cbv zeta. unfold extract_text, path_exists.
  destruct (lookup_entry (files w) pdf_path) as [e|] eqn:Hlook; cycle 1.
  { simpl. split; [|done]. split; [|done]. intros _. by eexists. }
  assert (Hfiles : forall text w0,
            files (extract_fallback PDFPLUMBER_AVAILABLE pdfplumber_open pdf_path e
                     text w0).2 = files w0).
  { intros text w0. unfold extract_fallback. destruct PDFPLUMBER_AVAILABLE; [|done].
    by destruct (pdfplumber_extract pdfplumber_open e text). }
  assert (Hnot : forall text w0 msg,
            (extract_fallback PDFPLUMBER_AVAILABLE pdfplumber_open pdf_path e
               text w0).1 <> Raise (FileNotFoundError msg)).
  { intros text w0 msg. unfold extract_fallback. destruct PDFPLUMBER_AVAILABLE; [|done].
    by destruct (pdfplumber_extract pdfplumber_open e text). }
  (* the fallback, on what pdfplumber does *)
  assert (Hfallback : forall text w0,
            let run := extract_fallback PDFPLUMBER_AVAILABLE pdfplumber_open pdf_path e
                         text w0 in
            (PDFPLUMBER_AVAILABLE = true ->
               calls run.2 = calls w0 ++ [PdfplumberOpen pdf_path]
               /\ (forall pages, pdfplumber_reads pdfplumber_open e pages ->
                     run.1 = Ok (text +:+ page_lines pages))
               /\ (forall why, pdfplumber_fails pdfplumber_open e why ->
                     run.1 = Raise (LibraryError why)))
            /\ (PDFPLUMBER_AVAILABLE = false ->
                  run.1 = Raise (RuntimeError "No PDF extraction library available")
                  /\ calls run.2 = calls w0)).
  { intros text w0. cbn zeta. unfold extract_fallback.
    destruct PDFPLUMBER_AVAILABLE; (split; [|done]); [|done]. intros _.
    split; [by destruct (pdfplumber_extract pdfplumber_open e text)|]. split.
    - intros pages Hreads. by rewrite (pdfplumber_extract_reads e pages text Hreads).
    - intros why Hfails. by rewrite (pdfplumber_extract_fails e why text Hfails). }
  assert (Hfallback_fails : forall text w0,
            is_ok (extract_fallback PDFPLUMBER_AVAILABLE pdfplumber_open pdf_path e
                     text w0).1 = false
            <-> PDFPLUMBER_AVAILABLE = false
                \/ exists why, pdfplumber_fails pdfplumber_open e why).
  { intros text w0. destruct (Hfallback text w0) as [Hon Hoff].
    destruct PDFPLUMBER_AVAILABLE.
    - destruct (Hon eq_refl) as (_ & Hreads & Hfails).
      destruct (pdfplumber_cases e) as [[pages Hp]|[why Hp]].
      + rewrite (Hreads pages Hp). split; [done|]. intros [?|[why Hwhy]]; [done|].
        exfalso. unfold pdfplumber_reads, pdfplumber_fails in *. rewrite Hp in Hwhy.
        destruct Hwhy as [?|(before & rest & Heq)]; [done|].
        injection Heq as Heq. by apply results_not_failed in Heq.
      + rewrite (Hfails why Hp). split; [|done]. intros _. right. by exists why.
    - destruct (Hoff eq_refl) as [-> _]. split; [|done]. intros _. by left. }
  destruct PYMUPDF_AVAILABLE.
  - destruct (fitz_cases e) as [[texts Hreads]|[partial Hfails]].
    + rewrite (fitz_extract_reads e texts Hreads). cbn [fst snd files calls log].
      split; [split; [done|by intros [msg ?]]|]. split; [done|].
      intros e' [= <-]. split; [|split].
      * intros _ texts' Hreads'.
        destruct Hreads as (doc & Hopen & Hpages & _),
                 Hreads' as (doc' & Hopen' & Hpages' & _).
        assert (doc' = doc) as -> by congruence.
        rewrite Hpages in Hpages'. apply results_inj in Hpages' as <-. done.
      * intros partial [[? _]|[_ Hfails]]; [done|].
        exfalso. by apply (fitz_not_both e texts partial).
      * split; [done|]. intros [[?|[partial Hfails]] _]; [done|].
        exfalso. by apply (fitz_not_both e texts partial).
    + destruct (fitz_extract_fails e partial Hfails) as [why Hextract].
      rewrite Hextract.
      split; [split; [done|intros [msg Hmsg]; by apply Hnot in Hmsg]|].
      split; [by rewrite Hfiles|].
      intros e' [= <-]. split; [|split].
      * intros _ texts Hreads. exfalso. by apply (fitz_not_both e texts partial).
      * intros partial' [[? _]|[_ Hfails']]; [done|].
        assert (String.concat "" partial' = String.concat "" partial) as ->.
        { destruct (fitz_extract_fails e partial' Hfails') as [why' Hextract'].
          congruence. }
        destruct (Hfallback (String.concat "" partial) (log (FitzOpen pdf_path) w))
          as [Hon Hoff].
        split.
        -- intros Hpd. destruct (Hon Hpd) as (Hcalls & Hr & Hf).
           split; [|done]. rewrite Hcalls. simpl. by rewrite <- List.app_assoc.
        -- intros Hpd. by destruct (Hoff Hpd) as [-> ->].
      * rewrite Hfallback_fails. split; [|tauto]. intros Hpd. split; [|done].
        right. by exists partial.
  - split; [split; [done|intros [msg Hmsg]; by apply Hnot in Hmsg]|].
    split; [by rewrite Hfiles|].
    intros e' [= <-]. split; [done|]. split.
    + intros partial [[_ ->]|[? _]]; [|done].
      destruct (Hfallback "" w) as [Hon Hoff]. cbn [app].
      split.
      * intros Hpd. destruct (Hon Hpd) as (Hcalls & Hr & Hf). split; [done|].
        split; [|done]. intros pages Hp. rewrite (Hr pages Hp). f_equal.
      * intros Hpd. destruct (Hoff Hpd) as [-> ->]. by rewrite app_nil_r.
    + rewrite Hfallback_fails. split; [|tauto]. intros Hpd. split; [by left|done].
Qed.

End Extraction.

(** An instance on the sample data. *)
Lemma download_pdf_default_path_witness :
  exists w',
    download_pdf Samples.good_origin Samples.cache_root
      "https://arxiv.org/pdf/2601.04344v1" None Samples.empty_cache
    = (Ok (destination Samples.cache_root "https://arxiv.org/pdf/2601.04344v1" None), w')
    /\ path_exists (files w')
         (destination Samples.cache_root "https://arxiv.org/pdf/2601.04344v1" None) = true.
Proof.
  eexists.
  assert (H : (download_pdf Samples.good_origin Samples.cache_root
                 "https://arxiv.org/pdf/2601.04344v1" None Samples.empty_cache).1
              = Ok (destination Samples.cache_root
                      "https://arxiv.org/pdf/2601.04344v1" None))
    by (vm_compute; reflexivity).
  apply pair_eta in H. split; [exact H|].
  destruct (download_pdf_default_path Samples.good_origin Samples.cache_root
              "https://arxiv.org/pdf/2601.04344v1" Samples.empty_cache)
    as (_ & _ & _ & _ & _ & _ & Hsaved).
  exact (proj2 (Hsaved _ _ H)).
Defined.

(** An instance on the sample data. *)
Lemma download_pdf_failure_witness :
  exists w',
    download_pdf Samples.missing_origin Samples.cache_root
      "https://arxiv.org/pdf/2601.04344v1" None Samples.empty_cache
    = (Raise (HTTPError 404 "Not Found" "https://arxiv.org/pdf/2601.04344v1"), w')
    /\ files w' = files Samples.empty_cache
    /\ path_exists (files w')
         (destination Samples.cache_root "https://arxiv.org/pdf/2601.04344v1" None) = false.
Proof.
  eexists.
  assert (H1 : (download_pdf Samples.missing_origin Samples.cache_root
                "https://arxiv.org/pdf/2601.04344v1" None Samples.empty_cache).1
              = Raise (HTTPError 404 "Not Found" "https://arxiv.org/pdf/2601.04344v1"))
    by (vm_compute; reflexivity).
  apply pair_eta in H1. split; [exact H1|].
  destruct (download_pdf_failure Samples.missing_origin Samples.cache_root _ _ _ _ _ H1)
    as (_ & _ & _ & Hresponse).
  destruct (Hresponse _ eq_refl) as [Hstatus _].
  exact (proj2 (Hstatus eq_refl)).
Defined.

(** C2, as stated, fails: when the connection breaks after the first chunk,
    [download_paper_pdf] raises and leaves that chunk at the cache path; the
    path then exists, and a second call returns it without a request. *)
Lemma download_failure_leaves_partial_file :
  exists w1,
    download_paper_pdf Samples.broken_origin Samples.cache_root Samples.sample_paper
      Samples.empty_cache
    = (Raise (RequestException "Connection broken: IncompleteRead"), w1)
    /\ files w1 !! Samples.sample_pdf_path = Some (File "%PDF-")
    /\ path_exists (files w1) Samples.sample_pdf_path = true
    /\ download_paper_pdf Samples.broken_origin Samples.cache_root Samples.sample_paper w1
       = (Ok Samples.sample_pdf_path, w1).
Proof.
  eexists. split; [apply pair_eta; vm_compute; reflexivity|].
  assert (Hfile : files (download_paper_pdf Samples.broken_origin Samples.cache_root
                           Samples.sample_paper Samples.empty_cache).2
                    !! Samples.sample_pdf_path = Some (File "%PDF-"))
    by (vm_compute; reflexivity).
  split; [exact Hfile|].
  pose proof (FsFacts.path_exists_lookup _ _ _ Hfile) as Hex.
  split; [exact Hex|].
  unfold download_paper_pdf at 1.
  change (pdf_cache_path Samples.cache_root (BentyClient.arxiv_id Samples.sample_paper))
    with Samples.sample_pdf_path.
  by rewrite Hex.
Qed.

(** An instance on the sample data. *)
Lemma download_paper_pdf_twice_witness :
  exists w1,
    download_paper_pdf Samples.good_origin Samples.cache_root Samples.sample_paper
      Samples.empty_cache
    = (Ok Samples.sample_pdf_path, w1)
    /\ download_paper_pdf Samples.good_origin Samples.cache_root Samples.sample_paper w1
       = (Ok Samples.sample_pdf_path, w1)
    /\ calls w1 = [RequestsGet "https://arxiv.org/pdf/2601.04344v1"].
Proof.
  eexists.
  assert (H : (download_paper_pdf Samples.good_origin Samples.cache_root
                Samples.sample_paper Samples.empty_cache).1
              = Ok Samples.sample_pdf_path) by (vm_compute; reflexivity).
  apply pair_eta in H. split; [exact H|].
  destruct (download_paper_pdf_twice Samples.good_origin Samples.cache_root _ _ _ _ H)
    as (_ & Hsecond & Hmiss & _).
  split; [exact Hsecond|].
  assert (Hcold : path_exists (files Samples.empty_cache) Samples.sample_pdf_path = false)
    by (vm_compute; reflexivity).
  exact (Hmiss Hcold).
Defined.

(** An instance on the sample data. *)
Lemma convert_and_save_markdown_twice_witness :
  exists w1,
    convert_and_save_markdown true Samples.sample_to_markdown Samples.sample_pdf_path None
      Samples.cached_pdf
    = (Ok Samples.sample_md_path, w1)
    /\ calls w1 = [ToMarkdown Samples.sample_pdf_path]
    /\ convert_and_save_markdown true Samples.sample_to_markdown Samples.sample_pdf_path
         None w1
       = (Ok Samples.sample_md_path, w1).
Proof.
  eexists.
  assert (H : (convert_and_save_markdown true Samples.sample_to_markdown
                 Samples.sample_pdf_path None Samples.cached_pdf).1
              = Ok Samples.sample_md_path) by (vm_compute; reflexivity).
  apply pair_eta in H. split; [exact H|].
  destruct (convert_and_save_markdown_twice true Samples.sample_to_markdown _ _ _ _ H)
    as (_ & Hmiss & _ & Hsecond & _).
  assert (Hcold : path_exists (files Samples.cached_pdf) Samples.sample_md_path = false)
    by (vm_compute; reflexivity).
  split; [exact (Hmiss Hcold)|exact Hsecond].
Defined.

(** An instance on the sample data: PyMuPDF cannot open the document; the
    pages of pdfplumber are returned, each on its line, and a page at which
    pdfplumber fails makes the call raise. *)
Lemma extract_text_backends_witness :
  (extract_text true true Samples.failing_fitz Samples.sample_pdfplumber
     Samples.sample_pdf_path Samples.cached_pdf).1
  = Ok ("Page one." +:+ String "010" ("Page two." +:+ String "010" ""))
  /\ calls (extract_text true true Samples.failing_fitz Samples.sample_pdfplumber
              Samples.sample_pdf_path Samples.cached_pdf).2
     = [FitzOpen Samples.sample_pdf_path; PdfplumberOpen Samples.sample_pdf_path]
  /\ (extract_text true true Samples.failing_fitz Samples.failing_pdfplumber
        Samples.sample_pdf_path Samples.cached_pdf).1
     = Raise (LibraryError "page 2 is damaged")
  /\ is_ok (extract_text true false Samples.failing_fitz Samples.sample_pdfplumber
              Samples.sample_pdf_path Samples.cached_pdf).1 = false.
Proof.
  assert (Hlook : lookup_entry (files Samples.cached_pdf) Samples.sample_pdf_path
                  = Some (File "%PDF-1.7")) by (vm_compute; reflexivity).
  assert (Hfitz : fitz_fails Samples.failing_fitz (File "%PDF-1.7") []).
  { left. split; [reflexivity|]. by exists "cannot open broken document". }
  split; [|split; [|split]].
  - destruct (extract_text_backends true true Samples.failing_fitz Samples.sample_pdfplumber
                Samples.sample_pdf_path Samples.cached_pdf) as (_ & _ & Hnamed).
    destruct (Hnamed _ Hlook) as (_ & Hfails & _).
    destruct (Hfails [] (or_intror (conj eq_refl Hfitz))) as [Hon _].
    destruct (Hon eq_refl) as (_ & Hreads & _).
    exact (Hreads [Some "Page one."; None; Some "Page two."] eq_refl).
  - destruct (extract_text_backends true true Samples.failing_fitz Samples.sample_pdfplumber
                Samples.sample_pdf_path Samples.cached_pdf) as (_ & _ & Hnamed).
    destruct (Hnamed _ Hlook) as (_ & Hfails & _).
    destruct (Hfails [] (or_intror (conj eq_refl Hfitz))) as [Hon _].
    destruct (Hon eq_refl) as (Hcalls & _). exact Hcalls.
  - destruct (extract_text_backends true true Samples.failing_fitz Samples.failing_pdfplumber
                Samples.sample_pdf_path Samples.cached_pdf) as (_ & _ & Hnamed).
    destruct (Hnamed _ Hlook) as (_ & Hfails & _).
    destruct (Hfails [] (or_intror (conj eq_refl Hfitz))) as [Hon _].
    destruct (Hon eq_refl) as (_ & _ & Hraise).
    apply Hraise. right. by exists [Some "Page one."], [].
  - destruct (extract_text_backends true false Samples.failing_fitz Samples.sample_pdfplumber
                Samples.sample_pdf_path Samples.cached_pdf) as (_ & _ & Hnamed).
    destruct (Hnamed _ Hlook) as (_ & _ & Hiff).
    apply Hiff. split; [right; by exists []|by left].
Defined.

End PdfProcessorFacts.

(** ** generate_summary.py *)

Module GenerateSummaryFacts.
Import PyStr PyStrFacts PathLib GenerateSummary.


Section Summary.
Variable PYMUPDF_AVAILABLE : bool.
Variable PDFPLUMBER_AVAILABLE : bool.
Variable PYMUPDF4LLM_AVAILABLE : bool.
Variable origin : list string -> string -> result Http.stream.
Variable fitz_open : entry -> outcome PdfProcessor.fitz_doc.
Variable pdfplumber_open : entry -> outcome (list (outcome (option string))).
Variable to_markdown : entry -> outcome string.
Variable tmp_dir : path.
Variable fill_ai_sections : string -> string -> string -> ai_sections.
Variable generated : string.

(** With the PDF and its Markdown in the cache, the content of the section
    is the Markdown block of the cached file, and nothing is downloaded or
    converted. *)
Lemma content_lines_cached_markdown (paper : BentyClient.paper) (w : PdfProcessor.world)
    (md_path : path) (markdown_content : string) :
  let pdf_path := PdfProcessor.pdf_cache_path tmp_dir (BentyClient.arxiv_id paper) in
  path_exists (PdfProcessor.files w) pdf_path = true ->
  PdfProcessor.get_markdown_path pdf_path = Ok md_path ->
  read_text md_path (PdfProcessor.files w) = Ok markdown_content ->
  content_lines PYMUPDF_AVAILABLE PDFPLUMBER_AVAILABLE PYMUPDF4LLM_AVAILABLE origin
    fitz_open pdfplumber_open to_markdown tmp_dir paper true w
  = (markdown_section md_path markdown_content, w).
Proof.
  intros pdf_path Hpdf Hmd Hread. unfold content_lines. fold pdf_path.
  rewrite Hpdf. unfold cached_markdown. rewrite Hmd.
  assert (Hex : path_exists (PdfProcessor.files w) md_path = true).
  { unfold read_text in Hread. unfold path_exists.
    by destruct (lookup_entry (PdfProcessor.files w) md_path). }
  rewrite Hex. simpl. by rewrite Hread.
Qed.

(** Without papers the document is the header, and the count is zero. *)
Lemma generate_daily_summary_empty (out : path) (include_pdf_text use_markdown : bool)
    (w w' : PdfProcessor.world) (s : summary) :
  generate_daily_summary PYMUPDF_AVAILABLE PDFPLUMBER_AVAILABLE PYMUPDF4LLM_AVAILABLE
    origin fitz_open pdfplumber_open to_markdown tmp_dir fill_ai_sections generated
    [] out include_pdf_text use_markdown w = (Ok s, w') ->
  papers_count s = 0%nat
  /\ PdfProcessor.files w' !! out
     = Some (File (String.concat LF (header_lines generated)))
  /\ PdfProcessor.calls w' = PdfProcessor.calls w.
Proof.
  unfold generate_daily_summary. cbn [sections].
  destruct (mkdir_parents (parent out) (PdfProcessor.files w)) as [fs1|e]; [|done].
  destruct (open_w out fs1) as [fs2|e] eqn:Hopen; [|done].
  intros [= <- <-]. split; [done|]. split; [|done].
  apply FsFacts.open_w_ok in Hopen as [-> _]. simpl.
  rewrite (FsFacts.write_lookup out _ ""); [done|]. apply lookup_insert_eq.
Qed.

End Summary.


End GenerateSummaryFacts.

(** ** benty_client.py *)

Module BentyClientFacts.
Import Http Bs4 BentyClient PyStr PyStrFacts.

(** The loop keeps, in order, the blocks whose parse returns. *)
Lemma parse_all_omap (divs : list node) (papers : list paper) :
  parse_all divs papers = papers ++ omap (fun b => ok_value (_parse_paper b)) divs.
Proof.
  revert papers. induction divs as [|b divs IH]; intros papers; simpl.
  - by rewrite app_nil_r.
  - destruct (_parse_paper b) as [p|e]; simpl; rewrite IH; [|done].
    by rewrite <- List.app_assoc.
Qed.

Lemma slice_list_nonneg {A : Type} (n : Z) (l : list A) :
  0 <= n -> slice_list n l = take (Z.to_nat n) l.
Proof. intros Hn. unfold slice_list. by destruct (Z.ltb_spec n 0); [lia|]. Qed.

Lemma omap_well_formed (divs : list node) :
  Forall (fun b => is_ok (_parse_paper b) = true) divs ->
  Forall2 (fun b p => _parse_paper b = Ok p) divs
          (omap (fun b => ok_value (_parse_paper b)) divs).
Proof.
  induction 1 as [|b divs Hb _ IH]; simpl; [constructor|].
  destruct (_parse_paper b) as [p|e] eqn:Hp; [|done]. simpl. by constructor.
Qed.

Lemma omap_malformed (divs : list node) :
  Forall (fun b => is_ok (_parse_paper b) = false) divs ->
  omap (fun b => ok_value (_parse_paper b)) divs = [].
Proof.
  induction 1 as [|b divs Hb _ IH]; simpl; [done|].
  by destruct (_parse_paper b).
Qed.

(** Where the fields of a parsed record come from. *)
Lemma _parse_paper_fields (paper_div : node) (p : paper) :
  _parse_paper paper_div = Ok p ->
  exists h4 rank_str heading abs_link,
    find "h4" (has_class "paper_row") paper_div = Some h4
    /\ split1 "." (get_text_strip h4) = [rank_str; heading]
    /\ int rank_str = Ok (rank p)
    /\ title p = strip heading
    /\ find "a" (href_with (contains "arxiv.org/abs")) paper_div = Some abs_link
    /\ arxiv_version p = get_text_strip abs_link
    /\ arxiv_id p = split_first "v" (arxiv_version p).
Proof.
  unfold _parse_paper.
  destruct (find "h4" (has_class "paper_row") paper_div) as [h4|]; [|done].
  destruct (split1 "." (get_text_strip h4)) as [|rank_str [|heading [|]]] eqn:Hsplit;
    try done.
  destruct (find "p" (has_class "paper_row") paper_div) as [authors_p|]; [|done].
  destruct (find "a" (href_with (contains "arxiv.org/abs")) paper_div) as [abs_link|];
    [|done].
  destruct (find "a" (href_with (fun x => endswith x ".pdf")) paper_div) as [pdf_link|];
    [|done].
  destruct (int rank_str) as [z|] eqn:Hint; [|done]. simpl.
  destruct (getitem pdf_link "href") as [pdf_href|]; [|done]. simpl.
  destruct (getitem abs_link "href") as [abs_href|]; [|done]. simpl.
  intros [= <-]. simpl. by exists h4, rank_str, heading, abs_link.
Qed.

(** A block without a link to a PDF does not parse. *)
Lemma _parse_paper_no_pdf_link (paper_div : node) :
  find "a" (href_with (fun x => endswith x ".pdf")) paper_div = None ->
  is_ok (_parse_paper paper_div) = false.
Proof.
  intros Hpdf. unfold _parse_paper. rewrite Hpdf.
  destruct (find "h4" (has_class "paper_row") paper_div) as [h4|]; [|done].
  destruct (split1 "." (get_text_strip h4)) as [|rank_str [|heading [|]]]; try done.
  destruct (find "p" (has_class "paper_row") paper_div) as [authors_p|]; [|done].
  by destruct (find "a" (href_with (contains "arxiv.org/abs")) paper_div).
Qed.

(** The identifier of a parsed record is the text of the version label
    before its first ["v"]. *)
Lemma arxiv_id_before_first_v (paper_div : node) (p : paper) :
  _parse_paper paper_div = Ok p ->
  has_char "v" (arxiv_id p) = false
  /\ ((has_char "v" (arxiv_version p) = false /\ arxiv_id p = arxiv_version p)
      \/ exists rest, arxiv_version p = arxiv_id p +:+ String "v" rest).
Proof.
  intros Hp. apply _parse_paper_fields in Hp as (_ & _ & _ & _ & _ & _ & _ & _ & _ & _ & ->).
  split; [apply split_first_no_sep|apply split_first_spec].
Qed.

(** When the only ["v"] of the version label is the one of its version
    marker, the identifier is the label without the marker. *)
Lemma arxiv_id_strips_version (paper_div : node) (p : paper) (id number : string) :
  _parse_paper paper_div = Ok p ->
  arxiv_version p = id +:+ String "v" number ->
  has_char "v" id = false ->
  arxiv_id p = id.
Proof.
  intros Hp Hversion Hid.
  apply _parse_paper_fields in Hp as (_ & _ & _ & _ & _ & _ & _ & _ & _ & _ & ->).
  rewrite Hversion. by apply split_first_app.
Qed.

(** C7, at a version label of an old archive: the identifier of
    ["solv-int/9701001v2"] is ["sol"], not ["solv-int/9701001"]. *)
Theorem old_style_identifier :
  (fun p => (arxiv_version p, arxiv_id p)) <$> ok_value (_parse_paper Samples.old_style_block)
  = Some ("solv-int/9701001v2", "sol").
Proof. vm_compute. reflexivity. Qed.

Section Client.
Variable site : list request -> request -> result response.
Variable html_parser : string -> node.
Variable now : datetime.

(** Once logged in and served the page, the call returns the records of the
    blocks it visits, and has sent one request more. *)
Lemma fetch_daily_papers_served (date : pyval) (num_papers : Z) (c c1 : client)
    (resp : response) :
  _ensure_logged_in site html_parser c = (Ok tt, c1) ->
  site (sent c1) (GET (listing_url (date_or_today now date))) = Ok resp ->
  raise_for_status (status_code resp) (reason resp) (url resp) = Ok tt ->
  fetch_daily_papers site html_parser now date num_papers c
  = (Ok (omap (fun b => ok_value (_parse_paper b))
           (paper_divs (html_parser (text resp)) num_papers)),
     record_request (GET (listing_url (date_or_today now date))) c1).
Proof.
  intros Hlogin Hsite Hstatus. unfold fetch_daily_papers, send.
  by rewrite Hlogin, Hsite, Hstatus, parse_all_omap.
Qed.

(** C1 (amended). When the page is served and each of its blocks parses, a
    call with a limit [L >= 0] returns [min N L] records; the record at
    position [i] is the parse of the block at position [i] of the page, and
    its rank is the integer written before the first dot of the heading of
    that block.  (The ranks increase with the position exactly when the
    headings of the page do.) *)
Theorem fetch_daily_papers_listing (date : pyval) (num_papers : Z) (c c1 : client)
    (resp : response) :
  _ensure_logged_in site html_parser c = (Ok tt, c1) ->
  site (sent c1) (GET (listing_url (date_or_today now date))) = Ok resp ->
  raise_for_status (status_code resp) (reason resp) (url resp) = Ok tt ->
  let blocks := find_all "div" (has_class "paper") (html_parser (text resp)) in
  Forall (fun b => is_ok (_parse_paper b) = true) blocks ->
  0 <= num_papers ->
  exists papers,
    (fetch_daily_papers site html_parser now date num_papers c).1 = Ok papers
    /\ length papers = Nat.min (length blocks) (Z.to_nat num_papers)
    /\ forall i p, papers !! i = Some p ->
         exists b h4 rank_str heading,
           blocks !! i = Some b
           /\ _parse_paper b = Ok p
           /\ find "h4" (has_class "paper_row") b = Some h4
           /\ split1 "." (get_text_strip h4) = [rank_str; heading]
           /\ int rank_str = Ok (rank p).
Proof.
  intros Hlogin Hsite Hstatus blocks Hwf Hlimit.
  rewrite (fetch_daily_papers_served date num_papers c c1 resp Hlogin Hsite Hstatus).
  unfold paper_divs. fold blocks. rewrite (slice_list_nonneg num_papers blocks Hlimit).
  eexists. split; [reflexivity|].
  pose proof (omap_well_formed _ (Forall_take _ (Z.to_nat num_papers) _ Hwf)) as Hall.
  split.
  - rewrite <- (Forall2_length _ _ _ Hall), length_take. lia.
  - intros i p Hi.
    destruct (Forall2_lookup_r _ _ _ _ _ Hall Hi) as (b & Hb & Hp).
    apply lookup_take_Some in Hb as [Hb _].
    destruct (_parse_paper_fields b p Hp) as (h4 & rank_str & heading & _ & H1 & H2 & H3 & _).
    by exists b, h4, rank_str, heading.
Qed.

(** C3. When the page is served, the call returns, whatever its blocks
    are: the result is the list of the records of the blocks that parse,
    among the blocks the limit selects, in page order.  In particular, when
    the limit covers the page and one block lacks the PDF link (or fails to
    parse for another reason) while every other block parses, the result is
    the list of the records of the other blocks, in order: one record less
    than the page has blocks, and not empty when there is another block. *)
Theorem fetch_daily_papers_partial_failure (date : pyval) (num_papers : Z)
    (c c1 : client) (resp : response) :
  _ensure_logged_in site html_parser c = (Ok tt, c1) ->
  site (sent c1) (GET (listing_url (date_or_today now date))) = Ok resp ->
  raise_for_status (status_code resp) (reason resp) (url resp) = Ok tt ->
  let blocks := find_all "div" (has_class "paper") (html_parser (text resp)) in
  exists papers,
    (fetch_daily_papers site html_parser now date num_papers c).1 = Ok papers
    /\ papers = omap (fun b => ok_value (_parse_paper b))
                     (slice_list num_papers blocks)
    /\ forall i bad,
         blocks !! i = Some bad ->
         (find "a" (href_with (fun x => endswith x ".pdf")) bad = None
          \/ is_ok (_parse_paper bad) = false) ->
         (forall j b, j <> i -> blocks !! j = Some b -> is_ok (_parse_paper b) = true) ->
         Z.of_nat (length blocks) <= num_papers ->
         Forall2 (fun b p => _parse_paper b = Ok p) (delete i blocks) papers
         /\ S (length papers) = length blocks
         /\ ((2 <= length blocks)%nat -> papers <> []).
Proof.
  intros Hlogin Hsite Hstatus blocks.
  rewrite (fetch_daily_papers_served date num_papers c c1 resp Hlogin Hsite Hstatus).
  unfold paper_divs. fold blocks.
  eexists. split; [reflexivity|]. split; [reflexivity|].
  intros i bad Hi Hbad Hothers Hlimit.
  assert (Hfail : is_ok (_parse_paper bad) = false).
  { destruct Hbad as [Hpdf|Hfail]; [by apply _parse_paper_no_pdf_link|done]. }
  rewrite slice_list_nonneg by lia. rewrite take_ge by lia.
  assert (Hparts : omap (fun b => ok_value (_parse_paper b)) blocks
                   = omap (fun b => ok_value (_parse_paper b)) (delete i blocks)).
  { rewrite <- (take_drop_middle blocks i bad Hi) at 1.
    rewrite delete_take_drop, !omap_app. f_equal. simpl.
    by destruct (_parse_paper bad). }
  rewrite Hparts.
  assert (Hall : Forall2 (fun b p => _parse_paper b = Ok p) (delete i blocks)
                   (omap (fun b => ok_value (_parse_paper b)) (delete i blocks))).
  { apply omap_well_formed. rewrite delete_take_drop. apply Forall_app. split.
    - apply Forall_lookup_2. intros j b Hj. apply lookup_take_Some in Hj as [Hj Hlt].
      apply (Hothers j b); [lia|done].
    - apply Forall_lookup_2. intros j b Hj. rewrite lookup_drop in Hj.
      apply (Hothers (S i + j)%nat b); [lia|done]. }
  split; [exact Hall|].
  apply Forall2_length in Hall. rewrite length_delete in Hall by eauto.
  apply lookup_lt_Some in Hi.
  split; [lia|].
  intros Htwo Hnil. rewrite Hnil in Hall. simpl in Hall. lia.
Qed.

End Client.

(** The listing of 2026-01-09 has three blocks: a limit of 10 gives the
    ranks 1, 2, 3 and a limit of 2 the ranks 1, 2.  A negative limit is a
    Python slice: [-1] drops the last block. *)
Example listing_limit_10 :
  map rank <$> ok_value (fetch_daily_papers Samples.sample_site Samples.sample_parser
                           Samples.sample_now (PyStr "2026-01-09") 10
                           Samples.new_client).1
  = Some [1; 2; 3].
Proof. vm_compute. reflexivity. Qed.

Example listing_limit_2 :
  map rank <$> ok_value (fetch_daily_papers Samples.sample_site Samples.sample_parser
                           Samples.sample_now (PyStr "2026-01-09") 2
                           Samples.new_client).1
  = Some [1; 2].
Proof. vm_compute. reflexivity. Qed.

Example listing_limit_negative :
  map rank <$> ok_value (fetch_daily_papers Samples.sample_site Samples.sample_parser
                           Samples.sample_now (PyStr "2026-01-09") (-1)
                           Samples.new_client).1
  = Some [1; 2].
Proof. vm_compute. reflexivity. Qed.

(** The limit counts the blocks visited, not the records returned: a limit
    of 2 on the page whose second block lacks the PDF link gives one
    record. *)
Example limit_counts_blocks_not_records :
  ok_value (fetch_daily_papers Samples.sample_site Samples.sample_parser
              Samples.sample_now (PyStr "2026-01-11") 2 Samples.new_client).1
  = (fun p => [p]) <$> ok_value (_parse_paper Samples.block1).
Proof. vm_compute. reflexivity. Qed.

(** An instance on the sample data. *)
Lemma fetch_daily_papers_listing_witness :
  exists papers,
    (fetch_daily_papers Samples.sample_site Samples.sample_parser Samples.sample_now
       (PyStr "2026-01-09") 2 Samples.new_client).1 = Ok papers
    /\ length papers = 2%nat.
Proof.
  assert (Hlogin : (_ensure_logged_in Samples.sample_site Samples.sample_parser
                      Samples.new_client).1 = Ok tt) by (vm_compute; reflexivity).
  apply pair_eta in Hlogin.
  destruct (fetch_daily_papers_listing Samples.sample_site Samples.sample_parser
              Samples.sample_now (PyStr "2026-01-09") 2 Samples.new_client _
              (Samples.served (Samples.listing_of "2026-01-09") "listing") Hlogin)
    as (papers & Hpapers & Hlength & _).
  - vm_compute. reflexivity.
  - vm_compute. reflexivity.
  - repeat constructor.
  - lia.
  - exists papers. split; [exact Hpapers|]. exact Hlength.
Defined.

(** C1, as stated, fails: on a page whose two blocks parse and are headed
    ["2. Galaxy clustering"] and ["1. Dark matter halos"], the call returns
    both records in page order, and the rank of the first, 2, is not below
    the rank of the second, 1. *)
Lemma ranks_follow_headings :
  Forall (fun b => is_ok (_parse_paper b) = true)
    (find_all "div" (has_class "paper") Samples.swapped_soup)
  /\ exists first second,
       (fetch_daily_papers Samples.sample_site Samples.sample_parser Samples.sample_now
          (PyStr "2026-01-10") 10 Samples.new_client).1 = Ok [first; second]
       /\ _parse_paper Samples.block2 = Ok first
       /\ _parse_paper Samples.block1 = Ok second
       /\ rank first = 2 /\ rank second = 1
       /\ ~ rank first < rank second.
Proof.
  split; [repeat constructor|].
  eexists _, _. split; [vm_compute; reflexivity|].
  split; [vm_compute; reflexivity|]. split; [vm_compute; reflexivity|].
  split; [reflexivity|]. split; [reflexivity|]. simpl. lia.
Qed.

(** An instance on the sample data. *)
Lemma fetch_daily_papers_partial_failure_witness :
  exists papers,
    (fetch_daily_papers Samples.sample_site Samples.sample_parser Samples.sample_now
       (PyStr "2026-01-11") 10 Samples.new_client).1 = Ok papers
    /\ Forall2 (fun b p => _parse_paper b = Ok p) [Samples.block1; Samples.block3] papers.
Proof.
  assert (Hlogin : (_ensure_logged_in Samples.sample_site Samples.sample_parser
                      Samples.new_client).1 = Ok tt) by (vm_compute; reflexivity).
  apply pair_eta in Hlogin.
  destruct (fetch_daily_papers_partial_failure Samples.sample_site Samples.sample_parser
              Samples.sample_now (PyStr "2026-01-11") 10 Samples.new_client _
              (Samples.served (Samples.listing_of "2026-01-11") "partial") Hlogin)
    as (papers & Hpapers & _ & Hone).
  - vm_compute. reflexivity.
  - vm_compute. reflexivity.
  - exists papers. split; [exact Hpapers|].
    refine (proj1 (Hone 1%nat Samples.block2_without_pdf eq_refl (or_introl eq_refl) _ _)).
    + intros [|[|[|j]]] b Hj Hb; try done; by injection Hb as <-.
    + vm_compute. discriminate.
Defined.

End BentyClientFacts.

(** ** server.py *)

Module ServerFacts.
Import Http PyStr PyStrFacts BentyClient Server.

(** The digits of a number of [k + 1] digits: as many as [zero_padded]
    writes. *)
Lemma digits_go_padded (k : nat) :
  forall (fuel : nat) (n : Z) (acc : string),
    (k <= fuel)%nat -> 10 ^ Z.of_nat k <= n < 10 ^ Z.of_nat (S k) ->
    digits_go fuel n acc = zero_padded (S k) n acc.
Proof.
  induction k as [|k IH]; intros fuel n acc Hfuel Hn.
  - change (10 ^ Z.of_nat 0) with 1 in Hn. change (10 ^ Z.of_nat 1) with 10 in Hn.
    destruct fuel as [|fuel]; simpl; [done|].
    by destruct (Z.ltb_spec n 10); [|lia].
  - destruct fuel as [|fuel]; [lia|].
    rewrite !Nat2Z.inj_succ, !Z.pow_succ_r in Hn by lia.
    rewrite Nat2Z.inj_succ, Z.pow_succ_r in IH by lia.
    assert (Hpos : 0 < 10 ^ Z.of_nat k) by (apply Z.pow_pos_nonneg; lia).
    change (digits_go (S fuel) n acc)
      with (if n <? 10 then String (digit_char (n mod 10)) acc
            else digits_go fuel (n / 10) (String (digit_char (n mod 10)) acc)).
    destruct (Z.ltb_spec n 10); [lia|].
    change (zero_padded (S (S k)) n acc)
      with (zero_padded (S k) (n / 10) (String (digit_char (n mod 10)) acc)).
    apply IH; [lia|]. split.
    + apply Z.div_le_lower_bound; lia.
    + apply Z.div_lt_upper_bound; lia.
Qed.

Lemma of_int_8_digits (n : Z) :
  10000000 <= n < 100000000 -> of_int n = zero_padded 8 n "".
Proof.
  intros Hn. unfold of_int. rewrite Z.abs_eq by lia.
  destruct (Z.ltb_spec n 0); [lia|].
  apply (digits_go_padded 7); [|by change (10 ^ Z.of_nat 7) with 10000000;
                                    change (10 ^ Z.of_nat 8) with 100000000].
  assert (Hlog : Z.log2 (2 ^ 23) <= Z.log2 n) by (apply Z.log2_le_mono; lia).
  rewrite Z.log2_pow2 in Hlog by lia. lia.
Qed.

Lemma slices_of_8 (c1 c2 c3 c4 c5 c6 c7 c8 : ascii) :
  let s := String c1 (String c2 (String c3 (String c4
             (String c5 (String c6 (String c7 (String c8 ""))))))) in
  String.length s = 8%nat
  /\ slice_to 4 s +:+ "-" +:+ slice 4 6 s +:+ "-" +:+ slice 6 8 s
     = String c1 (String c2 (String c3 (String c4 (String "-"
         (String c5 (String c6 (String "-" (String c7 (String c8 ""))))))))).
Proof. done. Qed.

(** A configured date [YYYYMMDD] becomes [YYYY-MM-DD], the form that
    [strftime] gives the date of that day. *)
Lemma normalize_numeric_date (dt : datetime) :
  1000 <= year dt <= 9999 -> 0 <= month dt <= 99 -> 0 <= day dt <= 99 ->
  normalize_numeric (PyInt (year dt * 10000 + month dt * 100 + day dt))
  = PyStr (strftime_Ymd dt).
Proof.
  intros Hy Hm Hd. unfold normalize_numeric. cbn [is_int py_format].
  rewrite of_int_8_digits by lia.
  set (n := year dt * 10000 + month dt * 100 + day dt).
  cbn [zero_padded].
  match goal with
  | |- context [String.length (String ?c1 (String ?c2 (String ?c3 (String ?c4
         (String ?c5 (String ?c6 (String ?c7 (String ?c8 ""))))))))] =>
      destruct (slices_of_8 c1 c2 c3 c4 c5 c6 c7 c8) as [Hlen Hrew]
  end.
  rewrite Hlen, Hrew. clear Hlen Hrew. cbn [Nat.eqb]. f_equal.
  unfold strftime_Ymd. cbn [zero_padded]. rewrite !app_cons, !app_empty_l. subst n.
  repeat (f_equal; try (f_equal; Z.to_euclidean_division_equations; lia)).
Qed.

Section Tool.
Variable site : list request -> request -> result response.
Variable html_parser : string -> Bs4.node.
Variable now : datetime.
Variable load_config : result config.

Lemma fetch_daily_papers_request (date : pyval) (num_papers : Z) (c c1 : client) :
  _ensure_logged_in site html_parser c = (Ok tt, c1) ->
  sent (fetch_daily_papers site html_parser now date num_papers c).2
  = sent c1 ++ [GET (listing_url (date_or_today now date))].
Proof.
  intros Hlogin. unfold fetch_daily_papers, send. rewrite Hlogin.
  destruct (site (sent c1) (GET (listing_url (date_or_today now date)))) as [resp|e];
    [|done].
  by destruct (raise_for_status (status_code resp) (reason resp) (url resp)).
Qed.

(** The date of a call is never [None]. *)
Lemma resolve_date_given (arg_date day : pyval) :
  resolve_date now load_config arg_date = Ok day -> date_or_today now day = day.
Proof.
  unfold resolve_date. destruct arg_date; try by intros [= <-].
  destruct load_config as [cfg|e]; [|done]. simpl.
  destruct (cfg_date cfg) as [|b|z|s] eqn:Hdate; try by intros [= <-].
  all: unfold normalize_numeric; cbn [is_int];
    destruct (String.length _ =? 8)%nat; by intros [= <-].
Qed.

(** A call of the tool that returns has requested the listing of the date
    of the call, and reports that date. *)
Lemma call_fetch_daily_papers_request (arg_date : pyval) (arg_num_papers : option Z)
    (global global' : option client) (day : pyval) (found : listing) :
  resolve_date now load_config arg_date = Ok day ->
  call_fetch_daily_papers site html_parser now load_config arg_date arg_num_papers global
  = (Ok found, global') ->
  date_used found = day
  /\ exists c, global' = Some c /\ last (sent c) = Some (GET (listing_url day)).
Proof.
  intros Hday. unfold call_fetch_daily_papers. rewrite Hday.
  destruct (resolve_num_papers load_config arg_num_papers) as [n|e]; [|done].
  destruct (get_client site html_parser load_config global) as [[c|e] g]; [|done].
  destruct (fetch_daily_papers site html_parser now day n c) as [[papers|e] c'] eqn:Hfetch;
    [|done].
  intros [= <- <-]. split; [done|]. exists c'. split; [done|].
  destruct (_ensure_logged_in site html_parser c) as [[[]|e] c1] eqn:Hlogin; cycle 1.
  { revert Hfetch. unfold fetch_daily_papers. by rewrite Hlogin. }
  pose proof (fetch_daily_papers_request day n c c1 Hlogin) as Hsent.
  rewrite Hfetch in Hsent. cbn [snd] in Hsent.
  by rewrite Hsent, last_snoc, (resolve_date_given arg_date day Hday).
Qed.

(** C9 (amended). The tool uses a date given as argument as it is: a string
    [YYYY-MM-DD] is accepted unchanged, and a number is not normalized.
    When the argument is omitted the configured date is taken: a string as
    it is, and a number [YYYYMMDD] (a year of four digits) as the string
    [YYYY-MM-DD]; when the configuration has no date either, the date is the
    current day as [YYYY-MM-DD].  A call of the tool that returns has
    requested, as its last request, the listing of the date so determined,
    and reports that date.  [fetch_daily_papers] itself turns an omitted date
    into the current day and builds the listing request from the date it
    has. *)
Theorem date_of_listing_request :
  (forall s, resolve_date now load_config (PyStr s) = Ok (PyStr s))
  /\ (forall z, resolve_date now load_config (PyInt z) = Ok (PyInt z))
  /\ (forall cfg, load_config = Ok cfg ->
        (cfg_date cfg = PyNone ->
           resolve_date now load_config PyNone = Ok (PyStr (strftime_Ymd now)))
        /\ (forall s, cfg_date cfg = PyStr s ->
              resolve_date now load_config PyNone = Ok (PyStr s))
        /\ (forall dt,
              1000 <= year dt <= 9999 -> 0 <= month dt <= 99 -> 0 <= day dt <= 99 ->
              cfg_date cfg = PyInt (year dt * 10000 + month dt * 100 + day dt) ->
              resolve_date now load_config PyNone = Ok (PyStr (strftime_Ymd dt))))
  /\ (forall arg_date arg_num_papers global global' day found,
        resolve_date now load_config arg_date = Ok day ->
        call_fetch_daily_papers site html_parser now load_config arg_date arg_num_papers
          global
        = (Ok found, global') ->
        date_used found = day
        /\ exists c, global' = Some c
             /\ last (sent c) = Some (GET (listing_url day)))
  /\ (forall date num_papers c c1,
        _ensure_logged_in site html_parser c = (Ok tt, c1) ->
        sent (fetch_daily_papers site html_parser now date num_papers c).2
        = sent c1 ++ [GET (listing_url (date_or_today now date))])
  /\ date_or_today now PyNone = PyStr (strftime_Ymd now)
  /\ (forall s, date_or_today now (PyStr s) = PyStr s
                /\ listing_url (PyStr s)
                   = "https://www.benty-fields.com/daily_arXiv_results?date=" +:+ s).
Proof.
  split; [done|]. split; [done|]. split.
  - intros cfg Hcfg. unfold resolve_date. rewrite Hcfg. simpl.
    split; [by intros ->|]. split; [by intros s ->|].
    intros dt Hy Hm Hd Hdate. rewrite Hdate. f_equal.
    by apply normalize_numeric_date.
  - split; [|split; [apply fetch_daily_papers_request|done]].
    intros arg_date arg_num_papers global global' day found Hday Hcall.
    destruct (call_fetch_daily_papers_request arg_date arg_num_papers global global'
                day found Hday Hcall) as (Hused & c & Hglobal & Hlast).
    split; [done|]. by exists c.
Qed.

End Tool.

(** An instance on the sample data: on the day after the configured day, a
    call without a date requests the listing of the configured day. *)
Lemma date_of_listing_request_witness :
  resolve_date Samples.next_day (Ok Samples.sample_config) PyNone
  = Ok (PyStr "2026-01-09")
  /\ (exists found c,
        call_fetch_daily_papers Samples.sample_site Samples.sample_parser Samples.next_day
          (Ok Samples.sample_config) PyNone None None
        = (Ok found, Some c)
        /\ date_used found = PyStr "2026-01-09"
        /\ last (sent c)
           = Some (GET "https://www.benty-fields.com/daily_arXiv_results?date=2026-01-09"))
  /\ sent (fetch_daily_papers Samples.sample_site Samples.sample_parser Samples.sample_now
             (PyStr "2026-01-09") 10 Samples.new_client).2
     = [GET "https://www.benty-fields.com/login";
        POST "https://www.benty-fields.com/login"
          [("email", "user@example.org"); ("password", "secret");
           ("csrf_token", "token-123")];
        GET "https://www.benty-fields.com/daily_arXiv_results?date=2026-01-09"].
Proof.
  destruct (date_of_listing_request Samples.sample_site Samples.sample_parser
              Samples.next_day (Ok Samples.sample_config))
    as (_ & _ & Hconfig & Htool & _).
  destruct (Hconfig Samples.sample_config eq_refl) as (_ & _ & Hnumber).
  assert (Hday : resolve_date Samples.next_day (Ok Samples.sample_config) PyNone
                 = Ok (PyStr "2026-01-09")).
  { apply (Hnumber Samples.sample_now); [simpl; lia..|reflexivity]. }
  split; [exact Hday|]. split.
  - assert (Hok : is_ok (call_fetch_daily_papers Samples.sample_site Samples.sample_parser
                           Samples.next_day (Ok Samples.sample_config) PyNone None None).1
                  = true) by (vm_compute; reflexivity).
    destruct (call_fetch_daily_papers Samples.sample_site Samples.sample_parser
                Samples.next_day (Ok Samples.sample_config) PyNone None None)
      as [[found|e] global'] eqn:Hcall; [|discriminate Hok].
    destruct (Htool PyNone None None global' _ found Hday Hcall)
      as (Hused & c & -> & Hlast).
    by exists found, c.
  - destruct (date_of_listing_request Samples.sample_site Samples.sample_parser
                Samples.sample_now (Ok Samples.sample_config))
      as (_ & _ & _ & _ & Hrequest & _).
    assert (Hlogin : (_ensure_logged_in Samples.sample_site Samples.sample_parser
                        Samples.new_client).1 = Ok tt) by (vm_compute; reflexivity).
    apply pair_eta in Hlogin.
    exact (Hrequest (PyStr "2026-01-09") 10 Samples.new_client _ Hlogin).
Defined.

(** C9, as stated, fails: the number 20260109 given as the date of the
    call is not normalized; the listing is requested for [20260109], by the
    tool and by [fetch_daily_papers] alike. *)
Lemma numeric_argument_not_normalized :
  resolve_date Samples.sample_now (Ok Samples.sample_config) (PyInt 20260109)
  = Ok (PyInt 20260109)
  /\ (fun c => List.last (sent c) (GET ""))
       <$> (call_fetch_daily_papers Samples.sample_site Samples.sample_parser
              Samples.sample_now (Ok Samples.sample_config) (PyInt 20260109) None None).2
     = Some (GET "https://www.benty-fields.com/daily_arXiv_results?date=20260109")
  /\ List.last (sent (fetch_daily_papers Samples.sample_site Samples.sample_parser
                        Samples.sample_now (PyInt 20260109) 10 Samples.new_client).2)
       (GET "")
     = GET "https://www.benty-fields.com/daily_arXiv_results?date=20260109"
  /\ GET "https://www.benty-fields.com/daily_arXiv_results?date=20260109"
     <> GET "https://www.benty-fields.com/daily_arXiv_results?date=2026-01-09".
Proof.
  split; [reflexivity|]. split; [vm_compute; reflexivity|].
  split; [vm_compute; reflexivity|]. discriminate.
Qed.

End ServerFacts.

(** * Further properties *)

(** ** benty_client.py: the session and the headings *)

Module BentyClientExtra.
Import Http Bs4 BentyClient PyStr PyStrFacts BentyClientFacts.

Lemma split1_two (c : ascii) (s a b : string) :
  split1 c s = [a; b] -> s = a +:+ String c b /\ has_char c a = false.
Proof.
  revert a. induction s as [|x s IH]; intros a; simpl; [done|].
  destruct (Ascii.eqb_spec x c) as [->|Hne].
  - by intros [= <- <-].
  - destruct (split1 c s) as [|h [|h' [|]]] eqn:Hs; try done.
    intros [= <- <-]. destruct (IH h eq_refl) as [-> Hh].
    split; [done|]. simpl. rewrite Hh. by apply Ascii.eqb_neq in Hne as ->.
Qed.

Lemma split1_no_sep (c : ascii) (s : string) :
  has_char c s = false -> split1 c s = [s].
Proof.
  induction s as [|x s IH]; [done|]. simpl. intros [Hx Hs]%orb_false_elim.
  by rewrite Hx, (IH Hs).
Qed.

Lemma lstrip_head (s : string) :
  match lstrip s with
  | EmptyString => True
  | String c _ => isspace c = false
  end.
Proof.
  induction s as [|c s IH]; [done|]. simpl.
  destruct (isspace c) eqn:Hc; [exact IH|]. by rewrite Hc.
Qed.

Lemma rstrip_idem (s : string) : rstrip (rstrip s) = rstrip s.
Proof.
  induction s as [|c s IH]; [done|]. simpl.
  destruct (rstrip s) as [|d r] eqn:Hr.
  - destruct (isspace c) eqn:Hc; [done|]. simpl. by rewrite Hc.
  - simpl in *. by rewrite IH.
Qed.

Lemma rstrip_head (c : ascii) (s : string) :
  isspace c = false -> exists r, rstrip (String c s) = String c r.
Proof.
  intros Hc. simpl. destruct (rstrip s) as [|d r]; [|by eexists].
  rewrite Hc. by eexists.
Qed.

(** [strip] leaves a stripped string as it is. *)
Lemma strip_idem (s : string) : strip (strip s) = strip s.
Proof.
  unfold strip. pose proof (lstrip_head s) as Hhead.
  destruct (lstrip s) as [|c t]; [done|].
  destruct (rstrip_head c t Hhead) as [r Hr]. rewrite Hr.
  simpl lstrip. rewrite Hhead. rewrite <- Hr. apply rstrip_idem.
Qed.

(** X6. The heading of a parsed block is cut at its first dot: what is
    before is the rank, read as an integer, and what is after, without the
    white space around it, is the title, dots included.  The title has no
    white space at either end.  A heading without a dot does not parse. *)
Theorem parse_paper_heading (paper_div : node) :
  (forall p, _parse_paper paper_div = Ok p ->
     exists h4 rank_str rest,
       find "h4" (has_class "paper_row") paper_div = Some h4
       /\ get_text_strip h4 = rank_str +:+ String "." rest
       /\ has_char "." rank_str = false
       /\ int rank_str = Ok (rank p)
       /\ title p = strip rest
       /\ strip (title p) = title p)
  /\ (forall h4, find "h4" (has_class "paper_row") paper_div = Some h4 ->
        has_char "." (get_text_strip h4) = false ->
        _parse_paper paper_div
        = Raise (ValueError "not enough values to unpack (expected 2, got 1)")).
Proof.
  split.
  - intros p Hp.
    destruct (_parse_paper_fields paper_div p Hp)
      as (h4 & rank_str & rest & _ & Hh4 & Hsplit & Hint & Htitle & _).
    apply split1_two in Hsplit as [Htext Hno].
    exists h4, rank_str, rest. rewrite Htitle. by rewrite strip_idem.
  - intros h4 Hh4 Hno. unfold _parse_paper. by rewrite Hh4, (split1_no_sep _ _ Hno).
Qed.

(** An instance on the sample data: a heading is parsed, one without a dot
    is not; a no-break space after the rank is skipped by [int] and
    stripped from the title, and a file separator after the rank makes [int]
    raise. *)
Lemma parse_paper_heading_witness :
  (exists p, _parse_paper Samples.block1 = Ok p /\ strip (title p) = title p)
  /\ is_ok (_parse_paper Samples.block_without_dot) = false
  /\ (exists p, _parse_paper Samples.block_with_nbsp = Ok p
                /\ rank p = 3 /\ title p = "Dark matter halos"
                /\ strip (title p) = title p)
  /\ _parse_paper Samples.block_with_separator
     = Raise (ValueError "invalid literal for int() with base 10: '3\x1c'").
Proof.
  destruct (parse_paper_heading Samples.block1) as [Hparsed _].
  destruct (parse_paper_heading Samples.block_without_dot) as [_ Hnodot].
  destruct (parse_paper_heading Samples.block_with_nbsp) as [Hnbsp _].
  split; [|split; [|split]].
  - assert (Hok : is_ok (_parse_paper Samples.block1) = true) by (vm_compute; reflexivity).
    destruct (_parse_paper Samples.block1) as [p|e] eqn:Hp; [|discriminate Hok].
    exists p. split; [reflexivity|].
    destruct (Hparsed p eq_refl) as (_ & _ & _ & _ & _ & _ & _ & _ & Hstrip).
    exact Hstrip.
  - rewrite (Hnodot (Tag "h4" [("class", "paper_row")]
                      [NavigableString "Dark matter halos"]) eq_refl eq_refl).
    reflexivity.
  - assert (Hok : is_ok (_parse_paper Samples.block_with_nbsp) = true)
      by (vm_compute; reflexivity).
    assert (Hfields : match _parse_paper Samples.block_with_nbsp with
                      | Ok p => Some (rank p, title p)
                      | Raise _ => None
                      end = Some (3, "Dark matter halos")) by (vm_compute; reflexivity).
    destruct (_parse_paper Samples.block_with_nbsp) as [p|e] eqn:Hp; [|discriminate Hok].
    exists p. split; [reflexivity|].
    injection Hfields as Hrank Htitle.
    destruct (Hnbsp p eq_refl) as (_ & _ & _ & _ & _ & _ & _ & _ & Hstrip).
    done.
  - vm_compute. reflexivity.
Defined.

Section Client.
Variable site : list request -> request -> result response.
Variable html_parser : string -> node.
Variable now : datetime.

Lemma login_outcome (c c' : client) (r : result bool) :
  login site html_parser c = (r, c') ->
  email c' = email c /\ password c' = password c
  /\ (is_ok r = true -> logged_in c' = true)
  /\ (is_ok r = false -> logged_in c' = logged_in c).
Proof.
  unfold login, send.
  destruct (site (sent c) (GET login_url)) as [page|e]; [|by intros [= <- <-]].
  destruct (raise_for_status (status_code page) (reason page) (url page)); [|by intros [= <- <-]].
  destruct (find "input" (attr_is "name" "csrf_token") (html_parser (text page)))
    as [input|]; [|by intros [= <- <-]].
  destruct (getitem input "value") as [token|]; [|by intros [= <- <-]].
  cbn [fst snd].
  destruct (site _ (POST _ _)) as [answer|e]; [|by intros [= <- <-]].
  destruct (raise_for_status (status_code answer) (reason answer) (url answer)); [|by intros [= <- <-]].
  destruct (negb (contains "Logout" (text answer))); by intros [= <- <-].
Qed.

(** X1. A login that returns has sent two requests: the login page was
    fetched, and the e-mail, the password and the token found in the
    [csrf_token] field of that page were posted to the same address; the
    answer contained ["Logout"], and the client is then marked as logged
    in. *)
Theorem login_posts_token_of_form (c c' : client) (b : bool) :
  login site html_parser c = (Ok b, c') ->
  b = true /\ logged_in c' = true
  /\ exists page input token answer,
       site (sent c) (GET login_url) = Ok page
       /\ find "input" (attr_is "name" "csrf_token") (html_parser (text page)) = Some input
       /\ getitem input "value" = Ok token
       /\ sent c' = sent c ++ [GET login_url;
                               POST login_url [("email", email c); ("password", password c);
                                               ("csrf_token", token)]]
       /\ site (sent c ++ [GET login_url])
            (POST login_url [("email", email c); ("password", password c);
                             ("csrf_token", token)]) = Ok answer
       /\ contains "Logout" (text answer) = true.
Proof.
  unfold login, send.
  destruct (site (sent c) (GET login_url)) as [page|e] eqn:Hpage; [|done].
  destruct (raise_for_status (status_code page) (reason page) (url page)); [|done].
  destruct (find "input" (attr_is "name" "csrf_token") (html_parser (text page)))
    as [input|] eqn:Hinput; [|done].
  destruct (getitem input "value") as [token|] eqn:Htoken; [|done].
  cbn [fst snd email password sent record_request].
  destruct (site _ (POST _ _)) as [answer|e] eqn:Hanswer; [|done].
  destruct (raise_for_status (status_code answer) (reason answer) (url answer)); [|done].
  destruct (contains "Logout" (text answer)) eqn:Hlogout; [|done].
  intros [= <- <-]. split; [done|]. split; [done|].
  exists page, input, token, answer. simpl.
  by rewrite <- List.app_assoc.
Qed.

(** X2. A login that fails leaves the flag as it was.  When the login page
    has no [csrf_token] field, the failure is the [RuntimeError] of the
    missing token, and the page was the only request: the credentials were
    not sent. *)
Theorem login_failure_keeps_state (c c' : client) (e : exn) :
  login site html_parser c = (Raise e, c') ->
  logged_in c' = logged_in c
  /\ (forall page,
        site (sent c) (GET login_url) = Ok page ->
        raise_for_status (status_code page) (reason page) (url page) = Ok tt ->
        find "input" (attr_is "name" "csrf_token") (html_parser (text page)) = None ->
        e = RuntimeError "Could not find CSRF token on login page"
        /\ sent c' = sent c ++ [GET login_url]).
Proof.
  intros Hlogin. split.
  - by destruct (login_outcome c c' _ Hlogin) as (_ & _ & _ & Hkeep); apply Hkeep.
  - intros page Hpage Hstatus Hinput. revert Hlogin. unfold login, send.
    rewrite Hpage, Hstatus, Hinput. by intros [= <- <-].
Qed.

Lemma ensure_logged_in_flag (c c1 : client) :
  _ensure_logged_in site html_parser c = (Ok tt, c1) -> logged_in c1 = true.
Proof.
  unfold _ensure_logged_in. destruct (logged_in c) eqn:Hflag; simpl.
  - by intros [= <-].
  - destruct (login site html_parser c) as [[b|e] c'] eqn:Hlogin; [|done].
    intros [= <-]. by destruct (login_outcome c c' _ Hlogin) as (_ & _ & Hset & _); apply Hset.
Qed.

Lemma fetch_daily_papers_flag (date : pyval) (num_papers : Z) (c c1 : client)
    (papers : list paper) :
  fetch_daily_papers site html_parser now date num_papers c = (Ok papers, c1) ->
  logged_in c1 = true.
Proof.
  unfold fetch_daily_papers, send.
  destruct (_ensure_logged_in site html_parser c) as [[[]|e] c0] eqn:Hlogin; [|done].
  apply ensure_logged_in_flag in Hlogin.
  destruct (site (sent c0) _) as [resp|e]; [|done].
  destruct (raise_for_status (status_code resp) (reason resp) (url resp)); [|done].
  by intros [= <- <-].
Qed.

(** X3. After a call of [fetch_daily_papers] that returned, the client is
    logged in, and a further call, for any date and limit, sends exactly
    one request, the one for the listing: the session is not logged in
    again. *)
Theorem fetch_logs_in_once (date date' : pyval) (num_papers num_papers' : Z)
    (c c1 : client) (papers : list paper) :
  fetch_daily_papers site html_parser now date num_papers c = (Ok papers, c1) ->
  logged_in c1 = true
  /\ sent (fetch_daily_papers site html_parser now date' num_papers' c1).2
     = sent c1 ++ [GET (listing_url (date_or_today now date'))].
Proof.
  intros Hfetch. apply fetch_daily_papers_flag in Hfetch as Hflag.
  split; [done|]. unfold fetch_daily_papers, _ensure_logged_in, send.
  rewrite Hflag. simpl.
  destruct (site (sent c1) _) as [resp|e]; [|done].
  by destruct (raise_for_status (status_code resp) (reason resp) (url resp)).
Qed.

(** X4. On a logged-in client the listing request is sent whatever comes
    of it, and the client stays logged in.  An answer with a status in
    400..599 is raised as the [HTTPError] of that status, reason and address,
    whatever the page holds; a failure of the transport is raised as it is;
    and a call that returns had an answer with a status outside 400..599. *)
Theorem fetch_raises_status_error (date : pyval) (num_papers : Z) (c c1 : client) :
  _ensure_logged_in site html_parser c = (Ok tt, c1) ->
  let answer := site (sent c1) (GET (listing_url (date_or_today now date))) in
  let run := fetch_daily_papers site html_parser now date num_papers c in
  (forall resp, answer = Ok resp -> 400 <= status_code resp < 600 ->
     run.1 = Raise (HTTPError (status_code resp) (reason resp) (url resp)))
  /\ (forall e, answer = Raise e -> run.1 = Raise e)
  /\ (is_ok run.1 = true ->
        exists resp, answer = Ok resp /\ ~ (400 <= status_code resp < 600))
  /\ logged_in run.2 = true
  /\ sent run.2 = sent c1 ++ [GET (listing_url (date_or_today now date))].
Proof.
  intros Hlogin. cbv zeta. pose proof (ensure_logged_in_flag c c1 Hlogin) as Hflag.
  unfold fetch_daily_papers, send. rewrite Hlogin.
  destruct (site (sent c1) _) as [resp|e]; simpl.
  - unfold raise_for_status.
    destruct (Z.leb_spec 400 (status_code resp)) as [Hlo|Hlo],
             (Z.ltb_spec (status_code resp) 600) as [Hhi|Hhi]; simpl;
      (split; [intros resp' Heq Hst; injection Heq as <-; try reflexivity; lia|]);
      (split; [intros e Heq; discriminate Heq|]);
      (split; [intros Hok; first [discriminate Hok|exists resp; split; [reflexivity|lia]]
              |done]).
  - split; [done|]. split; [by intros e' [= <-]|]. done.
Qed.

(** X5. Whatever the page holds, the records returned are the parses, in
    page order, of blocks among those the limit selects, and these blocks
    are the first ones of the page: with a limit [L >= 0] at most [L]
    records are returned, and never more than the page has blocks.  A page
    without blocks gives the empty list. *)
Theorem fetch_result_within_limit (date : pyval) (num_papers : Z) (c c1 : client)
    (resp : response) :
  _ensure_logged_in site html_parser c = (Ok tt, c1) ->
  site (sent c1) (GET (listing_url (date_or_today now date))) = Ok resp ->
  raise_for_status (status_code resp) (reason resp) (url resp) = Ok tt ->
  let blocks := find_all "div" (has_class "paper") (html_parser (text resp)) in
  exists papers visited,
    (fetch_daily_papers site html_parser now date num_papers c).1 = Ok papers
    /\ visited `prefix_of` blocks
    /\ (0 <= num_papers -> (length visited <= Z.to_nat num_papers)%nat)
    /\ (length papers <= length visited)%nat
    /\ (forall p, p ∈ papers -> exists b, b ∈ visited /\ _parse_paper b = Ok p)
    /\ (blocks = [] -> papers = []).
Proof.
  intros Hlogin Hsite Hstatus blocks.
  rewrite (fetch_daily_papers_served site html_parser now date num_papers c c1 resp
             Hlogin Hsite Hstatus).
  unfold paper_divs. fold blocks.
  exists (omap (fun b => ok_value (_parse_paper b)) (slice_list num_papers blocks)),
         (slice_list num_papers blocks).
  split; [done|]. split.
  { unfold slice_list. destruct (num_papers <? 0); apply prefix_take. }
  split.
  { intros Hn. rewrite slice_list_nonneg by done. rewrite length_take. lia. }
  split.
  { generalize (slice_list num_papers blocks). intros l.
    induction l as [|b l IH]; [done|].
    change (omap (fun b => ok_value (_parse_paper b)) (b :: l))
      with (match ok_value (_parse_paper b) with
            | Some p => p :: omap (fun b => ok_value (_parse_paper b)) l
            | None => omap (fun b => ok_value (_parse_paper b)) l
            end).
    destruct (ok_value (_parse_paper b)); simpl; lia. }
  split.
  { intros p Hp. apply list_elem_of_omap in Hp as (b & Hb & Hok).
    exists b. split; [done|]. destruct (_parse_paper b) as [q|e]; simpl in Hok; congruence. }
  intros Hnil. rewrite Hnil. unfold slice_list.
  destruct (num_papers <? 0); by rewrite take_nil.
Qed.

End Client.

(** An instance on the sample data. *)
Lemma login_posts_token_of_form_witness :
  exists c',
    login Samples.sample_site Samples.sample_parser Samples.new_client = (Ok true, c')
    /\ logged_in c' = true.
Proof.
  eexists.
  assert (H : (login Samples.sample_site Samples.sample_parser Samples.new_client).1
              = Ok true) by (vm_compute; reflexivity).
  apply pair_eta in H. split; [exact H|].
  exact (proj1 (proj2 (login_posts_token_of_form Samples.sample_site Samples.sample_parser
                         _ _ _ H))).
Defined.

(** An instance on the sample data. *)
Lemma login_failure_keeps_state_witness :
  exists c',
    login Samples.tokenless_site Samples.sample_parser Samples.new_client
    = (Raise (RuntimeError "Could not find CSRF token on login page"), c')
    /\ logged_in c' = false
    /\ sent c' = [GET login_url].
Proof.
  eexists.
  assert (H : (login Samples.tokenless_site Samples.sample_parser Samples.new_client).1
              = Raise (RuntimeError "Could not find CSRF token on login page"))
    by (vm_compute; reflexivity).
  apply pair_eta in H. split; [exact H|].
  destruct (login_failure_keeps_state Samples.tokenless_site Samples.sample_parser _ _ _ H)
    as [Hflag Htoken].
  split; [exact Hflag|].
  exact (proj2 (Htoken (Samples.served "https://www.benty-fields.com/login" "") eq_refl eq_refl eq_refl)).
Defined.

(** An instance on the sample data. *)
Lemma fetch_logs_in_once_witness :
  exists papers c1,
    fetch_daily_papers Samples.sample_site Samples.sample_parser Samples.sample_now
      (PyStr "2026-01-09") 10 Samples.new_client = (Ok papers, c1)
    /\ sent (fetch_daily_papers Samples.sample_site Samples.sample_parser
               Samples.sample_now (PyStr "2026-01-10") 5 c1).2
       = sent c1 ++ [GET "https://www.benty-fields.com/daily_arXiv_results?date=2026-01-10"].
Proof.
  assert (Hok : is_ok (fetch_daily_papers Samples.sample_site Samples.sample_parser
                         Samples.sample_now (PyStr "2026-01-09") 10
                         Samples.new_client).1 = true) by (vm_compute; reflexivity).
  destruct (fetch_daily_papers Samples.sample_site Samples.sample_parser
              Samples.sample_now (PyStr "2026-01-09") 10 Samples.new_client)
    as [[papers|e] c1] eqn:Hfetch; [|discriminate Hok].
  exists papers, c1. split; [reflexivity|].
  exact (proj2 (fetch_logs_in_once Samples.sample_site Samples.sample_parser
                  Samples.sample_now _ (PyStr "2026-01-10") _ 5 _ _ _ Hfetch)).
Defined.

(** An instance on the sample data: the site answers 503 with a listing in
    the body. *)
Lemma fetch_raises_status_error_witness :
  (fetch_daily_papers Samples.unavailable_site Samples.sample_parser Samples.sample_now
     (PyStr "2026-01-09") 10 Samples.new_client).1
  = Raise (HTTPError 503 "Service Unavailable"
             "https://www.benty-fields.com/daily_arXiv_results?date=2026-01-09")
  /\ logged_in (fetch_daily_papers Samples.unavailable_site Samples.sample_parser
                  Samples.sample_now (PyStr "2026-01-09") 10 Samples.new_client).2 = true
  /\ last (sent (fetch_daily_papers Samples.unavailable_site Samples.sample_parser
                   Samples.sample_now (PyStr "2026-01-09") 10 Samples.new_client).2)
     = Some (GET "https://www.benty-fields.com/daily_arXiv_results?date=2026-01-09").
Proof.
  assert (Hlogin : (_ensure_logged_in Samples.unavailable_site Samples.sample_parser
                      Samples.new_client).1 = Ok tt) by (vm_compute; reflexivity).
  apply pair_eta in Hlogin.
  destruct (fetch_raises_status_error Samples.unavailable_site Samples.sample_parser
              Samples.sample_now (PyStr "2026-01-09") 10 _ _ Hlogin)
    as (Hstatus & _ & _ & Hflag & Hsent).
  split; [|split; [exact Hflag|by rewrite Hsent, last_snoc]].
  apply (Hstatus {| status_code := 503; reason := "Service Unavailable";
                    url := Samples.listing_of "2026-01-09"; text := "listing" |}).
  - vm_compute. reflexivity.
  - simpl. lia.
Defined.

(** An instance on the sample data. *)
Lemma fetch_result_within_limit_witness :
  exists papers,
    (fetch_daily_papers Samples.sample_site Samples.sample_parser Samples.sample_now
       (PyStr "2026-01-11") 2 Samples.new_client).1 = Ok papers
    /\ (length papers <= 2)%nat.
Proof.
  assert (Hlogin : (_ensure_logged_in Samples.sample_site Samples.sample_parser
                      Samples.new_client).1 = Ok tt) by (vm_compute; reflexivity).
  apply pair_eta in Hlogin.
  destruct (fetch_result_within_limit Samples.sample_site Samples.sample_parser
              Samples.sample_now (PyStr "2026-01-11") 2 Samples.new_client _
              (Samples.served (Samples.listing_of "2026-01-11") "partial") Hlogin)
    as (papers & visited & Hpapers & _ & Hlimit & Hlen & _).
  - vm_compute. reflexivity.
  - vm_compute. reflexivity.
  - exists papers. split; [exact Hpapers|].
    assert (Hn : 0 <= 2) by lia. specialize (Hlimit Hn).
    change (Z.to_nat 2) with 2%nat in Hlimit. lia.
Defined.

End BentyClientExtra.

(** ** pdf_processor.py: directories, downloads and conversions *)

Module PdfProcessorExtra.
Import Http PyStr PyStrFacts PathLib PathFacts FsFacts PdfProcessor PdfProcessorFacts.

(** What [mkdir] leaves: the entries that were there, and directories at
    the path and above it. *)
Lemma mkdir_go_spec (abs : bool) (todo : list string) :
  forall (made : list string) (fs fs' : gmap path entry),
    mkdir_go abs made todo fs = Ok fs' ->
    fs ⊆ fs'
    /\ (forall p e, fs' !! p = Some e ->
          fs !! p = Some e
          \/ (e = Dir /\ exists k, (0 < k <= length todo)%nat
                                   /\ p = {| absolute := abs;
                                             parts := made ++ take k todo |}))
    /\ (forall k, (0 < k <= length todo)%nat ->
          fs' !! {| absolute := abs; parts := made ++ take k todo |} = Some Dir).
Proof.
  induction todo as [|d todo IH]; intros made fs fs'.
  - simpl. intros [= <-]. split; [done|]. split; [by left|]. intros k Hk. lia.
  - cbn [mkdir_go].
    set (here := {| absolute := abs; parts := made ++ [d] |}).
    assert (Hshift : forall k, (made ++ [d]) ++ take k todo
                               = made ++ take (S k) (d :: todo)).
    { intros k. by rewrite <- List.app_assoc. }
    destruct (fs !! here) as [[c|]|] eqn:Hhere.
    + by destruct todo.
    + intros H. destruct (IH _ _ _ H) as (Hsub & Honly & Hdirs).
      split; [done|]. split.
      * intros p e Hp. destruct (Honly p e Hp) as [Hold|(-> & k & Hk & ->)];
          [by left|]. right. split; [done|]. exists (S k). rewrite Hshift.
        split; [simpl; lia|done].
      * intros [|k] Hk; [lia|]. destruct k as [|k].
        -- change (take 1 (d :: todo)) with (d :: take 0 todo). rewrite take_0.
           by apply (lookup_weaken fs).
        -- rewrite <- Hshift. apply Hdirs. simpl in Hk. lia.
    + intros H. destruct (IH _ _ _ H) as (Hsub & Honly & Hdirs).
      split; [etrans; [by apply insert_subseteq|done]|]. split.
      * intros p e Hp. destruct (Honly p e Hp) as [Hold|(-> & k & Hk & ->)].
        -- destruct (decide (here = p)) as [<-|Hne].
           ++ rewrite lookup_insert_eq in Hold. injection Hold as <-.
              right. split; [done|]. exists 1%nat. split; [simpl; lia|].
              change (take 1 (d :: todo)) with (d :: take 0 todo). by rewrite take_0.
           ++ rewrite lookup_insert_ne in Hold by done. by left.
        -- right. split; [done|]. exists (S k). rewrite Hshift.
           split; [simpl; lia|done].
      * intros [|k] Hk; [lia|]. destruct k as [|k].
        -- change (take 1 (d :: todo)) with (d :: take 0 todo). rewrite take_0.
           apply (lookup_weaken (<[here := Dir]> fs)); [|done].
           apply lookup_insert_eq.
        -- rewrite <- Hshift. apply Hdirs. simpl in Hk. lia.
Qed.

(** Making directories that are there changes nothing. *)
Lemma mkdir_go_existing (abs : bool) (todo : list string) :
  forall (made : list string) (fs : gmap path entry),
    (forall k, (0 < k <= length todo)%nat ->
       fs !! {| absolute := abs; parts := made ++ take k todo |} = Some Dir) ->
    mkdir_go abs made todo fs = Ok fs.
Proof.
  induction todo as [|d todo IH]; intros made fs Hdirs; [done|].
  cbn [mkdir_go]. pose proof (Hdirs 1%nat) as Hhere.
  change (take 1 (d :: todo)) with (d :: take 0 todo) in Hhere. rewrite take_0 in Hhere.
  rewrite Hhere by (simpl; lia). apply IH. intros k Hk.
  rewrite <- List.app_assoc. apply (Hdirs (S k)). simpl. lia.
Qed.

Lemma mkdir_parents_dir (d : path) (fs fs' : gmap path entry) :
  mkdir_parents d fs = Ok fs' -> lookup_entry fs' d = Some Dir.
Proof.
  unfold mkdir_parents, lookup_entry. intros H.
  destruct (mkdir_go_spec _ _ _ _ _ H) as (_ & _ & Hdirs).
  destruct (parts d) as [|x l] eqn:Hparts; [done|].
  specialize (Hdirs (length (x :: l))). rewrite take_ge in Hdirs by done.
  simpl in Hdirs. destruct d as [a ps]. simpl in *. subst ps. apply Hdirs. lia.
Qed.

Lemma rfind_dot_app (s t : string) :
  rfind_dot (s +:+ t)
  = match rfind_dot t with
    | Some j => Some (String.length s + j)%nat
    | None => rfind_dot s
    end.
Proof.
  induction s as [|c s IH]; [rewrite app_empty_l; by destruct (rfind_dot t)|].
  rewrite app_cons. simpl. rewrite IH. by destruct (rfind_dot t).
Qed.

Lemma rfind_dot_bound (s : string) (i : nat) :
  rfind_dot s = Some i -> (i < String.length s)%nat.
Proof.
  revert i. induction s as [|c s IH]; intros i; simpl; [done|].
  destruct (rfind_dot s) as [j|].
  - intros [= <-]. specialize (IH j eq_refl). lia.
  - destruct (Ascii.eqb c "."); [|done]. intros [= <-]. lia.
Qed.

Lemma slice_to_app (s t : string) : slice_to (String.length s) (s +:+ t) = s.
Proof.
  unfold slice_to. induction s as [|c s IH]; [rewrite app_empty_l; by destruct t|].
  rewrite app_cons. simpl. by rewrite IH.
Qed.

(** A name is its stem followed by its suffix. *)
Lemma stem_suffix (nm : string) :
  nm = substring 0 (String.length nm - String.length (suffix_of nm)) nm +:+ suffix_of nm.
Proof.
  unfold suffix_of. destruct (rfind_dot nm) as [i|] eqn:Hdot.
  - destruct ((0 <? i)%nat && (i <? String.length nm - 1)%nat) eqn:Hin.
    + apply rfind_dot_bound in Hdot.
      assert (Htail : substring i (String.length nm - i) nm = drop_chars i nm).
      { rewrite substring_drop. apply slice_to_all. rewrite length_drop_chars. lia. }
      rewrite Htail, length_drop_chars.
      replace (String.length nm - (String.length nm - i))%nat with i by lia.
      apply (slice_to_drop i nm).
    + simpl. rewrite Nat.sub_0_r, app_empty_r. symmetry.
      apply (slice_to_all (String.length nm) nm). lia.
  - simpl. rewrite Nat.sub_0_r, app_empty_r. symmetry.
    apply (slice_to_all (String.length nm) nm). lia.
Qed.

Lemma suffix_of_pdf (id : string) :
  id <> "" -> suffix_of (id +:+ ".pdf") = ".pdf".
Proof.
  intros Hid. unfold suffix_of. rewrite rfind_dot_app. simpl rfind_dot.
  rewrite length_app. simpl String.length.
  assert (Hlen : (0 < String.length id)%nat) by (destruct id; [done|simpl; lia]).
  rewrite Nat.add_0_r.
  destruct (Nat.ltb_spec 0 (String.length id)); [|lia].
  destruct (Nat.ltb_spec (String.length id) (String.length id + 4 - 1)); [|lia].
  simpl andb. cbv iota.
  replace (String.length id + 4 - String.length id)%nat with (String.length ".pdf")
    by (simpl; lia).
  apply substring_app_r.
Qed.

Lemma is_component_long (nm : string) :
  (2 <= String.length nm)%nat -> is_component nm = true.
Proof.
  destruct nm as [|a [|b nm]]; simpl; try lia. intros _.
  unfold is_component. simpl. by destruct (Ascii.eqb a ".").
Qed.

Lemma name_nonempty_parts (p : path) :
  name p <> "" -> parts p = removelast (parts p) ++ [name p].
Proof.
  unfold name. intros Hname. apply app_removelast_last.
  intros Hnil. by rewrite Hnil in Hname.
Qed.

(** X10. The Markdown file of a cached PDF is its neighbour in the cache:
    for an identifier that is not empty and has no slash, the Markdown path
    derived from [tmp_dir / "{id}.pdf"] is [tmp_dir / "{id}.md"], also when
    the identifier has dots of its own.  (For the empty identifier the PDF
    is [".pdf"], a name without suffix, and the Markdown path is
    [".pdf.md"].) *)
Theorem markdown_path_of_cached_pdf (tmp_dir : path) (id : string) :
  has_char "/" id = false ->
  (id <> "" ->
     get_markdown_path (pdf_cache_path tmp_dir id) = Ok (joinpath tmp_dir (id +:+ ".md")))
  /\ get_markdown_path (pdf_cache_path tmp_dir "")
     = Ok (joinpath tmp_dir ".pdf.md").
Proof.
  intros Hslash. split.
  - intros Hid. unfold get_markdown_path, pdf_cache_path, with_suffix.
    assert (Hpdf : has_char "/" (id +:+ ".pdf") = false)
      by (by rewrite has_char_app, Hslash).
    assert (Hmd : has_char "/" (id +:+ ".md") = false)
      by (by rewrite has_char_app, Hslash).
    destruct (parent_joinpath_name tmp_dir _ Hpdf (is_component_pdf id)) as [_ Hname].
    rewrite Hname.
    destruct (String.eqb_spec (id +:+ ".pdf") "") as [Hempty|_].
    { exfalso. apply (f_equal String.length) in Hempty.
      rewrite length_app in Hempty. simpl in Hempty. lia. }
    rewrite (suffix_of_pdf id Hid). rewrite length_app.
    replace (String.length id + String.length ".pdf" - String.length ".pdf")%nat
      with (String.length id) by lia.
    rewrite (slice_to_app id ".pdf" : substring 0 _ _ = id).
    rewrite (joinpath_name tmp_dir (id +:+ ".pdf") Hpdf (is_component_pdf id)).
    rewrite (joinpath_name tmp_dir (id +:+ ".md") Hmd).
    + simpl. by rewrite removelast_last.
    + apply is_component_long. rewrite length_app. simpl. lia.
  - unfold get_markdown_path, pdf_cache_path, with_suffix.
    rewrite app_empty_l.
    rewrite (joinpath_name tmp_dir ".pdf" eq_refl eq_refl).
    rewrite (joinpath_name tmp_dir ".pdf.md" eq_refl eq_refl).
    unfold name. simpl parts. rewrite last_last, removelast_last. reflexivity.
Qed.

(** An instance on the sample data. *)
Lemma markdown_path_of_cached_pdf_witness :
  get_markdown_path (pdf_cache_path Samples.cache_root "2601.04344")
  = Ok (joinpath Samples.cache_root "2601.04344.md").
Proof.
  refine (proj1 (markdown_path_of_cached_pdf Samples.cache_root "2601.04344" eq_refl) _).
  discriminate.
Defined.

(** X11. The Markdown path of a PDF path is in the same directory and has
    the name of the PDF with its suffix (what follows the last dot, unless
    that dot is first or last) replaced by [".md"]; a name without suffix
    gets [".md"] appended.  The derivation fails exactly for a path without
    a name, and a path whose suffix is [".md"] is its own Markdown path. *)
Theorem get_markdown_path_same_directory (pdf_path : path) :
  (forall md, get_markdown_path pdf_path = Ok md ->
     parent md = parent pdf_path
     /\ exists stem, name md = stem +:+ ".md"
                     /\ name pdf_path = stem +:+ suffix_of (name pdf_path))
  /\ (is_ok (get_markdown_path pdf_path) = false <-> name pdf_path = "")
  /\ (suffix_of (name pdf_path) = ".md" -> get_markdown_path pdf_path = Ok pdf_path).
Proof.
  unfold get_markdown_path, with_suffix. cbv zeta.
  destruct (String.eqb_spec (name pdf_path) "") as [Hempty|Hname].
  - split; [intros md Hmd; discriminate Hmd|]. split; [split; [intros _; exact Hempty|reflexivity]|].
    rewrite Hempty. intros Hsuffix. discriminate Hsuffix.
  - split; [|split; [split; [done|by intros ?]|]].
    + intros md [= <-]. split.
      * unfold parent. simpl. by rewrite removelast_last.
      * eexists. unfold name at 1. simpl. rewrite last_last.
        split; [reflexivity|]. apply stem_suffix.
    + intros Hsuffix. pose proof (stem_suffix (name pdf_path)) as Hstem.
      rewrite Hsuffix in Hstem |- *. rewrite <- Hstem.
      rewrite <- (name_nonempty_parts _ Hname). by destruct pdf_path.
Qed.

(** An instance on the sample data. *)
Lemma get_markdown_path_same_directory_witness :
  (exists md, get_markdown_path Samples.sample_pdf_path = Ok md
              /\ parent md = Samples.cache_root)
  /\ get_markdown_path Samples.sample_md_path = Ok Samples.sample_md_path.
Proof.
  split.
  - destruct (get_markdown_path_same_directory Samples.sample_pdf_path) as (Hdir & _ & _).
    assert (Hok : is_ok (get_markdown_path Samples.sample_pdf_path) = true)
      by (vm_compute; reflexivity).
    destruct (get_markdown_path Samples.sample_pdf_path) as [md|e]; [|discriminate Hok].
    exists md. split; [reflexivity|].
    rewrite (proj1 (Hdir md eq_refl)). vm_compute. reflexivity.
  - destruct (get_markdown_path_same_directory Samples.sample_md_path) as (_ & _ & Hown).
    apply Hown. vm_compute. reflexivity.
Defined.

Section Processor.
Variable PYMUPDF_AVAILABLE : bool.
Variable PDFPLUMBER_AVAILABLE : bool.
Variable origin : list string -> string -> result stream.
Variable tmp_dir : path.

(** X7. A processor that was constructed has its directory: after
    [__init__] returned, [tmp_dir] is a directory, every entry that was
    there is unchanged, no call left the process, one of the two PDF
    libraries is available, and constructing another processor on the same
    directory changes nothing.  With neither library the constructor
    raises, after it has made the directory. *)
Theorem init_makes_cache_directory (w : world) :
  (forall w', init PYMUPDF_AVAILABLE PDFPLUMBER_AVAILABLE tmp_dir w = (Ok tt, w') ->
     lookup_entry (files w') tmp_dir = Some Dir
     /\ files w ⊆ files w'
     /\ calls w' = calls w
     /\ (PYMUPDF_AVAILABLE = true \/ PDFPLUMBER_AVAILABLE = true)
     /\ init PYMUPDF_AVAILABLE PDFPLUMBER_AVAILABLE tmp_dir w' = (Ok tt, w'))
  /\ (PYMUPDF_AVAILABLE = false -> PDFPLUMBER_AVAILABLE = false ->
      forall fs, mkdir_parents tmp_dir (files w) = Ok fs ->
        lookup_entry fs tmp_dir = Some Dir
        /\ exists msg,
             init PYMUPDF_AVAILABLE PDFPLUMBER_AVAILABLE tmp_dir w
             = (Raise (RuntimeError msg), with_files fs w)).
Proof.
  unfold init. split.
  - intros w'. destruct (mkdir_parents tmp_dir (files w)) as [fs|e] eqn:Hmk; [|done].
    destruct (negb PYMUPDF_AVAILABLE && negb PDFPLUMBER_AVAILABLE) eqn:Hlibs; [done|].
    intros [= <-]. simpl.
    split; [by apply (mkdir_parents_dir tmp_dir (files w))|].
    unfold mkdir_parents in Hmk.
    destruct (mkdir_go_spec _ _ _ _ _ Hmk) as (Hsub & _ & Hdirs).
    split; [done|]. split; [done|].
    split; [destruct PYMUPDF_AVAILABLE, PDFPLUMBER_AVAILABLE; auto; done|].
    unfold mkdir_parents. by rewrite (mkdir_go_existing (absolute tmp_dir) (parts tmp_dir) [] fs Hdirs).
  - intros -> -> fs Hmk. rewrite Hmk. simpl.
    split; [by apply (mkdir_parents_dir tmp_dir (files w))|]. by eexists.
Qed.

(** X8. A download that returns after a cache miss has made one request,
    the origin answered with a status outside 400..599 and the transfer did
    not break; the file at the returned path holds the chunks of the body,
    concatenated; and the directory of the file was there before. *)
Theorem download_pdf_saves_body (pdf_url : string) (save_path : option path)
    (w w' : world) (p : path) :
  download_pdf origin tmp_dir pdf_url save_path w = (Ok p, w') ->
  path_exists (files w) (destination tmp_dir pdf_url save_path) = false ->
  exists r,
    origin (downloads w) pdf_url = Ok r
    /\ ~ (400 <= stream_status r < 600)
    /\ broken r = None
    /\ calls w' = calls w ++ [RequestsGet pdf_url]
    /\ files w' !! p = Some (File (String.concat "" (chunks r)))
    /\ lookup_entry (files w) (parent p) = Some Dir.
Proof.
  intros H Hmiss.
  destruct (download_pdf_miss_ok origin tmp_dir _ _ _ _ _ Hmiss H)
    as (-> & Hcalls & r & Hr & Hfile).
  exists r. split; [done|].
  assert (Hrest : ~ (400 <= stream_status r < 600) /\ broken r = None
                  /\ lookup_entry (files w)
                       (parent (destination tmp_dir pdf_url save_path)) = Some Dir).
  { revert H. unfold download_pdf. rewrite Hmiss, Hr. unfold raise_for_status.
    destruct (Z.leb_spec 400 (stream_status r)) as [Hlo|Hlo],
             (Z.ltb_spec (stream_status r) 600) as [Hhi|Hhi]; simpl; try done;
      (destruct (open_w (destination tmp_dir pdf_url save_path) (files w))
         as [fs|e] eqn:Hopen; [|done]);
      (destruct (broken r) eqn:Hbroken; [done|]); intros _;
      (split; [lia|]); (split; [done|]);
      unfold open_w in Hopen;
      (destruct (lookup_entry (files w) (destination tmp_dir pdf_url save_path))
         as [[c|]|]; try done);
      by destruct (lookup_entry (files w)
                     (parent (destination tmp_dir pdf_url save_path))) as [[c'|]|]. }
  destruct Hrest as (Hstatus & Hbroken & Hparent).
  by repeat split.
Qed.

(** X9. Whatever a call of [download_pdf] does, it makes at most one
    request, for the URL it was given, and no file other than the one at
    its destination is created, changed or removed.  When the destination
    exists the call returns it and does nothing at all. *)
Theorem download_pdf_touches_only_destination (pdf_url : string)
    (save_path : option path) (w : world) :
  let p := destination tmp_dir pdf_url save_path in
  let r := (download_pdf origin tmp_dir pdf_url save_path w).1 in
  let w' := (download_pdf origin tmp_dir pdf_url save_path w).2 in
  (forall q, q <> p -> files w' !! q = files w !! q)
  /\ (calls w' = calls w \/ calls w' = calls w ++ [RequestsGet pdf_url])
  /\ (path_exists (files w) p = true -> r = Ok p /\ w' = w)
  /\ (path_exists (files w) p = false -> calls w' = calls w ++ [RequestsGet pdf_url]).
Proof.
  cbv zeta. unfold download_pdf.
  destruct (path_exists (files w) (destination tmp_dir pdf_url save_path)) eqn:Hex;
    [simpl; repeat split; intros; auto; discriminate|].
  destruct (origin (downloads w) pdf_url) as [r|e];
    [|simpl; repeat split; intros; auto; discriminate].
  destruct (raise_for_status (stream_status r) (stream_reason r) (stream_url r));
    [|simpl; repeat split; intros; auto; discriminate].
  destruct (open_w (destination tmp_dir pdf_url save_path)
              (files (log (RequestsGet pdf_url) w))) as [fs|e] eqn:Hopen;
    [|simpl; repeat split; intros; auto; discriminate].
  apply open_w_ok in Hopen as [-> _].
  assert (Hframe : forall q, q <> destination tmp_dir pdf_url save_path ->
            write_chunks (destination tmp_dir pdf_url save_path) (chunks r)
              (<[destination tmp_dir pdf_url save_path := File ""]>
                 (files (log (RequestsGet pdf_url) w))) !! q = files w !! q).
  { intros q Hq. rewrite write_chunks_lookup_ne by done.
    by rewrite lookup_insert_ne. }
  destruct (broken r); simpl; repeat split; intros; auto; discriminate.
Qed.

End Processor.

Lemma parent_ne (p : path) : parts p <> [] -> parent p <> p.
Proof.
  intros Hparts Heq. apply (f_equal parts) in Heq. simpl in Heq.
  pose proof (app_removelast_last "" Hparts) as Hlast.
  rewrite Heq in Hlast. apply (f_equal length) in Hlast.
  rewrite List.length_app in Hlast. simpl in Hlast. lia.
Qed.

(** Making the directory of a file does not make the file. *)
Lemma mkdir_parents_parent_keeps (p : path) (fs fs' : gmap path entry) :
  mkdir_parents (parent p) fs = Ok fs' -> fs !! p = None -> parts p <> [] ->
  fs' !! p = None.
Proof.
  unfold mkdir_parents. intros Hmk Hnone Hparts.
  destruct (mkdir_go_spec _ _ _ _ _ Hmk) as (_ & Honly & _).
  destruct (fs' !! p) as [e|] eqn:Hp; [|done].
  destruct (Honly p e Hp) as [Hold|(_ & k & Hk & Heq)]; [congruence|].
  exfalso. apply (f_equal parts) in Heq. simpl in Heq.
  pose proof (app_removelast_last "" Hparts) as Hlast.
  apply (f_equal length) in Heq. rewrite length_take in Heq.
  apply (f_equal length) in Hlast. rewrite List.length_app in Hlast. simpl in Hlast. lia.
Qed.

Section Conversion.
Variable PYMUPDF4LLM_AVAILABLE : bool.
Variable to_markdown : entry -> outcome string.

(** X12. A call of [convert_and_save_markdown] that returns a path that was
    not there before has converted the PDF once, and the file at that path
    holds the Markdown that the library returned for the PDF; reading the
    file as text gives that Markdown with its line ends read as LF; the
    directory of the file exists, and every entry that was there before is
    unchanged. *)
Theorem convert_and_save_markdown_writes_conversion (pdf_path : path)
    (markdown_path : option path) (md : path) (w w1 : world) :
  convert_and_save_markdown PYMUPDF4LLM_AVAILABLE to_markdown pdf_path markdown_path w
  = (Ok md, w1) ->
  path_exists (files w) md = false ->
  PYMUPDF4LLM_AVAILABLE = true
  /\ exists e markdown,
       lookup_entry (files w) pdf_path = Some e
       /\ to_markdown e = Done markdown
       /\ files w1 !! md = Some (File markdown)
       /\ GenerateSummary.read_text md (files w1) = Ok (universal_newlines markdown)
       /\ lookup_entry (files w1) (parent md) = Some Dir
       /\ files w ⊆ files w1
       /\ calls w1 = calls w ++ [ToMarkdown pdf_path].
Proof.
  unfold convert_and_save_markdown.
  destruct (match markdown_path with
            | Some p => Ok p
            | None => get_markdown_path pdf_path
            end) as [md'|e0]; [|done].
  destruct (path_exists (files w) md') eqn:Hex.
  { intros [= <- <-] Hmiss. congruence. }
  unfold convert_to_markdown.
  destruct (lookup_entry (files w) pdf_path) as [e|]; [|done].
  destruct PYMUPDF4LLM_AVAILABLE; simpl; [|done].
  destruct (to_markdown e) as [markdown|why] eqn:Hto; [|done].
  cbn [files log].
  destruct (mkdir_parents (parent md') (files w)) as [fs1|e1] eqn:Hmk; [|done].
  destruct (open_w md' fs1) as [fs2|e2] eqn:Hopen; [|done].
  intros [= <- <-] _. split; [reflexivity|]. exists e, markdown.
  split; [reflexivity|]. split; [exact Hto|].
  apply open_w_ok in Hopen as [-> Hparts]. simpl.
  destruct (path_exists_false _ _ Hex) as [Hnone _].
  assert (Hfile : write md' markdown (<[md' := File ""]> fs1) !! md'
                  = Some (File markdown)).
  { rewrite (write_lookup md' markdown ""); [done|]. apply lookup_insert_eq. }
  split; [done|]. split.
  { unfold GenerateSummary.read_text, lookup_entry.
    destruct (parts md'); [done|]. by rewrite Hfile. }
  split.
  { pose proof (mkdir_parents_dir _ _ _ Hmk) as Hdir.
    unfold lookup_entry in *. destruct (parts (parent md')) eqn:Hpp; [done|].
    rewrite write_lookup_ne by (intros Heq; by apply (parent_ne md' Hparts)).
    rewrite lookup_insert_ne by (intros Heq; by apply (parent_ne md' Hparts)).
    done. }
  split; [|done].
  apply map_subseteq_spec. intros q v Hq.
  assert (Hne : md' <> q) by (intros <-; congruence).
  rewrite write_lookup_ne, lookup_insert_ne by done.
  unfold mkdir_parents in Hmk.
  destruct (mkdir_go_spec _ _ _ _ _ Hmk) as (Hsub & _ & _).
  by apply (lookup_weaken (files w)).
Qed.

(** X13. The conversion comes before anything is written.  When the
    Markdown file is not there and the PDF is missing, the library is not
    available or the library fails, [convert_and_save_markdown] raises the
    exception of [convert_to_markdown] and leaves the file system as it was:
    no directory is made and no file is created.  The library is called only
    in the last case.  A call that raises did not find the Markdown file. *)
Theorem convert_and_save_markdown_failure_writes_nothing (pdf_path : path)
    (markdown_path : option path) (md : path) (w : world) :
  match markdown_path with
  | Some p => Ok p
  | None => get_markdown_path pdf_path
  end = Ok md ->
  let run := convert_and_save_markdown PYMUPDF4LLM_AVAILABLE to_markdown pdf_path
               markdown_path w in
  (is_ok run.1 = false -> path_exists (files w) md = false)
  /\ (path_exists (files w) md = false ->
      (lookup_entry (files w) pdf_path = None ->
         run = (Raise (FileNotFoundError ("PDF file not found: " +:+ to_string pdf_path)),
                w))
      /\ (forall e, lookup_entry (files w) pdf_path = Some e ->
            (PYMUPDF4LLM_AVAILABLE = false ->
               exists msg, run = (Raise (RuntimeError msg), w))
            /\ (forall why, PYMUPDF4LLM_AVAILABLE = true -> to_markdown e = Failed why ->
                  run = (Raise (RuntimeError
                                  ("PDF to Markdown conversion failed: " +:+ why)),
                         log (ToMarkdown pdf_path) w)))).
Proof.
  intros Hmd. cbn zeta. unfold convert_and_save_markdown. rewrite Hmd.
  destruct (path_exists (files w) md) eqn:Hex; [by split|].
  split; [done|]. intros _. unfold convert_to_markdown. split.
  - by intros ->.
  - intros e ->. split.
    + intros ->. by eexists.
    + intros why -> Hwhy. cbn [negb]. by rewrite Hwhy.
Qed.

End Conversion.

Section Extraction.
Variable PYMUPDF_AVAILABLE : bool.
Variable PDFPLUMBER_AVAILABLE : bool.
Variable fitz_open : entry -> outcome fitz_doc.
Variable pdfplumber_open : entry -> outcome (list (outcome (option string))).

Lemma pdfplumber_loop_prefix (pages : list (outcome (option string))) (text y : string) :
  pdfplumber_loop pages "" = Done y -> pdfplumber_loop pages text = Done (text +:+ y).
Proof.
  revert text y. induction pages as [|[[page_text|]|why] pages IH]; intros text y; simpl.
  - intros [= <-]. by rewrite app_empty_r.
  - destruct (String.eqb page_text ""); [apply IH|].
    rewrite app_empty_l. intros Hy.
    destruct (pdfplumber_loop pages "") as [z|why] eqn:Hz.
    + rewrite (IH _ z eq_refl) in Hy. injection Hy as <-.
      rewrite (IH _ z eq_refl). f_equal. by rewrite !app_assoc.
    + pose proof (PdfProcessorFacts.pdfplumber_loop_done pages ""
                    (page_text +:+ String "010" "")) as Hdone.
      rewrite Hz, Hy in Hdone. done.
  - apply IH.
  - done.
Qed.

(** X14. The text of [extract_text].  When PyMuPDF reads every page, the
    result is the texts of the pages, concatenated.  When PyMuPDF fails on a
    page after it has read others and pdfplumber then succeeds, the result
    is the text PyMuPDF had read before it failed, followed by the whole
    text that pdfplumber extracts: the pages read twice appear twice. *)
Theorem extract_text_accumulates (pdf_path : path) (w : world) (e : entry)
    (doc : fitz_doc) (texts : list string) :
  lookup_entry (files w) pdf_path = Some e ->
  PYMUPDF_AVAILABLE = true ->
  fitz_open e = Done doc ->
  let r := (extract_text PYMUPDF_AVAILABLE PDFPLUMBER_AVAILABLE fitz_open pdfplumber_open
              pdf_path w).1 in
  (fitz_pages doc = Done <$> texts -> fitz_close doc = Done tt ->
     r = Ok (String.concat "" texts))
  /\ (forall why rest y,
        fitz_pages doc = (Done <$> texts) ++ Failed why :: rest ->
        PDFPLUMBER_AVAILABLE = true ->
        pdfplumber_extract pdfplumber_open e "" = Done y ->
        r = Ok (String.concat "" texts +:+ y)).
Proof.
  intros Hlook -> Hopen. cbv zeta. unfold extract_text, fitz_extract.
  rewrite Hlook, Hopen. split.
  - intros Hpages Hclose. by rewrite Hpages, fitz_loop_done, Hclose, app_empty_l.
  - intros why rest y Hpages -> Hy. rewrite Hpages, fitz_loop_failed, app_empty_l.
    unfold extract_fallback, pdfplumber_extract in *.
    destruct (pdfplumber_open e) as [pages|]; [|done].
    by rewrite (pdfplumber_loop_prefix pages _ y Hy).
Qed.

End Extraction.

(** An instance on the sample data. *)
Lemma init_makes_cache_directory_witness :
  exists w',
    init true false Samples.cache_root Samples.bare_world = (Ok tt, w')
    /\ lookup_entry (files w') Samples.cache_root = Some Dir.
Proof.
  eexists.
  assert (H : (init true false Samples.cache_root Samples.bare_world).1 = Ok tt)
    by (vm_compute; reflexivity).
  apply pair_eta in H. split; [exact H|].
  exact (proj1 (proj1 (init_makes_cache_directory true false Samples.cache_root
                         Samples.bare_world) _ H)).
Defined.

(** An instance on the sample data. *)
Lemma download_pdf_saves_body_witness :
  exists w',
    download_pdf Samples.good_origin Samples.cache_root
      "https://arxiv.org/pdf/2601.04344v1" None Samples.empty_cache
    = (Ok (joinpath Samples.cache_root "2601.04344v1.pdf"), w')
    /\ files w' !! joinpath Samples.cache_root "2601.04344v1.pdf"
       = Some (File "%PDF-1.7").
Proof.
  eexists.
  assert (H : (download_pdf Samples.good_origin Samples.cache_root
                 "https://arxiv.org/pdf/2601.04344v1" None Samples.empty_cache).1
              = Ok (joinpath Samples.cache_root "2601.04344v1.pdf"))
    by (vm_compute; reflexivity).
  apply pair_eta in H. split; [exact H|].
  assert (Hmiss : path_exists (files Samples.empty_cache)
                    (destination Samples.cache_root
                       "https://arxiv.org/pdf/2601.04344v1" None) = false)
    by (vm_compute; reflexivity).
  destruct (download_pdf_saves_body Samples.good_origin Samples.cache_root _ _ _ _ _
              H Hmiss) as (r & Hr & _ & _ & _ & Hfile & _).
  injection Hr as <-. exact Hfile.
Defined.

(** An instance on the sample data. *)
Lemma download_pdf_touches_only_destination_witness :
  files (download_pdf Samples.broken_origin Samples.cache_root
           "https://arxiv.org/pdf/2601.04344v1" None Samples.empty_cache).2
    !! Samples.cache_root
  = Some Dir.
Proof.
  destruct (download_pdf_touches_only_destination Samples.broken_origin
              Samples.cache_root "https://arxiv.org/pdf/2601.04344v1" None
              Samples.empty_cache) as (Hframe & _).
  rewrite (Hframe Samples.cache_root).
  - vm_compute. reflexivity.
  - vm_compute. discriminate.
Defined.

(** An instance on the sample data. *)
Lemma convert_and_save_markdown_writes_conversion_witness :
  exists w1,
    convert_and_save_markdown true Samples.crlf_to_markdown Samples.sample_pdf_path None
      Samples.cached_pdf = (Ok Samples.sample_md_path, w1)
    /\ files w1 !! Samples.sample_md_path
       = Some (File ("# A sample paper" +:+ String "013" (String "010" "Text.")))
    /\ GenerateSummary.read_text Samples.sample_md_path (files w1)
       = Ok ("# A sample paper" +:+ String "010" "Text.").
Proof.
  eexists.
  assert (H : (convert_and_save_markdown true Samples.crlf_to_markdown
                 Samples.sample_pdf_path None Samples.cached_pdf).1
              = Ok Samples.sample_md_path) by (vm_compute; reflexivity).
  apply pair_eta in H. split; [exact H|].
  assert (Hmiss : path_exists (files Samples.cached_pdf) Samples.sample_md_path = false)
    by (vm_compute; reflexivity).
  assert (Hpdf : lookup_entry (files Samples.cached_pdf) Samples.sample_pdf_path
                 = Some (File "%PDF-1.7")) by (vm_compute; reflexivity).
  destruct (convert_and_save_markdown_writes_conversion true Samples.crlf_to_markdown
              _ _ _ _ _ H Hmiss) as (_ & e & markdown & He & Hto & Hfile & Hread & _).
  rewrite Hpdf in He. injection He as <-. injection Hto as <-.
  split; [exact Hfile|exact Hread].
Defined.

(** An instance on the sample data. *)
Lemma convert_and_save_markdown_failure_writes_nothing_witness :
  convert_and_save_markdown true Samples.failing_to_markdown Samples.sample_pdf_path
    None Samples.cached_pdf
  = (Raise (RuntimeError "PDF to Markdown conversion failed: cannot open broken document"),
     log (ToMarkdown Samples.sample_pdf_path) Samples.cached_pdf).
Proof.
  assert (Hmd : get_markdown_path Samples.sample_pdf_path = Ok Samples.sample_md_path)
    by (vm_compute; reflexivity).
  assert (Hmiss : path_exists (files Samples.cached_pdf) Samples.sample_md_path = false)
    by (vm_compute; reflexivity).
  assert (Hpdf : lookup_entry (files Samples.cached_pdf) Samples.sample_pdf_path
                 = Some (File "%PDF-1.7")) by (vm_compute; reflexivity).
  destruct (convert_and_save_markdown_failure_writes_nothing true
              Samples.failing_to_markdown Samples.sample_pdf_path None
              Samples.sample_md_path Samples.cached_pdf Hmd) as [_ Hfail].
  destruct (Hfail Hmiss) as [_ Hthere].
  exact (proj2 (Hthere _ Hpdf) "cannot open broken document" eq_refl eq_refl).
Defined.

(** An instance on the sample data. *)
Lemma extract_text_accumulates_witness :
  exists y,
    pdfplumber_extract Samples.sample_pdfplumber (File "%PDF-1.7") "" = Done y
    /\ (extract_text true true Samples.partial_fitz Samples.sample_pdfplumber
          Samples.sample_pdf_path Samples.cached_pdf).1
       = Ok ("Page one." +:+ y).
Proof.
  assert (Hlook : lookup_entry (files Samples.cached_pdf) Samples.sample_pdf_path
                  = Some (File "%PDF-1.7")) by (vm_compute; reflexivity).
  assert (Hdone : is_done (pdfplumber_extract Samples.sample_pdfplumber
                             (File "%PDF-1.7") "") = true) by reflexivity.
  destruct (pdfplumber_extract Samples.sample_pdfplumber (File "%PDF-1.7") "")
    as [y|why] eqn:Hy; [|discriminate Hdone].
  exists y. split; [reflexivity|].
  destruct (extract_text_accumulates true true Samples.partial_fitz
              Samples.sample_pdfplumber Samples.sample_pdf_path Samples.cached_pdf
              (File "%PDF-1.7") _ ["Page one."] Hlook eq_refl eq_refl) as [_ Hpartial].
  exact (Hpartial "damaged page" [] y eq_refl eq_refl Hy).
Defined.

End PdfProcessorExtra.

(** ** generate_summary.py: the document and the content blocks *)

Module GenerateSummaryExtra.
Import Http PyStr PyStrFacts PathLib PathFacts FsFacts PdfProcessor PdfProcessorFacts.
Import GenerateSummary.

Section Summary.
Variable PYMUPDF_AVAILABLE : bool.
Variable PDFPLUMBER_AVAILABLE : bool.
Variable PYMUPDF4LLM_AVAILABLE : bool.
Variable origin : list string -> string -> result Http.stream.
Variable fitz_open : entry -> outcome fitz_doc.
Variable pdfplumber_open : entry -> outcome (list (outcome (option string))).
Variable to_markdown : entry -> outcome string.
Variable tmp_dir : path.
Variable fill_ai_sections : string -> string -> string -> ai_sections.
Variable generated : string.

Local Abbreviation extract := (extract PYMUPDF_AVAILABLE PDFPLUMBER_AVAILABLE fitz_open pdfplumber_open).
Local Abbreviation save_markdown := (save_markdown PYMUPDF4LLM_AVAILABLE to_markdown).
Local Abbreviation text_fallback :=
  (text_fallback PYMUPDF_AVAILABLE PDFPLUMBER_AVAILABLE fitz_open pdfplumber_open).
Local Abbreviation cached_markdown :=
  (cached_markdown PYMUPDF_AVAILABLE PDFPLUMBER_AVAILABLE PYMUPDF4LLM_AVAILABLE
     fitz_open pdfplumber_open to_markdown).
Local Abbreviation fresh_markdown :=
  (fresh_markdown PYMUPDF_AVAILABLE PDFPLUMBER_AVAILABLE PYMUPDF4LLM_AVAILABLE
     fitz_open pdfplumber_open to_markdown).
Local Abbreviation content_lines :=
  (content_lines PYMUPDF_AVAILABLE PDFPLUMBER_AVAILABLE PYMUPDF4LLM_AVAILABLE origin
     fitz_open pdfplumber_open to_markdown tmp_dir).
Local Abbreviation sections :=
  (sections PYMUPDF_AVAILABLE PDFPLUMBER_AVAILABLE PYMUPDF4LLM_AVAILABLE origin
     fitz_open pdfplumber_open to_markdown tmp_dir fill_ai_sections).
Local Abbreviation generate_daily_summary :=
  (generate_daily_summary PYMUPDF_AVAILABLE PDFPLUMBER_AVAILABLE PYMUPDF4LLM_AVAILABLE
     origin fitz_open pdfplumber_open to_markdown tmp_dir fill_ai_sections generated).
Local Abbreviation paper_lines :=
  (fun paper content => metadata_lines paper ++ content ++ analysis_lines fill_ai_sections paper).

Lemma text_fallback_block (pdf_path : path) (w : world) :
  match (text_fallback pdf_path w).1 with
  | Ok c => content_block c
  | Raise _ => True
  end.
Proof.
  unfold GenerateSummary.text_fallback.
  destruct (extract pdf_path w) as [[text|e] w1]; simpl; [|done].
  right. right. left. by exists text.
Qed.

Lemma read_markdown_block (pdf_path : path) (found : result path * world) :
  match (match found with
         | (Raise _, w1) => text_fallback pdf_path w1
         | (Ok md_path, w1) =>
             match read_text md_path (files w1) with
             | Raise _ => text_fallback pdf_path w1
             | Ok markdown_content => (Ok (markdown_section md_path markdown_content), w1)
             end
         end).1 with
  | Ok c => content_block c
  | Raise _ => True
  end.
Proof.
  destruct found as [[md_path|e] w1]; [|apply text_fallback_block].
  destruct (read_text md_path (files w1)) as [markdown_content|e];
    [|apply text_fallback_block].
  simpl. right. right. right. by exists md_path, markdown_content.
Qed.

Lemma cached_markdown_block (pdf_path : path) (w : world) :
  match (cached_markdown pdf_path w).1 with
  | Ok c => content_block c
  | Raise _ => True
  end.
Proof. unfold GenerateSummary.cached_markdown. apply read_markdown_block. Qed.

Lemma fresh_markdown_block (pdf_path : path) (w : world) :
  match (fresh_markdown pdf_path w).1 with
  | Ok c => content_block c
  | Raise _ => True
  end.
Proof.
  unfold GenerateSummary.fresh_markdown.
  apply (read_markdown_block pdf_path (save_markdown pdf_path w)).
Qed.

(** What a paper gets between its metadata and its analysis has one of the
    four shapes. *)
Lemma content_lines_block (paper : BentyClient.paper) (use_markdown : bool) (w : world) :
  content_block (content_lines paper use_markdown w).1.
Proof.
  assert (Hwrap : forall (a : result (list string) * world),
            match a.1 with Ok c => content_block c | Raise _ => True end ->
            content_block (match a with
                           | (Ok lines, w1) => (lines, w1)
                           | (Raise e, w1) => ([failure_notice e], w1)
                           end).1).
  { intros [[c|e] w1]; simpl; [done|]. intros _. right. left. by exists e. }
  unfold GenerateSummary.content_lines. apply Hwrap.
  set (pdf_path := pdf_cache_path tmp_dir (BentyClient.arxiv_id paper)).
  destruct (path_exists (files w) pdf_path).
  - destruct use_markdown; [apply cached_markdown_block|by left].
  - destruct (download_paper_pdf origin tmp_dir paper w) as [[p|e] w1]; [|done].
    destruct (path_exists (files w1) p); [|by left].
    destruct use_markdown; [apply fresh_markdown_block|apply text_fallback_block].
Qed.

(** The loop gives every paper its metadata, a content block and its
    analysis, in the order of the papers and after the lines that were
    there. *)
Lemma sections_structure (papers : list BentyClient.paper)
    (include_pdf_text use_markdown : bool) :
  forall (markdown_lines : list string) (w : world),
  exists contents,
    (sections papers include_pdf_text use_markdown markdown_lines w).1
    = markdown_lines ++ concat (zip_with paper_lines papers contents)
    /\ length contents = length papers
    /\ Forall content_block contents
    /\ (include_pdf_text = false -> Forall (fun c => c = []) contents).
Proof.
  induction papers as [|paper rest IH]; intros markdown_lines w.
  - exists []. simpl. by rewrite app_nil_r.
  - cbn [GenerateSummary.sections].
    destruct (if include_pdf_text then content_lines paper use_markdown w else ([], w))
      as [content w1] eqn:Hc.
    destruct (IH ((markdown_lines ++ metadata_lines paper)
                  ++ content ++ analysis_lines fill_ai_sections paper) w1)
      as (contents & Heq & Hlen & Hall & Hnone).
    exists (content :: contents). rewrite Heq. cbn [zip_with concat].
    split; [by rewrite <- !List.app_assoc|]. split; [simpl; by rewrite Hlen|].
    split.
    + constructor; [|done]. destruct include_pdf_text.
      * pose proof (content_lines_block paper use_markdown w) as Hb.
        by rewrite Hc in Hb.
      * injection Hc as <- _. by left.
    + intros ->. constructor; [|by apply Hnone]. by injection Hc as <- _.
Qed.

(** Without the text of the PDFs the loop leaves the world as it is. *)
Lemma sections_without_pdf_text (papers : list BentyClient.paper) (use_markdown : bool) :
  forall (markdown_lines : list string) (w : world),
    sections papers false use_markdown markdown_lines w
    = (markdown_lines
       ++ concat ((fun paper => metadata_lines paper
                                        ++ analysis_lines fill_ai_sections paper)
                           <$> papers), w).
Proof.
  induction papers as [|paper rest IH]; intros markdown_lines w.
  - simpl. by rewrite app_nil_r.
  - cbn [GenerateSummary.sections]. rewrite IH. cbn [fmap list_fmap concat].
    by rewrite <- !List.app_assoc.
Qed.

(** What a call that returns has written. *)
Lemma generate_daily_summary_written (papers : list BentyClient.paper) (out : path)
    (include_pdf_text use_markdown : bool) (w w' : world) (s : summary) :
  generate_daily_summary papers out include_pdf_text use_markdown w = (Ok s, w') ->
  let done := sections papers include_pdf_text use_markdown (header_lines generated) w in
  let document := String.concat LF done.1 in
  s = {| output_path := to_string out; papers_count := length papers;
         file_size := utf8_length document |}
  /\ files w' !! out = Some (File document)
  /\ calls w' = calls done.2
  /\ (forall q e, q <> out -> files done.2 !! q = Some e -> files w' !! q = Some e)
  /\ (forall q e, q <> out -> files w' !! q = Some e ->
        files done.2 !! q = Some e \/ e = Dir).
Proof.
  unfold GenerateSummary.generate_daily_summary.
  destruct (sections papers include_pdf_text use_markdown (header_lines generated) w)
    as [markdown_lines w1].
  destruct (mkdir_parents (parent out) (files w1)) as [fs1|e] eqn:Hmk; [|done].
  destruct (open_w out fs1) as [fs2|e] eqn:Hopen; [|done].
  intros [= <- <-]. cbn [fst snd].
  apply open_w_ok in Hopen as [-> _].
  apply PdfProcessorExtra.mkdir_go_spec in Hmk as (Hsub & Hnew & _).
  split; [done|]. split.
  { simpl. rewrite (write_lookup out _ ""); [done|]. apply lookup_insert_eq. }
  split; [done|]. split.
  - intros q e Hne Hq. simpl. rewrite write_lookup_ne by done.
    rewrite lookup_insert_ne by done. by eapply lookup_weaken.
  - intros q e Hne Hq. simpl in Hq. rewrite write_lookup_ne in Hq by done.
    rewrite lookup_insert_ne in Hq by done.
    destruct (Hnew q e Hq) as [?|[-> _]]; [by left|by right].
Qed.

(** X15. Whatever happens to the PDFs, a summary that [generate_daily_summary]
    returns counts all the papers it was given, and the file it has written
    holds, after the header, one section per paper in the order of the
    papers: the metadata of the paper, then nothing, one notice of a failure,
    a text block or a Markdown block, then the analysis.  The size it reports
    is the number of bytes of that document in UTF-8. *)
Theorem summary_document_structure (papers : list BentyClient.paper) (out : path)
    (include_pdf_text use_markdown : bool) (w w' : world) (s : summary) :
  generate_daily_summary papers out include_pdf_text use_markdown w = (Ok s, w') ->
  exists contents,
    length contents = length papers
    /\ Forall content_block contents
    /\ let document :=
         String.concat LF (header_lines generated
                           ++ concat (zip_with paper_lines papers contents)) in
       files w' !! out = Some (File document)
       /\ papers_count s = length papers
       /\ file_size s = utf8_length document
       /\ output_path s = to_string out.
Proof.
  intros H. apply generate_daily_summary_written in H as (-> & Hfile & _).
  destruct (sections_structure papers include_pdf_text use_markdown
              (header_lines generated) w) as (contents & Heq & Hlen & Hall & _).
  exists contents. cbn zeta in *. rewrite Heq in Hfile. cbn [papers_count file_size output_path].
  by rewrite Heq.
Qed.

(** X16. With [include_pdf_text=False], as [main] calls it,
    [generate_daily_summary] requests no PDF and opens none, whether it
    returns or raises (the calls of the world are those of the processor;
    the requests of the analysis are not among them); [use_markdown] makes
    no difference; and a call that returns has written the header followed
    by the metadata and the analysis of each paper, reports the number of
    bytes of that document in UTF-8 as its size, has left every other file
    as it was, and has added nothing but directories. *)
Theorem summary_without_pdf_text (papers : list BentyClient.paper) (out : path)
    (use_markdown : bool) (w : world) :
  let run := generate_daily_summary papers out false use_markdown w in
  let document :=
    String.concat LF (header_lines generated
                      ++ concat ((fun paper => metadata_lines paper
                                        ++ analysis_lines fill_ai_sections paper)
                           <$> papers)) in
  calls run.2 = calls w
  /\ run = generate_daily_summary papers out false (negb use_markdown) w
  /\ (forall s, run.1 = Ok s ->
        files run.2 !! out = Some (File document)
        /\ file_size s = utf8_length document
        /\ (forall q e, q <> out -> files w !! q = Some e -> files run.2 !! q = Some e)
        /\ (forall q e, q <> out -> files run.2 !! q = Some e ->
              files w !! q = Some e \/ e = Dir)).
Proof.
  cbn zeta. split; [|split].
  - unfold GenerateSummary.generate_daily_summary. rewrite sections_without_pdf_text.
    destruct (mkdir_parents (parent out) (files w)) as [fs1|e]; [|done].
    by destruct (open_w out fs1).
  - unfold GenerateSummary.generate_daily_summary.
    by rewrite !sections_without_pdf_text.
  - intros s Hs.
    destruct (generate_daily_summary papers out false use_markdown w) as [r w'] eqn:H.
    simpl in Hs. subst r.
    apply generate_daily_summary_written in H as (-> & Hfile & _ & Hkeep & Hnew).
    rewrite sections_without_pdf_text in Hfile, Hkeep, Hnew. cbn [fst snd] in *.
    cbn [file_size]. by rewrite sections_without_pdf_text.
Qed.

(** X17. A PDF that is already in the cache is not read when
    [use_markdown=False]: if the PDFs of all the papers are cached,
    [generate_daily_summary] with [include_pdf_text=True] and
    [use_markdown=False] does exactly what it does with
    [include_pdf_text=False], so no text of a PDF is in the summary. *)
Theorem cached_pdf_without_markdown_adds_nothing (papers : list BentyClient.paper)
    (out : path) (w : world) :
  Forall (fun paper =>
            path_exists (files w) (pdf_cache_path tmp_dir (BentyClient.arxiv_id paper))
            = true) papers ->
  generate_daily_summary papers out true false w
  = generate_daily_summary papers out false false w.
Proof.
  intros Hall. unfold GenerateSummary.generate_daily_summary.
  assert (Hsec : forall markdown_lines,
            sections papers true false markdown_lines w
            = sections papers false false markdown_lines w).
  { induction Hall as [|paper rest Hp _ IH]; intros markdown_lines; [done|].
    cbn [GenerateSummary.sections]. unfold GenerateSummary.content_lines.
    rewrite Hp. apply IH. }
  by rewrite Hsec.
Qed.

(** X18. When the PDF is in the cache, its Markdown file is not, and the
    conversion is not available or fails, the block of the paper is the text
    block of what [extract_text] returns, cut at the bound; the error of the
    conversion is not shown.  Only when [extract_text] raises as well is the
    block the notice of that second failure. *)
Theorem content_lines_text_when_conversion_fails (paper : BentyClient.paper)
    (w : world) (e : entry) (md_path : path) :
  let pdf_path := pdf_cache_path tmp_dir (BentyClient.arxiv_id paper) in
  lookup_entry (files w) pdf_path = Some e ->
  get_markdown_path pdf_path = Ok md_path ->
  path_exists (files w) md_path = false ->
  PYMUPDF4LLM_AVAILABLE = false \/ (exists why, to_markdown e = Failed why) ->
  let w1 := if PYMUPDF4LLM_AVAILABLE then log (ToMarkdown pdf_path) w else w in
  content_lines paper true w
  = match extract pdf_path w1 with
    | (Ok text, w2) => (text_section text, w2)
    | (Raise e', w2) => ([failure_notice e'], w2)
    end.
Proof.
  intros pdf_path He Hmd Hmiss Hfail w1.
  unfold GenerateSummary.content_lines. fold pdf_path.
  assert (Hex : path_exists (files w) pdf_path = true)
    by (unfold path_exists; by rewrite He).
  rewrite Hex. unfold GenerateSummary.cached_markdown. rewrite Hmd, Hmiss. cbn [negb].
  assert (Hsave : save_markdown pdf_path w
                  = ((save_markdown pdf_path w).1, w1)
                  /\ is_ok (save_markdown pdf_path w).1 = false).
  { unfold GenerateSummary.save_markdown, convert_and_save_markdown. rewrite Hmd, Hmiss.
    unfold convert_to_markdown. rewrite He. subst w1.
    destruct PYMUPDF4LLM_AVAILABLE; cbn [negb].
    - destruct Hfail as [?|[why Hwhy]]; [done|]. by rewrite Hwhy.
    - done. }
  destruct Hsave as [Hsave Hraise]. rewrite Hsave.
  destruct (save_markdown pdf_path w).1 as [md|e0]; [done|].
  unfold GenerateSummary.text_fallback.
  by destruct (extract pdf_path w1) as [[text|e'] w2].
Qed.

(** X19. When the PDF is not in the cache and its download fails before a
    body arrives, because the request fails or the status is an error, the
    block of the paper is the notice of that failure, and the request is the
    only call made: nothing is converted or opened for this paper. *)
Theorem content_lines_download_failure (paper : BentyClient.paper)
    (use_markdown : bool) (w : world) (e : exn) :
  path_exists (files w) (pdf_cache_path tmp_dir (BentyClient.arxiv_id paper)) = false ->
  (r <- origin (downloads w) (BentyClient.pdf_url paper) ;;
   raise_for_status (stream_status r) (stream_reason r) (stream_url r)) = Raise e ->
  content_lines paper use_markdown w
  = ([failure_notice e], log (RequestsGet (BentyClient.pdf_url paper)) w).
Proof.
  intros Hmiss Hfail. unfold GenerateSummary.content_lines. rewrite Hmiss.
  unfold download_paper_pdf. rewrite Hmiss.
  unfold download_pdf. cbn [destination]. rewrite Hmiss.
  unfold bind in Hfail.
  destruct (origin (downloads w) (BentyClient.pdf_url paper)) as [r|e0].
  - by rewrite Hfail.
  - by injection Hfail as ->.
Qed.

(** A directory that [mkdir] finds complete is still complete after a file
    was written below it. *)
Lemma mkdir_parents_stable (d p : path) (fs fs' : gmap path entry) :
  mkdir_parents d fs = Ok fs ->
  parent p = d -> parts p <> [] ->
  (forall q, q <> p -> fs' !! q = fs !! q) ->
  mkdir_parents d fs' = Ok fs'.
Proof.
  unfold mkdir_parents. intros Hmk Hparent Hparts Hsame.
  apply PdfProcessorExtra.mkdir_go_existing. intros k Hk.
  destruct (PdfProcessorExtra.mkdir_go_spec _ _ _ _ _ Hmk) as (_ & _ & Hdirs).
  rewrite Hsame; [by apply Hdirs|].
  intros Heq. apply (f_equal parts) in Heq. apply (f_equal length) in Heq.
  simpl in Heq. rewrite length_take in Heq.
  subst d. simpl in Hk, Heq.
  pose proof (app_removelast_last "" Hparts) as Hlast.
  apply (f_equal length) in Hlast. rewrite List.length_app in Hlast. simpl in Hlast. lia.
Qed.

(** X20. The whole path for a paper that is not in the cache: when the
    directory of the processor is there, the origin serves the PDF, and the
    library converts what was saved, the block of the paper is the Markdown
    block of that conversion as it is read back from its file, that is, with
    its line ends read as LF.  One request and one conversion are made, in
    this order, and afterwards the PDF and its Markdown file are both in the
    cache. *)
Theorem content_lines_fresh_download (paper : BentyClient.paper) (w : world)
    (r : stream) (md_path : path) (markdown : string) :
  let pdf_url := BentyClient.pdf_url paper in
  let pdf_path := pdf_cache_path tmp_dir (BentyClient.arxiv_id paper) in
  let body := String.concat "" (chunks r) in
  has_char "/" (BentyClient.arxiv_id paper) = false ->
  mkdir_parents tmp_dir (files w) = Ok (files w) ->
  path_exists (files w) pdf_path = false ->
  get_markdown_path pdf_path = Ok md_path ->
  md_path <> pdf_path ->
  path_exists (files w) md_path = false ->
  origin (downloads w) pdf_url = Ok r ->
  raise_for_status (stream_status r) (stream_reason r) (stream_url r) = Ok tt ->
  broken r = None ->
  PYMUPDF4LLM_AVAILABLE = true ->
  to_markdown (File body) = Done markdown ->
  exists w',
    content_lines paper true w
    = (markdown_section md_path (universal_newlines markdown), w')
    /\ calls w' = calls w ++ [RequestsGet pdf_url; ToMarkdown pdf_path]
    /\ files w' !! pdf_path = Some (File body)
    /\ files w' !! md_path = Some (File markdown)
    /\ (forall q, q <> pdf_path -> q <> md_path -> files w' !! q = files w !! q).
Proof.
  intros pdf_url pdf_path body Hslash Hdir Hmiss Hmd Hne Hmd_miss Horigin Hstatus
    Hbroken Havail Hto.
  (* the directory of both files *)
  assert (Hid : has_char "/" (BentyClient.arxiv_id paper +:+ ".pdf") = false)
    by (by rewrite has_char_app, Hslash).
  destruct (parent_joinpath_name tmp_dir _ Hid (is_component_pdf _)) as [Hparent _].
  fold (pdf_cache_path tmp_dir (BentyClient.arxiv_id paper)) in Hparent.
  fold pdf_path in Hparent.
  destruct (path_exists_false _ _ Hmiss) as [Hpdf_none Hpdf_parts].
  destruct (path_exists_false _ _ Hmd_miss) as [Hmd_none Hmd_parts].
  assert (Hmd_parent : parent md_path = tmp_dir).
  { rewrite <- Hparent. unfold get_markdown_path, with_suffix in Hmd.
    destruct (String.eqb (name pdf_path) ""); [done|]. injection Hmd as <-.
    unfold parent. simpl. by rewrite removelast_last. }
  pose proof (PdfProcessorExtra.mkdir_parents_dir _ _ _ Hdir) as Htmp.
  (* the download *)
  set (fs1 := write_chunks pdf_path (chunks r) (<[pdf_path := File ""]> (files w))).
  set (w1 := with_files fs1 (log (RequestsGet pdf_url) w)).
  assert (Hdown : download_paper_pdf origin tmp_dir paper w = (Ok pdf_path, w1)).
  { unfold download_paper_pdf. fold pdf_path. rewrite Hmiss.
    unfold download_pdf. cbn [destination]. rewrite Hmiss. fold pdf_url.
    rewrite Horigin, Hstatus. cbn [files log]. unfold open_w.
    unfold path_exists in Hmiss.
    destruct (lookup_entry (files w) pdf_path); [done|].
    rewrite Hparent, Htmp, Hbroken. reflexivity. }
  assert (Hpdf : fs1 !! pdf_path = Some (File body)).
  { unfold fs1. rewrite (write_chunks_lookup _ _ ""); [done|]. apply lookup_insert_eq. }
  assert (Hother : forall q, q <> pdf_path -> fs1 !! q = files w !! q).
  { intros q Hq. unfold fs1. rewrite write_chunks_lookup_ne by done.
    by rewrite lookup_insert_ne. }
  assert (Hdir1 : mkdir_parents tmp_dir fs1 = Ok fs1)
    by exact (mkdir_parents_stable tmp_dir pdf_path (files w) fs1 Hdir Hparent
                Hpdf_parts Hother).
  (* the conversion *)
  set (fs2 := write md_path markdown (<[md_path := File ""]> fs1)).
  set (w2 := with_files fs2 (log (ToMarkdown pdf_path) w1)).
  assert (Hmd1 : path_exists fs1 md_path = false).
  { unfold path_exists, lookup_entry. destruct (parts md_path); [done|].
    by rewrite Hother, Hmd_none. }
  assert (Hsave : save_markdown pdf_path w1 = (Ok md_path, w2)).
  { unfold GenerateSummary.save_markdown, convert_and_save_markdown. rewrite Hmd.
    change (files w1) with fs1. rewrite Hmd1.
    unfold convert_to_markdown. change (files w1) with fs1.
    rewrite (lookup_entry_parts fs1 pdf_path Hpdf_parts), Hpdf, Havail.
    cbn [negb]. rewrite Hto. cbn [files log with_files].
    change (files w1) with fs1. rewrite Hmd_parent, Hdir1. unfold open_w.
    unfold path_exists in Hmd1. destruct (lookup_entry fs1 md_path); [done|].
    rewrite Hmd_parent.
    by rewrite (PdfProcessorExtra.mkdir_parents_dir _ _ _ Hdir1). }
  assert (Hfile : fs2 !! md_path = Some (File markdown)).
  { unfold fs2. rewrite (write_lookup md_path markdown ""); [done|].
    apply lookup_insert_eq. }
  exists w2. split; [|split; [|split; [|split]]].
  - unfold GenerateSummary.content_lines. fold pdf_path. rewrite Hmiss, Hdown.
    cbn [files w1 with_files].
    rewrite (path_exists_lookup fs1 pdf_path _ Hpdf).
    unfold GenerateSummary.fresh_markdown. rewrite Hsave.
    unfold read_text. change (files w2) with fs2.
    by rewrite (lookup_entry_parts fs2 md_path Hmd_parts), Hfile.
  - simpl. by rewrite <- List.app_assoc.
  - simpl. unfold fs2. rewrite write_lookup_ne by done.
    by rewrite lookup_insert_ne.
  - exact Hfile.
  - intros q Hq1 Hq2. simpl. unfold fs2.
    rewrite write_lookup_ne, lookup_insert_ne by done. by apply Hother.
Qed.

End Summary.

(** An instance on the sample data. *)
Lemma summary_document_structure_witness :
  exists s w' (contents : list (list string)),
    generate_daily_summary true true true Samples.good_origin Samples.failing_fitz
      Samples.sample_pdfplumber Samples.sample_to_markdown Samples.cache_root
      Samples.sample_ai Samples.sample_generated
      [Samples.sample_paper] Samples.sample_out true true Samples.cached_pdf = (Ok s, w')
    /\ length contents = 1%nat
    /\ papers_count s = 1%nat.
Proof.
  assert (Hok : is_ok (generate_daily_summary true true true Samples.good_origin
                         Samples.failing_fitz Samples.sample_pdfplumber
                         Samples.sample_to_markdown Samples.cache_root Samples.sample_ai
                         Samples.sample_generated [Samples.sample_paper]
                         Samples.sample_out true true Samples.cached_pdf).1 = true)
    by (vm_compute; reflexivity).
  destruct (generate_daily_summary true true true Samples.good_origin
              Samples.failing_fitz Samples.sample_pdfplumber Samples.sample_to_markdown
              Samples.cache_root Samples.sample_ai Samples.sample_generated
              [Samples.sample_paper] Samples.sample_out true true Samples.cached_pdf)
    as [[s|e] w'] eqn:Hrun; [|discriminate Hok].
  destruct (summary_document_structure _ _ _ _ _ _ _ _ _ _ _ _ _ _ _ _ _ Hrun)
    as (contents & Hlen & _ & _ & Hcount & _).
  exists s, w', contents. split; [reflexivity|]. split; [exact Hlen|exact Hcount].
Defined.

(** An instance on the sample data: the document of a paper whose title has
    one accented letter has 470 characters, and the size reported is 471. *)
Lemma summary_without_pdf_text_witness :
  calls (generate_daily_summary true true true Samples.broken_origin Samples.failing_fitz
           Samples.sample_pdfplumber Samples.sample_to_markdown Samples.cache_root
           Samples.sample_ai Samples.sample_generated
           [Samples.accented_paper] Samples.sample_out false true Samples.bare_world).2
  = []
  /\ exists s,
       (generate_daily_summary true true true Samples.broken_origin Samples.failing_fitz
          Samples.sample_pdfplumber Samples.sample_to_markdown Samples.cache_root
          Samples.sample_ai Samples.sample_generated
          [Samples.accented_paper] Samples.sample_out false true Samples.bare_world).1
       = Ok s
       /\ file_size s = 471%nat
       /\ String.length
            (String.concat LF (header_lines Samples.sample_generated
                               ++ metadata_lines Samples.accented_paper
                               ++ analysis_lines Samples.sample_ai Samples.accented_paper))
          = 470%nat.
Proof.
  destruct (summary_without_pdf_text true true true Samples.broken_origin
              Samples.failing_fitz Samples.sample_pdfplumber
              Samples.sample_to_markdown Samples.cache_root Samples.sample_ai
              Samples.sample_generated [Samples.accented_paper] Samples.sample_out
              true Samples.bare_world) as (Hcalls & _ & Hreturned).
  split; [exact Hcalls|].
  assert (Hok : is_ok (generate_daily_summary true true true Samples.broken_origin
                         Samples.failing_fitz Samples.sample_pdfplumber
                         Samples.sample_to_markdown Samples.cache_root Samples.sample_ai
                         Samples.sample_generated [Samples.accented_paper]
                         Samples.sample_out false true Samples.bare_world).1 = true)
    by (vm_compute; reflexivity).
  destruct (generate_daily_summary true true true Samples.broken_origin
              Samples.failing_fitz Samples.sample_pdfplumber Samples.sample_to_markdown
              Samples.cache_root Samples.sample_ai Samples.sample_generated
              [Samples.accented_paper] Samples.sample_out false true Samples.bare_world).1
    as [s|e] eqn:Hrun; [|discriminate Hok].
  exists s. split; [reflexivity|].
  destruct (Hreturned s eq_refl) as (_ & Hsize & _).
  split; [rewrite Hsize|]; vm_compute; reflexivity.
Defined.

(** An instance on the sample data. *)
Lemma cached_pdf_without_markdown_adds_nothing_witness :
  generate_daily_summary true true true Samples.good_origin Samples.failing_fitz
    Samples.sample_pdfplumber Samples.sample_to_markdown Samples.cache_root
    Samples.sample_ai Samples.sample_generated
    [Samples.sample_paper] Samples.sample_out true false Samples.cached_pdf
  = generate_daily_summary true true true Samples.good_origin Samples.failing_fitz
      Samples.sample_pdfplumber Samples.sample_to_markdown Samples.cache_root
      Samples.sample_ai Samples.sample_generated
      [Samples.sample_paper] Samples.sample_out false false Samples.cached_pdf.
Proof.
  apply cached_pdf_without_markdown_adds_nothing.
  constructor; [|constructor]. vm_compute. reflexivity.
Defined.

(** An instance on the sample data. *)
Lemma content_lines_text_when_conversion_fails_witness :
  (content_lines true true false Samples.good_origin Samples.failing_fitz
     Samples.sample_pdfplumber Samples.sample_to_markdown Samples.cache_root
     Samples.sample_paper true Samples.cached_pdf).1
  = text_section ("Page one." +:+ LF +:+ "Page two." +:+ LF).
Proof.
  assert (Hpdf : lookup_entry (files Samples.cached_pdf)
                   (pdf_cache_path Samples.cache_root
                      (BentyClient.arxiv_id Samples.sample_paper))
                 = Some (File "%PDF-1.7")) by (vm_compute; reflexivity).
  assert (Hmd : get_markdown_path
                  (pdf_cache_path Samples.cache_root
                     (BentyClient.arxiv_id Samples.sample_paper))
                = Ok Samples.sample_md_path) by (vm_compute; reflexivity).
  assert (Hmiss : path_exists (files Samples.cached_pdf) Samples.sample_md_path = false)
    by (vm_compute; reflexivity).
  rewrite (content_lines_text_when_conversion_fails true true false Samples.good_origin
             Samples.failing_fitz Samples.sample_pdfplumber Samples.sample_to_markdown
             Samples.cache_root Samples.sample_paper Samples.cached_pdf _ _
             Hpdf Hmd Hmiss (or_introl eq_refl)).
  vm_compute. reflexivity.
Defined.

(** An instance on the sample data. *)
Lemma content_lines_download_failure_witness :
  content_lines true true true Samples.missing_origin Samples.failing_fitz
    Samples.sample_pdfplumber Samples.sample_to_markdown Samples.cache_root
    Samples.sample_paper true Samples.empty_cache
  = (["*PDF content extraction failed: 404 Client Error: Not Found for url: https://arxiv.org/pdf/2601.04344v1*"
      +:+ LF],
     log (RequestsGet "https://arxiv.org/pdf/2601.04344v1") Samples.empty_cache).
Proof.
  apply (content_lines_download_failure true true true Samples.missing_origin
           Samples.failing_fitz Samples.sample_pdfplumber Samples.sample_to_markdown
           Samples.cache_root Samples.sample_paper true Samples.empty_cache
           (HTTPError 404 "Not Found" "https://arxiv.org/pdf/2601.04344v1")).
  - vm_compute. reflexivity.
  - reflexivity.
Defined.

(** An instance on the sample data: the conversion has a line that ends in
    CR LF; the file holds it as it is, and the block shows it with LF. *)
Lemma content_lines_fresh_download_witness :
  exists w',
    content_lines true true true Samples.good_origin Samples.failing_fitz
      Samples.sample_pdfplumber Samples.crlf_to_markdown Samples.cache_root
      Samples.sample_paper true Samples.made_cache
    = (markdown_section Samples.sample_md_path
         ("# A sample paper" +:+ String "010" "Text."), w')
    /\ calls w' = [RequestsGet "https://arxiv.org/pdf/2601.04344v1";
                   ToMarkdown Samples.sample_pdf_path]
    /\ files w' !! Samples.sample_md_path
       = Some (File ("# A sample paper" +:+ String "013" (String "010" "Text."))).
Proof.
  assert (Hdir : mkdir_parents Samples.cache_root (files Samples.made_cache)
                 = Ok (files Samples.made_cache)).
  { apply PdfProcessorExtra.mkdir_go_existing. intros k Hk.
    assert (Hcases : k = 1%nat \/ k = 2%nat) by (simpl in Hk; lia).
    destruct Hcases as [->| ->]; vm_compute; reflexivity. }
  assert (Hmiss : path_exists (files Samples.made_cache)
                    (pdf_cache_path Samples.cache_root
                       (BentyClient.arxiv_id Samples.sample_paper)) = false)
    by (vm_compute; reflexivity).
  assert (Hmd : get_markdown_path
                  (pdf_cache_path Samples.cache_root
                     (BentyClient.arxiv_id Samples.sample_paper))
                = Ok Samples.sample_md_path) by (vm_compute; reflexivity).
  assert (Hne : Samples.sample_md_path
                <> pdf_cache_path Samples.cache_root
                     (BentyClient.arxiv_id Samples.sample_paper))
    by (vm_compute; discriminate).
  assert (Hmd_miss : path_exists (files Samples.made_cache) Samples.sample_md_path
                     = false) by (vm_compute; reflexivity).
  destruct (content_lines_fresh_download true true true Samples.good_origin
              Samples.failing_fitz Samples.sample_pdfplumber Samples.crlf_to_markdown
              Samples.cache_root Samples.sample_paper Samples.made_cache
              {| stream_status := 200; stream_reason := "OK";
                 stream_url := "https://arxiv.org/pdf/2601.04344v1";
                 chunks := ["%PDF-"; ""; "1.7"]; broken := None |}
              Samples.sample_md_path
              ("# A sample paper" +:+ String "013" (String "010" "Text."))
              eq_refl Hdir Hmiss Hmd Hne Hmd_miss eq_refl eq_refl eq_refl eq_refl eq_refl)
    as (w' & Hrun & Hcalls & _ & Hfile & _).
  exists w'. split; [exact Hrun|]. split; [exact Hcalls|exact Hfile].
Defined.

End GenerateSummaryExtra.

(** ** generate_summary.py: the script *)

Module ScriptExtra.
Import Http PathLib PathFacts FsFacts PdfProcessor BentyClient GenerateSummary.

Section Script.
Variable PYMUPDF_AVAILABLE : bool.
Variable PDFPLUMBER_AVAILABLE : bool.
Variable PYMUPDF4LLM_AVAILABLE : bool.
Variable site : list request -> request -> result response.
Variable html_parser : string -> Bs4.node.
Variable now : datetime.
Variable origin : list string -> string -> result stream.
Variable fitz_open : entry -> outcome fitz_doc.
Variable pdfplumber_open : entry -> outcome (list (outcome (option string))).
Variable to_markdown : entry -> outcome string.
Variable fill_ai_sections : string -> string -> string -> ai_sections.
Variable generated : string.
Variable system_tmp : path.
Variable load_config : result script_config.

Local Abbreviation main :=
  (main PYMUPDF_AVAILABLE PDFPLUMBER_AVAILABLE PYMUPDF4LLM_AVAILABLE site html_parser now
     origin fitz_open pdfplumber_open to_markdown fill_ai_sections generated system_tmp
     load_config).

(** The client that [main] makes from the configuration. *)
Local Abbreviation client_of config :=
  {| email := sc_email config; password := sc_password config;
     logged_in := false; sent := [] |}.

Lemma login_returns_true (c c' : client) (b : bool) :
  login site html_parser c = (Ok b, c') -> b = true.
Proof.
  unfold login, send.
  destruct (site (sent c) (GET login_url)) as [page|e]; [|done].
  destruct (raise_for_status (status_code page) (reason page) (url page)); [|done].
  destruct (Bs4.find "input" (Bs4.attr_is "name" "csrf_token") (html_parser (text page)))
    as [input|]; [|done].
  destruct (Bs4.getitem input "value") as [token|]; [|done].
  cbn [fst snd].
  destruct (site _ (POST _ _)) as [answer|e]; [|done].
  destruct (raise_for_status (status_code answer) (reason answer) (url answer)); [|done].
  destruct (negb (PyStr.contains "Logout" (text answer))); [done|]. by intros [= <- _].
Qed.

(** After a login that returned, a call of [fetch_daily_papers] sends the
    request for the listing and nothing else. *)
Lemma fetch_after_login (c c1 : client) (b : bool) (day : pyval) (num_papers : Z) :
  login site html_parser c = (Ok b, c1) ->
  sent (fetch_daily_papers site html_parser now day num_papers c1).2
  = sent c1 ++ [GET (listing_url (date_or_today now day))].
Proof.
  intros Hlogin. apply ServerFacts.fetch_daily_papers_request.
  destruct (BentyClientExtra.login_outcome _ _ _ _ _ Hlogin) as (_ & _ & Hflag & _).
  unfold _ensure_logged_in. by rewrite (Hflag eq_refl).
Qed.

Lemma init_calls (tmp_dir : path) (w w1 : world) (r : result unit) :
  init PYMUPDF_AVAILABLE PDFPLUMBER_AVAILABLE tmp_dir w = (r, w1) ->
  calls w1 = calls w
  /\ (forall q e, files w1 !! q = Some e -> files w !! q = Some e \/ e = Dir).
Proof.
  unfold init. destruct (mkdir_parents tmp_dir (files w)) as [fs|e] eqn:Hmk.
  - apply PdfProcessorExtra.mkdir_go_spec in Hmk as (_ & Hnew & _).
    assert (Hfs : forall q e, fs !! q = Some e -> files w !! q = Some e \/ e = Dir).
    { intros q e Hq. destruct (Hnew q e Hq) as [?|[-> _]]; [by left|by right]. }
    destruct (negb PYMUPDF_AVAILABLE && negb PDFPLUMBER_AVAILABLE); by intros [= <- <-].
  - intros [= <- <-]. split; [done|]. intros q e' Hq. by left.
Qed.

Lemma summary_calls (tmp_dir out : path) (papers : list paper) (use_markdown : bool)
    (w : world) :
  calls (generate_daily_summary PYMUPDF_AVAILABLE PDFPLUMBER_AVAILABLE
           PYMUPDF4LLM_AVAILABLE origin fitz_open pdfplumber_open to_markdown tmp_dir
           fill_ai_sections generated papers out false use_markdown w).2
  = calls w.
Proof.
  unfold generate_daily_summary. rewrite GenerateSummaryExtra.sections_without_pdf_text.
  destruct (mkdir_parents (parent out) (files w)) as [fs1|e]; [|done].
  by destruct (open_w out fs1).
Qed.

(** X21. A summary that [main] returns is the summary of 2026-01-09, whatever
    the day and the configuration are: after the two requests of the login,
    the session has sent exactly one more request, for the listing of that
    date, and the file is [summary_20260109.md] in the configured output
    directory ([./summaries] when none is configured).  The listing was not
    empty, all its papers are counted, and the file holds the header followed
    by the metadata and the analysis of each paper, without any text of a
    PDF; the size reported is the number of bytes of that document in
    UTF-8. *)
Theorem main_summary_of_fixed_date (w w' : world) (s : summary) (reqs : list request) :
  main w = (Ok (Some s), (reqs, w')) ->
  exists config c1 papers,
    load_config = Ok config
    /\ login site html_parser (client_of config) = (Ok true, c1)
    /\ reqs = sent c1 ++ [GET (listing_url (PyStr "2026-01-09"))]
    /\ (fetch_daily_papers site html_parser now (PyStr "2026-01-09")
          (default 10 (sc_num_papers config)) c1).1 = Ok papers
    /\ papers <> []
    /\ papers_count s = length papers
    /\ let out := joinpath (of_string (default "./summaries" (sc_output_dir config)))
                    "summary_20260109.md" in
       let document :=
         String.concat LF
           (header_lines generated
            ++ concat ((fun paper => metadata_lines paper
                                     ++ analysis_lines fill_ai_sections paper)
                       <$> papers)) in
       output_path s = to_string out
       /\ files w' !! out = Some (File document)
       /\ file_size s = PyStr.utf8_length document.
Proof.
  unfold GenerateSummary.main.
  destruct load_config as [config|e]; [|done].
  destruct (String.eqb (sc_email config) "" || String.eqb (sc_password config) "");
    [done|].
  destruct (login site html_parser (client_of config)) as [[b|e] c1] eqn:Hlogin; [|done].
  destruct (init PYMUPDF_AVAILABLE PDFPLUMBER_AVAILABLE
              (resolve_tmp_dir system_tmp (sc_tmp_dir config)) w) as [[[]|e] w1]; [|done].
  pose proof (fetch_after_login _ _ _ (PyStr date) (default 10 (sc_num_papers config))
                Hlogin) as Hsent.
  destruct (fetch_daily_papers site html_parser now (PyStr date)
              (default 10 (sc_num_papers config)) c1) as [[papers|e] c2] eqn:Hfetch;
    [|done].
  destruct (length papers =? 0)%nat eqn:Hlen; [done|].
  destruct (generate_daily_summary _ _ _ _ _ _ _ _ _ _ papers _ false true w1)
    as [[result|e] w2] eqn:Hgen; [|done].
  intros [= <- <- <-].
  apply GenerateSummaryExtra.generate_daily_summary_written in Hgen
    as (-> & Hfile & _).
  rewrite GenerateSummaryExtra.sections_without_pdf_text in Hfile.
  pose proof (login_returns_true _ _ _ Hlogin) as ->.
  exists config, c1, papers. split; [done|]. split; [done|]. split; [exact Hsent|].
  split; [exact (f_equal fst Hfetch)|]. split.
  { intros ->. by apply Nat.eqb_neq in Hlen. }
  split; [done|]. cbn zeta. split; [done|]. split; [exact Hfile|].
  cbn [file_size]. by rewrite GenerateSummaryExtra.sections_without_pdf_text.
Qed.

(** X22. [main] makes no request for a PDF and opens none, however it ends.
    Without an e-mail or a password it raises before anything is sent or
    made, and when the listing is empty it returns without a summary, having
    made nothing but directories. *)
Theorem main_makes_no_pdf_call (w : world) :
  calls (main w).2.2 = calls w
  /\ (forall config,
        load_config = Ok config -> sc_email config = "" \/ sc_password config = "" ->
        exists msg, main w = (Raise (ValueError msg), ([], w)))
  /\ (forall reqs w',
        main w = (Ok None, (reqs, w')) ->
        forall q e, files w' !! q = Some e -> files w !! q = Some e \/ e = Dir).
Proof.
  unfold GenerateSummary.main. split; [|split].
  - destruct load_config as [config|e]; [|done].
    destruct (String.eqb (sc_email config) "" || String.eqb (sc_password config) "");
      [done|].
    destruct (login site html_parser (client_of config)) as [[b|e] c1]; [|done].
    destruct (init PYMUPDF_AVAILABLE PDFPLUMBER_AVAILABLE
                (resolve_tmp_dir system_tmp (sc_tmp_dir config)) w)
      as [r w1] eqn:Hinit.
    apply init_calls in Hinit as [Hcalls _].
    destruct r as [[]|e]; [|done].
    destruct (fetch_daily_papers site html_parser now (PyStr date)
                (default 10 (sc_num_papers config)) c1) as [[papers|e] c2]; [|done].
    destruct (length papers =? 0)%nat; [done|].
    pose proof (summary_calls (resolve_tmp_dir system_tmp (sc_tmp_dir config))
                  (summary_path (default "./summaries" (sc_output_dir config)))
                  papers true w1) as Hsum.
    destruct (generate_daily_summary _ _ _ _ _ _ _ _ _ _ papers _ false true w1)
      as [[result|e] w2]; simpl in *; congruence.
  - intros config -> Hempty. eexists.
    destruct Hempty as [-> | ->]; simpl; [done|].
    by rewrite orb_true_r.
  - intros reqs w'.
    destruct load_config as [config|e]; [|done].
    destruct (String.eqb (sc_email config) "" || String.eqb (sc_password config) "");
      [done|].
    destruct (login site html_parser (client_of config)) as [[b|e] c1]; [|done].
    destruct (init PYMUPDF_AVAILABLE PDFPLUMBER_AVAILABLE
                (resolve_tmp_dir system_tmp (sc_tmp_dir config)) w)
      as [r w1] eqn:Hinit.
    apply init_calls in Hinit as [_ Hfiles].
    destruct r as [[]|e]; [|done].
    destruct (fetch_daily_papers site html_parser now (PyStr date)
                (default 10 (sc_num_papers config)) c1) as [[papers|e] c2]; [|done].
    destruct (length papers =? 0)%nat.
    + by intros [= <- <-].
    + by destruct (generate_daily_summary _ _ _ _ _ _ _ _ _ _ papers _ false true w1)
        as [[result|e] w2].
Qed.

End Script.

(** An instance on the sample data. *)
Lemma main_summary_of_fixed_date_witness :
  exists s reqs w',
    GenerateSummary.main true true true Samples.sample_site Samples.sample_parser
      Samples.sample_now Samples.good_origin Samples.failing_fitz
      Samples.sample_pdfplumber Samples.sample_to_markdown Samples.sample_ai
      Samples.sample_generated (of_string "/tmp") (Ok Samples.sample_script_config)
      Samples.bare_world = (Ok (Some s), (reqs, w'))
    /\ last reqs = Some (GET (Samples.listing_of "2026-01-09"))
    /\ output_path s = "summaries/summary_20260109.md".
Proof.
  assert (Hok : match (GenerateSummary.main true true true Samples.sample_site
                         Samples.sample_parser Samples.sample_now Samples.good_origin
                         Samples.failing_fitz Samples.sample_pdfplumber
                         Samples.sample_to_markdown Samples.sample_ai
                         Samples.sample_generated (of_string "/tmp")
                         (Ok Samples.sample_script_config) Samples.bare_world).1 with
                | Ok (Some _) => true
                | _ => false
                end = true) by (vm_compute; reflexivity).
  destruct (GenerateSummary.main true true true Samples.sample_site
              Samples.sample_parser Samples.sample_now Samples.good_origin
              Samples.failing_fitz Samples.sample_pdfplumber
              Samples.sample_to_markdown Samples.sample_ai
              Samples.sample_generated (of_string "/tmp")
              (Ok Samples.sample_script_config) Samples.bare_world)
    as [[[s|]|e] [reqs w']] eqn:Hrun; try discriminate Hok.
  destruct (main_summary_of_fixed_date _ _ _ _ _ _ _ _ _ _ _ _ _ _ _ _ _ _ Hrun)
    as (config & c1 & papers & Hconfig & _ & Hreqs & _ & _ & _ & Hpath & _).
  exists s, reqs, w'. split; [reflexivity|]. split.
  - rewrite Hreqs. apply last_snoc.
  - injection Hconfig as <-. rewrite Hpath. vm_compute. reflexivity.
Defined.

(** An instance on the sample data. *)
Lemma main_makes_no_pdf_call_witness :
  exists msg,
    GenerateSummary.main true true true Samples.sample_site Samples.sample_parser
      Samples.sample_now Samples.good_origin Samples.failing_fitz
      Samples.sample_pdfplumber Samples.sample_to_markdown Samples.sample_ai
      Samples.sample_generated (of_string "/tmp")
      (Ok {| sc_email := "user@example.org"; sc_password := "";
             sc_num_papers := None; sc_output_dir := None; sc_tmp_dir := None |})
      Samples.bare_world
    = (Raise (ValueError msg), ([], Samples.bare_world)).
Proof.
  destruct (main_makes_no_pdf_call true true true Samples.sample_site
              Samples.sample_parser Samples.sample_now Samples.good_origin
              Samples.failing_fitz Samples.sample_pdfplumber
              Samples.sample_to_markdown Samples.sample_ai
              Samples.sample_generated (of_string "/tmp")
              (Ok {| sc_email := "user@example.org"; sc_password := "";
                     sc_num_papers := None; sc_output_dir := None; sc_tmp_dir := None |})
              Samples.bare_world) as (_ & Hcred & _).
  exact (Hcred _ eq_refl (or_intror eq_refl)).
Defined.

End ScriptExtra.

(** ** server.py: the session and the tools of the processor *)

Module ServerExtra.
Import Http PyStr PyStrFacts PathLib PathFacts FsFacts PdfProcessor PdfProcessorFacts.
Import BentyClient Server.

(** *** [str.replace] *)

Lemma replace_none (old new s : string) :
  (forall k, startswith (drop_chars k s) old = false) -> replace old new s = s.
Proof.
  unfold replace. induction s as [|c s IH]; [done|]. intros Hnone.
  cbn [replace_go]. rewrite (Hnone 0%nat : startswith (String c s) old = false).
  f_equal. apply IH. intros k. exact (Hnone (S k)).
Qed.

Lemma prefix_pdf_app (c : ascii) (s : string) :
  String.prefix ".pdf" (String c s) = false ->
  String.prefix ".pdf" (String c s +:+ ".pdf") = false.
Proof.
  destruct s as [|b [|c' [|d s]]]; rewrite ?app_cons, ?app_empty_l; cbn -[ascii_dec];
    repeat (match goal with |- context [ascii_dec ?x ?y] => destruct (ascii_dec x y) end;
            try done).
  by destruct s.
Qed.

Lemma replace_pdf_suffix (s : string) :
  (forall k, startswith (drop_chars k s) ".pdf" = false) ->
  replace ".pdf" "" (s +:+ ".pdf") = s.
Proof.
  unfold replace. induction s as [|c s IH]; [done|]. intros Hnone.
  rewrite app_cons. cbn [replace_go]. rewrite <- app_cons.
  unfold startswith at 1. rewrite (prefix_pdf_app c s (Hnone 0%nat)).
  f_equal. apply IH. intros k. exact (Hnone (S k)).
Qed.

Lemma drop_chars_app_length (p t : string) : drop_chars (String.length p) (p +:+ t) = t.
Proof. induction p as [|c p IH]; [by rewrite app_empty_l|]. by rewrite app_cons. Qed.

Lemma no_pdf_not_endswith (s : string) :
  (forall k, startswith (drop_chars k s) ".pdf" = false) -> endswith s ".pdf" = false.
Proof.
  intros Hnone. destruct (endswith s ".pdf") eqn:He; [|done].
  apply endswith_spec in He as [p ->].
  specialize (Hnone (String.length p)). by rewrite drop_chars_app_length in Hnone.
Qed.

(** *** The session of the tool *)

Section Tool.
Variable site : list request -> request -> result response.
Variable html_parser : string -> Bs4.node.
Variable now : datetime.
Variable load_config : result config.

Local Abbreviation call_fetch_daily_papers :=
  (call_fetch_daily_papers site html_parser now load_config).

Lemma resolve_date_configured (cfg : config) (arg_date : pyval) :
  load_config = Ok cfg -> is_ok (resolve_date now load_config arg_date) = true.
Proof.
  intros Hcfg. unfold resolve_date. rewrite Hcfg.
  destruct arg_date; try done. simpl. by destruct (cfg_date cfg).
Qed.

Local Abbreviation fetch_session := (fetch_session site html_parser now load_config).

(** A call on a client that is logged in sends the request for the listing
    of its date and nothing else, and the client stays logged in, whether
    the call returns or raises. *)
Lemma call_on_logged_in_client (cfg : config) (c1 : client) (arg_date : pyval)
    (arg_num_papers : option Z) :
  load_config = Ok cfg -> logged_in c1 = true ->
  exists c2 day,
    resolve_date now load_config arg_date = Ok day
    /\ (call_fetch_daily_papers arg_date arg_num_papers (Some c1)).2 = Some c2
    /\ logged_in c2 = true
    /\ sent c2 = sent c1 ++ [GET (listing_url day)].
Proof.
  intros Hcfg Hflag. unfold Server.call_fetch_daily_papers.
  pose proof (resolve_date_configured cfg arg_date Hcfg) as Hday.
  destruct (resolve_date now load_config arg_date) as [day|e] eqn:Hresolve; [|done].
  pose proof (ServerFacts.resolve_date_given now load_config arg_date day Hresolve)
    as Hgiven.
  assert (Hnum : is_ok (resolve_num_papers load_config arg_num_papers) = true)
    by (rewrite Hcfg; by destruct arg_num_papers).
  destruct (resolve_num_papers load_config arg_num_papers) as [n|e]; [|done].
  cbn [get_client].
  assert (Hlogged : _ensure_logged_in site html_parser c1 = (Ok tt, c1))
    by (unfold _ensure_logged_in; by rewrite Hflag).
  pose proof (ServerFacts.fetch_daily_papers_request site html_parser now day n c1 c1
                Hlogged) as Hsent.
  rewrite Hgiven in Hsent.
  assert (Hkept : logged_in (fetch_daily_papers site html_parser now day n c1).2 = true).
  { unfold fetch_daily_papers, send. rewrite Hlogged.
    destruct (site (sent c1) _) as [resp|e]; [|done].
    by destruct (raise_for_status (status_code resp) (reason resp) (url resp)). }
  destruct (fetch_daily_papers site html_parser now day n c1) as [[papers'|e] c2];
    by exists c2, day.
Qed.

Lemma fetch_session_logged_in (cfg : config) (requests : list (pyval * option Z)) :
  load_config = Ok cfg ->
  forall c1, logged_in c1 = true ->
    exists c2 days,
      Forall2 (fun request day => resolve_date now load_config request.1 = Ok day)
        requests days
      /\ fetch_session requests (Some c1) = Some c2
      /\ logged_in c2 = true
      /\ sent c2 = sent c1 ++ ((fun day => GET (listing_url day)) <$> days).
Proof.
  intros Hcfg. induction requests as [|[arg_date arg_num_papers] rest IH]; intros c1 Hflag.
  - exists c1, []. split; [constructor|]. split; [done|]. split; [done|].
    by rewrite app_nil_r.
  - destruct (call_on_logged_in_client cfg c1 arg_date arg_num_papers Hcfg Hflag)
      as (c2 & day & Hday & Hcall & Hflag2 & Hsent2).
    destruct (IH c2 Hflag2) as (c3 & days & Hdays & Hrest & Hflag3 & Hsent3).
    exists c3, (day :: days). split; [by constructor|].
    cbn [Server.fetch_session]. rewrite Hcall. split; [exact Hrest|].
    split; [exact Hflag3|]. rewrite Hsent3, Hsent2, <- List.app_assoc. done.
Qed.

(** X23. The tool logs in once: a first call of [fetch_daily_papers] that
    returns has read the configuration, and leaves a client that is logged
    in.  After any number of later calls, whatever their arguments and
    whether they return or raise, the client is still there and logged in,
    and it has sent one request for each call and no other: the request for
    the listing of the date of that call, in the order of the calls. *)
Theorem tool_logs_in_once (arg_date : pyval) (arg_num_papers : option Z)
    (found : listing) (global : option client) :
  call_fetch_daily_papers arg_date arg_num_papers None = (Ok found, global) ->
  exists cfg c1,
    load_config = Ok cfg
    /\ global = Some c1
    /\ logged_in c1 = true
    /\ forall requests : list (pyval * option Z),
         exists c2 days,
           Forall2 (fun request day => resolve_date now load_config request.1 = Ok day)
             requests days
           /\ fetch_session requests global = Some c2
           /\ logged_in c2 = true
           /\ sent c2 = sent c1 ++ ((fun day => GET (listing_url day)) <$> days).
Proof.
  unfold Server.call_fetch_daily_papers at 1.
  destruct (resolve_date now load_config arg_date) as [day0|e]; [|done].
  destruct (resolve_num_papers load_config arg_num_papers) as [n0|e]; [|done].
  unfold get_client.
  destruct load_config as [cfg|e] eqn:Hcfg; [|done].
  destruct (String.eqb (cfg_email cfg) "" || String.eqb (cfg_password cfg) ""); [done|].
  destruct (login site html_parser _) as [[b|e] c0]; [|done].
  destruct (fetch_daily_papers site html_parser now day0 n0 c0)
    as [[papers|e] c1] eqn:Hfetch; [|done].
  intros [= <- <-]. exists cfg, c1.
  pose proof (BentyClientExtra.fetch_daily_papers_flag _ _ _ _ _ _ _ _ Hfetch) as Hflag.
  split; [done|]. split; [done|]. split; [exact Hflag|].
  intros requests. rewrite <- Hcfg.
  exact (fetch_session_logged_in cfg requests Hcfg c1 Hflag).
Qed.

(** X24. Without an e-mail or a password in the configuration, the tool
    raises a [ValueError] before a client is made: nothing is sent, and no
    client is kept for the next call. *)
Theorem tool_needs_credentials (cfg : config) (arg_date : pyval)
    (arg_num_papers : option Z) :
  load_config = Ok cfg ->
  cfg_email cfg = "" \/ cfg_password cfg = "" ->
  exists msg,
    call_fetch_daily_papers arg_date arg_num_papers None = (Raise (ValueError msg), None).
Proof.
  intros Hcfg Hempty. unfold Server.call_fetch_daily_papers.
  pose proof (resolve_date_configured cfg arg_date Hcfg) as Hday.
  destruct (resolve_date now load_config arg_date) as [day|e]; [|done].
  unfold resolve_num_papers, get_client. rewrite Hcfg.
  assert (Hcheck : String.eqb (cfg_email cfg) "" || String.eqb (cfg_password cfg) ""
                   = true).
  { destruct Hempty as [-> | ->]; [done|]. by rewrite orb_true_r. }
  rewrite Hcheck. destruct arg_num_papers; simpl; by eexists.
Qed.

End Tool.

(** *** The tools of the processor *)

Lemma downloads_log (c : call) (w : world) :
  (forall url, c <> RequestsGet url) -> downloads (log c w) = downloads w.
Proof.
  intros Hc. unfold downloads, log. cbn [calls]. rewrite omap_app. simpl.
  destruct c as [address| | |]; [by destruct (Hc address)|..]; by rewrite app_nil_r.
Qed.

Lemma conversions_log (p : path) (w : world) :
  conversions (log (ToMarkdown p) w) = conversions w ++ [p].
Proof. unfold conversions, log. cbn [calls]. by rewrite omap_app. Qed.

(** The tool's default for the identifier, on a URL whose last segment has
    [".pdf"] at most as its ending. *)
Lemma paper_id_from_url (pdf_url stem : string) (arxiv_id : option string) :
  arxiv_id = None \/ arxiv_id = Some "" ->
  (forall k, startswith (drop_chars k stem) ".pdf" = false) ->
  split_last "/" pdf_url = stem \/ split_last "/" pdf_url = stem +:+ ".pdf" ->
  paper_id pdf_url arxiv_id = stem.
Proof.
  intros Harg Hnone Hseg.
  assert (Hid : replace ".pdf" "" (split_last "/" pdf_url) = stem).
  { destruct Hseg as [-> | ->]; [by apply replace_none|by apply replace_pdf_suffix]. }
  unfold paper_id. by destruct Harg as [-> | ->].
Qed.

(** X26. Called without an identifier (or with an empty one), the download
    tool takes it from the URL: when [".pdf"] occurs in the last segment of
    the URL at most as its ending, the identifier is that segment without
    the ending, and the PDF goes where [download_pdf] alone would put it,
    under the name of the segment.  An identifier that is given and not
    empty is used as it is. *)
Theorem download_tool_default_id (tmp_dir : path) (pdf_url stem : string)
    (arxiv_id : option string) :
  (forall k, startswith (drop_chars k stem) ".pdf" = false) ->
  split_last "/" pdf_url = stem \/ split_last "/" pdf_url = stem +:+ ".pdf" ->
  (arxiv_id = None \/ arxiv_id = Some "" ->
     paper_id pdf_url arxiv_id = stem
     /\ pdf_cache_path tmp_dir (paper_id pdf_url arxiv_id)
        = destination tmp_dir pdf_url None)
  /\ (forall a, arxiv_id = Some a -> a <> "" -> paper_id pdf_url arxiv_id = a).
Proof.
  intros Hnone Hseg. split.
  - intros Harg. rewrite (paper_id_from_url pdf_url stem arxiv_id Harg Hnone Hseg).
    split; [done|]. unfold pdf_cache_path, destination, default_filename.
    destruct Hseg as [-> | ->].
    + by rewrite (no_pdf_not_endswith stem Hnone).
    + assert (Hends : endswith (stem +:+ ".pdf") ".pdf" = true)
        by (apply endswith_spec; by exists stem).
      by rewrite Hends.
  - intros a -> Ha. unfold paper_id.
    destruct (String.eqb_spec a ""); [done|done].
Qed.

Section Processing.
Variable PYMUPDF_AVAILABLE : bool.
Variable PDFPLUMBER_AVAILABLE : bool.
Variable PYMUPDF4LLM_AVAILABLE : bool.
Variable origin : list string -> string -> result stream.
Variable fitz_open : entry -> outcome fitz_doc.
Variable pdfplumber_open : entry -> outcome (list (outcome (option string))).
Variable to_markdown : entry -> outcome string.
Variable generated : string.
Variable system_tmp : path.
Variable load_tmp_dir : result (option string).

Local Abbreviation get_processor :=
  (get_processor PYMUPDF_AVAILABLE PDFPLUMBER_AVAILABLE system_tmp load_tmp_dir).
Local Abbreviation call_download_paper_pdf :=
  (call_download_paper_pdf PYMUPDF_AVAILABLE PDFPLUMBER_AVAILABLE origin system_tmp
     load_tmp_dir).
Local Abbreviation call_convert_pdf_to_markdown :=
  (call_convert_pdf_to_markdown PYMUPDF_AVAILABLE PDFPLUMBER_AVAILABLE
     PYMUPDF4LLM_AVAILABLE to_markdown system_tmp load_tmp_dir).
Local Abbreviation tool_content_lines :=
  (tool_content_lines PYMUPDF_AVAILABLE PDFPLUMBER_AVAILABLE PYMUPDF4LLM_AVAILABLE
     fitz_open pdfplumber_open to_markdown).
Local Abbreviation tool_sections :=
  (tool_sections PYMUPDF_AVAILABLE PDFPLUMBER_AVAILABLE PYMUPDF4LLM_AVAILABLE
     fitz_open pdfplumber_open to_markdown).
Local Abbreviation call_generate_daily_summary :=
  (call_generate_daily_summary PYMUPDF_AVAILABLE PDFPLUMBER_AVAILABLE
     PYMUPDF4LLM_AVAILABLE fitz_open pdfplumber_open to_markdown generated system_tmp
     load_tmp_dir).

(** The processor of a tool: the calls are those made before, and the
    global is set exactly when the processor was made. *)
Lemma get_processor_outcome (global : option path) (w : world) :
  let run := get_processor global w in
  calls run.2.2 = calls w
  /\ (forall tmp_dir, run.1 = Ok tmp_dir -> run.2.1 = Some tmp_dir)
  /\ (forall tmp_dir, global = Some tmp_dir -> run = (Ok tmp_dir, (global, w))).
Proof.
  cbn zeta. unfold Server.get_processor. destruct global as [d|].
  - split; [done|]. split; [by intros ? [= <-]|by intros ? [= <-]].
  - destruct load_tmp_dir as [configured|e]; [|done].
    destruct (init PYMUPDF_AVAILABLE PDFPLUMBER_AVAILABLE
                (resolve_tmp_dir system_tmp configured) w) as [r w1] eqn:Hinit.
    apply (ScriptExtra.init_calls PYMUPDF_AVAILABLE PDFPLUMBER_AVAILABLE) in Hinit
      as [Hcalls _].
    destruct r as [[]|e]; (split; [done|]); split; try done. by intros ? [= <-].
Qed.

(** X25. A result of the download tool always reports that the file
    exists: when the tool returns, the PDF is in the cache of the processor
    at [tmp_dir / "{arxiv_id}.pdf"] for the identifier it reports, and this
    is the path it reports; at most one request was made, for the URL of the
    call. *)
Theorem download_tool_reports_file (pdf_url : string) (arxiv_id : option string)
    (global g : option path) (w w' : world) (r : downloaded) :
  call_download_paper_pdf pdf_url arxiv_id global w = (Ok r, (g, w')) ->
  exists tmp_dir,
    g = Some tmp_dir
    /\ dl_arxiv_id r = paper_id pdf_url arxiv_id
    /\ dl_pdf_path r = to_string (pdf_cache_path tmp_dir (dl_arxiv_id r))
    /\ dl_exists r = true
    /\ path_exists (files w') (pdf_cache_path tmp_dir (dl_arxiv_id r)) = true
    /\ (calls w' = calls w \/ calls w' = calls w ++ [RequestsGet pdf_url]).
Proof.
  unfold Server.call_download_paper_pdf.
  destruct (get_processor_outcome global w) as (Hcalls & Hglobal & _).
  destruct (get_processor global w) as [[tmp_dir|e] [g0 w1]]; [|done].
  specialize (Hglobal tmp_dir eq_refl). simpl in Hcalls, Hglobal. subst g0.
  unfold download_paper_pdf. cbn [BentyClient.arxiv_id BentyClient.pdf_url minimal_paper].
  set (pdf_path := pdf_cache_path tmp_dir (paper_id pdf_url arxiv_id)).
  destruct (path_exists (files w1) pdf_path) eqn:Hex.
  - intros [= <- <- <-]. exists tmp_dir. simpl. rewrite Hex, Hcalls. by auto 10.
  - destruct (download_pdf origin tmp_dir pdf_url (Some pdf_path) w1)
      as [[p|e] w2] eqn:Hdl; [|done].
    intros [= <- <- <-]. exists tmp_dir.
    destruct (download_pdf_miss_ok origin tmp_dir pdf_url (Some pdf_path) w1 w2 p
                Hex Hdl) as (-> & Hcalls2 & _).
    destruct (download_pdf_ok origin tmp_dir pdf_url (Some pdf_path) w1 w2 _ Hdl)
      as [_ Hthere].
    cbn [destination] in *. simpl. rewrite Hthere, Hcalls2, Hcalls. by auto 10.
Qed.

(** X27. With [save_to_file], the conversion tool converts the PDF twice
    when its Markdown file is not there yet: once for the text it returns
    and once more inside [convert_and_save_markdown], and the file then
    holds the text that is returned.  When the Markdown file is there
    already, the PDF is converted once, the file is left as it is, and the
    text returned is that of the new conversion, whatever the file holds. *)
Theorem convert_tool_converts_twice (pdf_path : string) (global g : option path)
    (w w' : world) (r : converted) :
  call_convert_pdf_to_markdown pdf_path true global w = (Ok r, (g, w')) ->
  let pdf := of_string pdf_path in
  let w0 := (get_processor global w).2.2 in
  exists md e,
    get_markdown_path pdf = Ok md
    /\ cv_markdown_path r = Some (to_string md)
    /\ lookup_entry (files w0) pdf = Some e
    /\ to_markdown e = Done (cv_markdown r)
    /\ (path_exists (files w0) md = false ->
          conversions w' = conversions w ++ [pdf; pdf]
          /\ files w' !! md = Some (File (cv_markdown r)))
    /\ (path_exists (files w0) md = true ->
          conversions w' = conversions w ++ [pdf]
          /\ files w' = files w0).
Proof.
  unfold Server.call_convert_pdf_to_markdown. cbn zeta.
  destruct (get_processor_outcome global w) as (Hcalls & _ & _).
  destruct (get_processor global w) as [[tmp_dir|e0] [g0 w1]]; [|done].
  cbn [fst snd] in *.
  assert (Hconv : conversions w1 = conversions w)
    by (unfold conversions; by rewrite Hcalls).
  unfold convert_and_save_markdown, convert_to_markdown.
  destruct (lookup_entry (files w1) (of_string pdf_path)) as [e|] eqn:He; [|done].
  destruct PYMUPDF4LLM_AVAILABLE; cbn [negb]; [|done].
  destruct (to_markdown e) as [markdown|why] eqn:Hto; [|done].
  destruct (get_markdown_path (of_string pdf_path)) as [md|e1]; [|done].
  cbn [files log]. rewrite He, Hto.
  destruct (path_exists (files w1) md) eqn:Hex.
  - intros [= <- <- <-]. exists md, e. cbn [cv_markdown cv_markdown_path files log].
    do 4 (split; [done|]). split; [intros ?; congruence|]. intros _.
    by rewrite conversions_log, Hconv.
  - cbn [files log].
    destruct (mkdir_parents (parent md) (files w1)) as [fs1|e2]; [|done].
    destruct (open_w md fs1) as [fs2|e3] eqn:Hopen; [|done].
    intros [= <- <- <-]. exists md, e. cbn [cv_markdown cv_markdown_path].
    do 4 (split; [done|]). split; [|intros ?; congruence]. intros _. split.
    + change (conversions (with_files (write md markdown fs2)
                (log (ToMarkdown (of_string pdf_path))
                   (log (ToMarkdown (of_string pdf_path)) w1))))
        with (conversions (log (ToMarkdown (of_string pdf_path))
                (log (ToMarkdown (of_string pdf_path)) w1))).
      rewrite !conversions_log, Hconv. by rewrite <- List.app_assoc.
    + apply open_w_ok in Hopen as [-> _]. cbn [files with_files].
      rewrite (write_lookup md markdown ""); [done|]. apply lookup_insert_eq.
Qed.

Lemma extract_text_downloads (pdf_path : path) (w : world) :
  downloads (extract_text PYMUPDF_AVAILABLE PDFPLUMBER_AVAILABLE fitz_open
               pdfplumber_open pdf_path w).2 = downloads w.
Proof.
  unfold extract_text, extract_fallback.
  destruct (lookup_entry (files w) pdf_path) as [e|]; [|done].
  destruct PYMUPDF_AVAILABLE.
  - destruct (fitz_extract fitz_open e "") as [[text|why] text'];
      [cbn [snd]; by rewrite downloads_log|].
    destruct PDFPLUMBER_AVAILABLE; [|cbn [snd]; by rewrite downloads_log].
    destruct (pdfplumber_extract pdfplumber_open e text'); cbn [snd];
      by rewrite !downloads_log.
  - destruct PDFPLUMBER_AVAILABLE; [|done].
    destruct (pdfplumber_extract pdfplumber_open e ""); cbn [snd];
      by rewrite downloads_log.
Qed.

Lemma text_fallback_downloads (pdf_path : path) (w : world) :
  downloads (GenerateSummary.text_fallback PYMUPDF_AVAILABLE PDFPLUMBER_AVAILABLE
               fitz_open pdfplumber_open pdf_path w).2 = downloads w.
Proof.
  unfold GenerateSummary.text_fallback, GenerateSummary.extract.
  pose proof (extract_text_downloads pdf_path w) as H.
  by destruct (extract_text _ _ _ _ pdf_path w) as [[text|e] w1].
Qed.

Lemma convert_and_save_markdown_downloads (pdf_path : path) (w : world) :
  downloads (convert_and_save_markdown PYMUPDF4LLM_AVAILABLE to_markdown pdf_path
               None w).2 = downloads w.
Proof.
  unfold convert_and_save_markdown, convert_to_markdown.
  destruct (get_markdown_path pdf_path) as [md|e]; [|done].
  destruct (path_exists (files w) md); [done|].
  destruct (lookup_entry (files w) pdf_path) as [e|]; [|done].
  destruct PYMUPDF4LLM_AVAILABLE; cbn [negb]; [|done].
  destruct (to_markdown e) as [markdown|why]; [|cbn [snd]; by rewrite downloads_log].
  cbn [files log].
  destruct (mkdir_parents (parent md) (files w)) as [fs1|e1];
    [|cbn [snd]; by rewrite downloads_log].
  destruct (open_w md fs1) as [fs2|e2]; cbn [snd];
    by change (downloads (log (ToMarkdown pdf_path) w) = downloads w);
       rewrite downloads_log.
Qed.

Lemma cached_markdown_downloads (pdf_path : path) (w : world) :
  downloads (GenerateSummary.cached_markdown PYMUPDF_AVAILABLE PDFPLUMBER_AVAILABLE
               PYMUPDF4LLM_AVAILABLE fitz_open pdfplumber_open to_markdown
               pdf_path w).2 = downloads w.
Proof.
  unfold GenerateSummary.cached_markdown, GenerateSummary.save_markdown.
  assert (Hfound : forall found : result path * world,
            downloads found.2 = downloads w ->
            downloads (match found with
                       | (Raise _, w1) =>
                           GenerateSummary.text_fallback PYMUPDF_AVAILABLE
                             PDFPLUMBER_AVAILABLE fitz_open pdfplumber_open pdf_path w1
                       | (Ok md_path, w1) =>
                           match GenerateSummary.read_text md_path (files w1) with
                           | Raise _ =>
                               GenerateSummary.text_fallback PYMUPDF_AVAILABLE
                                 PDFPLUMBER_AVAILABLE fitz_open pdfplumber_open
                                 pdf_path w1
                           | Ok markdown_content =>
                               (Ok (GenerateSummary.markdown_section md_path
                                      markdown_content), w1)
                           end
                       end).2 = downloads w).
  { intros [[md|e] w1] Hw1; simpl in Hw1.
    - destruct (GenerateSummary.read_text md (files w1)); [done|].
      by rewrite text_fallback_downloads.
    - by rewrite text_fallback_downloads. }
  apply Hfound.
  destruct (get_markdown_path pdf_path) as [md|e]; [|done].
  destruct (negb (path_exists (files w) md)); [|done].
  apply convert_and_save_markdown_downloads.
Qed.

Lemma tool_content_lines_downloads (tmp_dir : path) (paper : paper)
    (use_markdown : bool) (w : world) :
  downloads (tool_content_lines tmp_dir paper use_markdown w).2 = downloads w.
Proof.
  unfold Server.tool_content_lines.
  destruct (path_exists (files w) (pdf_cache_path tmp_dir (arxiv_id paper))); [|done].
  destruct use_markdown.
  - pose proof (cached_markdown_downloads
                  (pdf_cache_path tmp_dir (arxiv_id paper)) w) as H.
    by destruct (GenerateSummary.cached_markdown _ _ _ _ _ _ _ w) as [[c|e] w1].
  - pose proof (text_fallback_downloads
                  (pdf_cache_path tmp_dir (arxiv_id paper)) w) as H.
    by destruct (GenerateSummary.text_fallback _ _ _ _ _ w) as [[c|e] w1].
Qed.

Lemma tool_sections_downloads (tmp_dir : path) (papers : list paper)
    (include_pdf_text use_markdown : bool) :
  forall (markdown_lines : list string) (w : world),
    downloads (tool_sections tmp_dir papers include_pdf_text use_markdown
                 markdown_lines w).2 = downloads w.
Proof.
  induction papers as [|paper rest IH]; intros markdown_lines w; [done|].
  cbn [Server.tool_sections].
  destruct include_pdf_text.
  - pose proof (tool_content_lines_downloads tmp_dir paper use_markdown w) as H.
    destruct (tool_content_lines tmp_dir paper use_markdown w) as [content w1].
    by rewrite IH.
  - by rewrite IH.
Qed.

(** X28. The summary tool never requests a PDF: whatever its arguments and
    however it ends, the requests made are those made before the call.  Only
    PDFs that are in the cache already can contribute to its summary. *)
Theorem summary_tool_never_downloads (papers : list paper) (output_path : string)
    (include_pdf_text use_markdown : bool) (global : option path) (w : world) :
  downloads (call_generate_daily_summary papers output_path include_pdf_text
               use_markdown global w).2.2
  = downloads w.
Proof.
  unfold Server.call_generate_daily_summary.
  destruct (get_processor_outcome global w) as (Hcalls & _ & _).
  assert (Hw1 : downloads (get_processor global w).2.2 = downloads w)
    by (unfold downloads; by rewrite Hcalls).
  destruct (get_processor global w) as [[tmp_dir|e] [g w1]]; [|done].
  cbn [fst snd] in Hw1.
  pose proof (tool_sections_downloads tmp_dir papers include_pdf_text use_markdown
                (GenerateSummary.header_lines generated) w1) as Hsec.
  destruct (tool_sections tmp_dir papers include_pdf_text use_markdown
              (GenerateSummary.header_lines generated) w1) as [markdown_lines w2].
  cbn [fst snd] in Hsec.
  destruct (mkdir_parents (parent (of_string output_path)) (files w2)) as [fs1|e];
    [|simpl; congruence].
  destruct (open_w (of_string output_path) fs1) as [fs2|e];
    simpl; unfold downloads in *; simpl; congruence.
Qed.

(** X29. A paper whose PDF is not in the cache gets no content block from
    the tool, where the script would download it: when none of the PDFs is
    cached, the tool with [include_pdf_text] does exactly what it does
    without, and no text of a PDF is in its summary. *)
Theorem summary_tool_skips_missing_pdfs (papers : list paper) (output_path : string)
    (use_markdown : bool) (tmp_dir : path) (w : world) :
  Forall (fun paper =>
            path_exists (files w) (pdf_cache_path tmp_dir (arxiv_id paper)) = false)
         papers ->
  call_generate_daily_summary papers output_path true use_markdown (Some tmp_dir) w
  = call_generate_daily_summary papers output_path false use_markdown (Some tmp_dir) w.
Proof.
  intros Hall. unfold Server.call_generate_daily_summary. cbn [Server.get_processor].
  assert (Hsec : forall markdown_lines,
            tool_sections tmp_dir papers true use_markdown markdown_lines w
            = tool_sections tmp_dir papers false use_markdown markdown_lines w).
  { induction Hall as [|paper rest Hp _ IH]; intros markdown_lines; [done|].
    cbn [Server.tool_sections]. unfold Server.tool_content_lines.
    rewrite Hp. apply IH. }
  by rewrite Hsec.
Qed.

(** X30. Without the text of the PDFs the script does what the tool does:
    the tool's call with [include_pdf_text=False] writes the document, and
    returns the summary, of the script's [generate_daily_summary] when every
    analysis section of the script is the placeholder of the tool. *)
Theorem summary_tool_matches_script (papers : list paper) (output_path : string)
    (use_markdown : bool) (tmp_dir : path) (w : world) :
  let placeholder := Some "*To be filled by AI analysis*" in
  let fill (_ _ _ : string) :=
    {| GenerateSummary.motivation := placeholder;
       GenerateSummary.methodology := placeholder;
       GenerateSummary.data_used := placeholder;
       GenerateSummary.conclusions := placeholder |} in
  let script :=
    GenerateSummary.generate_daily_summary PYMUPDF_AVAILABLE PDFPLUMBER_AVAILABLE
      PYMUPDF4LLM_AVAILABLE origin fitz_open pdfplumber_open to_markdown tmp_dir
      fill generated papers (of_string output_path) false use_markdown w in
  call_generate_daily_summary papers output_path false use_markdown (Some tmp_dir) w
  = (script.1, (Some tmp_dir, script.2)).
Proof.
  cbn zeta. unfold Server.call_generate_daily_summary,
    GenerateSummary.generate_daily_summary.
  cbn [Server.get_processor].
  rewrite GenerateSummaryExtra.sections_without_pdf_text.
  assert (Hsec : forall markdown_lines,
            tool_sections tmp_dir papers false use_markdown markdown_lines w
            = (markdown_lines
               ++ concat ((fun paper => GenerateSummary.metadata_lines paper
                                        ++ placeholder_lines) <$> papers), w)).
  { induction papers as [|paper rest IH]; intros markdown_lines.
    - simpl. by rewrite app_nil_r.
    - cbn [Server.tool_sections]. rewrite IH. cbn [fmap list_fmap concat].
      by rewrite <- !List.app_assoc. }
  rewrite Hsec.
  destruct (mkdir_parents (parent (of_string output_path)) (files w)) as [fs1|e];
    [|done].
  by destruct (open_w (of_string output_path) fs1).
Qed.

End Processing.

(** An instance on the sample data: after the first call, a call for the
    next day and a call for a date that is not one send the two listing
    requests and nothing else. *)
Lemma tool_logs_in_once_witness :
  exists found c1 c2,
    call_fetch_daily_papers Samples.sample_site Samples.sample_parser Samples.sample_now
      (Ok Samples.sample_config) PyNone None None = (Ok found, Some c1)
    /\ fetch_session Samples.sample_site Samples.sample_parser Samples.sample_now
         (Ok Samples.sample_config)
         [(PyStr "2026-01-10", Some 2); (PyInt 20260111, None)] (Some c1) = Some c2
    /\ logged_in c2 = true
    /\ sent c2
       = sent c1 ++ [GET "https://www.benty-fields.com/daily_arXiv_results?date=2026-01-10";
                     GET "https://www.benty-fields.com/daily_arXiv_results?date=20260111"].
Proof.
  assert (Hok : is_ok (call_fetch_daily_papers Samples.sample_site Samples.sample_parser
                         Samples.sample_now (Ok Samples.sample_config)
                         PyNone None None).1 = true) by (vm_compute; reflexivity).
  destruct (call_fetch_daily_papers Samples.sample_site Samples.sample_parser
              Samples.sample_now (Ok Samples.sample_config) PyNone None None)
    as [[found|e] global] eqn:Hrun; [|discriminate Hok].
  destruct (tool_logs_in_once _ _ _ _ _ _ _ _ Hrun) as (cfg & c1 & _ & -> & _ & Hnext).
  destruct (Hnext [(PyStr "2026-01-10", Some 2); (PyInt 20260111, None)])
    as (c2 & days & Hdays & Hsession & Hflag & Hsent).
  exists found, c1, c2. split; [reflexivity|]. split; [exact Hsession|].
  split; [exact Hflag|]. rewrite Hsent.
  inversion Hdays as [|? day1 ? days1 Hday1 Hdays1]; subst.
  inversion Hdays1 as [|? day2 ? days2 Hday2 Hdays2]; subst.
  inversion Hdays2; subst.
  injection Hday1 as <-. injection Hday2 as <-. reflexivity.
Defined.

(** An instance on the sample data. *)
Lemma tool_needs_credentials_witness :
  exists msg,
    call_fetch_daily_papers Samples.sample_site Samples.sample_parser Samples.sample_now
      (Ok {| cfg_email := ""; cfg_password := "secret";
             cfg_date := PyNone; cfg_num_papers := None |})
      (PyStr "2026-01-09") None None
    = (Raise (ValueError msg), None).
Proof.
  exact (tool_needs_credentials Samples.sample_site Samples.sample_parser
           Samples.sample_now
           (Ok {| cfg_email := ""; cfg_password := "secret";
                  cfg_date := PyNone; cfg_num_papers := None |})
           {| cfg_email := ""; cfg_password := "secret";
              cfg_date := PyNone; cfg_num_papers := None |}
           (PyStr "2026-01-09") None eq_refl (or_introl eq_refl)).
Defined.

(** An instance on the sample data. *)
Lemma download_tool_default_id_witness :
  paper_id "https://arxiv.org/pdf/2601.04344v1" None = "2601.04344v1"
  /\ pdf_cache_path Samples.cache_root
       (paper_id "https://arxiv.org/pdf/2601.04344v1" None)
     = destination Samples.cache_root "https://arxiv.org/pdf/2601.04344v1" None.
Proof.
  assert (Hnone : forall k, startswith (drop_chars k "2601.04344v1") ".pdf" = false).
  { intros k. do 12 (destruct k as [|k]; [reflexivity|]). by destruct k. }
  assert (Hseg : split_last "/" "https://arxiv.org/pdf/2601.04344v1" = "2601.04344v1")
    by (vm_compute; reflexivity).
  exact (proj1 (download_tool_default_id Samples.cache_root
                  "https://arxiv.org/pdf/2601.04344v1" "2601.04344v1" None
                  Hnone (or_introl Hseg))
           (or_introl eq_refl)).
Defined.

(** An instance on the sample data. *)
Lemma download_tool_reports_file_witness :
  exists r g w',
    call_download_paper_pdf true true Samples.good_origin (of_string "/tmp")
      (Ok (Some "/tmp/benty_arxiv_pdfs"))
      "https://arxiv.org/pdf/2601.04344v1" (Some "2601.04344") None Samples.bare_world
    = (Ok r, (g, w'))
    /\ dl_exists r = true.
Proof.
  assert (Hok : is_ok (call_download_paper_pdf true true Samples.good_origin
                         (of_string "/tmp") (Ok (Some "/tmp/benty_arxiv_pdfs"))
                         "https://arxiv.org/pdf/2601.04344v1" (Some "2601.04344") None
                         Samples.bare_world).1 = true) by (vm_compute; reflexivity).
  destruct (call_download_paper_pdf true true Samples.good_origin
              (of_string "/tmp") (Ok (Some "/tmp/benty_arxiv_pdfs"))
              "https://arxiv.org/pdf/2601.04344v1" (Some "2601.04344") None
              Samples.bare_world) as [[r|e] [g w']] eqn:Hrun; [|discriminate Hok].
  destruct (download_tool_reports_file _ _ _ _ _ _ _ _ _ _ _ _ Hrun)
    as (tmp_dir & _ & _ & _ & Hexists & _).
  exists r, g, w'. split; [reflexivity|exact Hexists].
Defined.

(** An instance on the sample data. *)
Lemma convert_tool_converts_twice_witness :
  exists r g w',
    call_convert_pdf_to_markdown true true true Samples.sample_to_markdown
      (of_string "/tmp") (Ok None)
      "/tmp/benty_arxiv_pdfs/2601.04344.pdf" true (Some Samples.cache_root)
      Samples.cached_pdf
    = (Ok r, (g, w'))
    /\ conversions w' = [Samples.sample_pdf_path; Samples.sample_pdf_path].
Proof.
  assert (Hok : is_ok (call_convert_pdf_to_markdown true true true
                         Samples.sample_to_markdown (of_string "/tmp") (Ok None)
                         "/tmp/benty_arxiv_pdfs/2601.04344.pdf" true
                         (Some Samples.cache_root) Samples.cached_pdf).1 = true)
    by (vm_compute; reflexivity).
  destruct (call_convert_pdf_to_markdown true true true
              Samples.sample_to_markdown (of_string "/tmp") (Ok None)
              "/tmp/benty_arxiv_pdfs/2601.04344.pdf" true
              (Some Samples.cache_root) Samples.cached_pdf)
    as [[r|e] [g w']] eqn:Hrun; [|discriminate Hok].
  destruct (convert_tool_converts_twice _ _ _ _ _ _ _ _ _ _ _ _ Hrun)
    as (md & e & Hmd & _ & _ & _ & Hfresh & _).
  assert (Hpath : get_markdown_path (of_string "/tmp/benty_arxiv_pdfs/2601.04344.pdf")
                  = Ok Samples.sample_md_path) by (vm_compute; reflexivity).
  rewrite Hpath in Hmd. injection Hmd as <-.
  assert (Hmiss : path_exists (files Samples.cached_pdf) Samples.sample_md_path = false)
    by (vm_compute; reflexivity).
  exists r, g, w'. split; [reflexivity|].
  destruct (Hfresh Hmiss) as [Hconv _]. rewrite Hconv. vm_compute. reflexivity.
Defined.

(** An instance on the sample data. *)
Lemma summary_tool_skips_missing_pdfs_witness :
  call_generate_daily_summary true true true Samples.failing_fitz
    Samples.sample_pdfplumber Samples.sample_to_markdown Samples.sample_generated
    (of_string "/tmp") (Ok None)
    [Samples.sample_paper] "/tmp/summaries/summary_20260109.md" true true
    (Some Samples.cache_root) Samples.empty_cache
  = call_generate_daily_summary true true true Samples.failing_fitz
      Samples.sample_pdfplumber Samples.sample_to_markdown Samples.sample_generated
      (of_string "/tmp") (Ok None)
      [Samples.sample_paper] "/tmp/summaries/summary_20260109.md" false true
      (Some Samples.cache_root) Samples.empty_cache.
Proof.
  apply summary_tool_skips_missing_pdfs.
  constructor; [|constructor]. vm_compute. reflexivity.
Defined.

(** An instance on the sample data. *)
Lemma summary_tool_never_downloads_witness :
  downloads (call_generate_daily_summary true true true Samples.failing_fitz
               Samples.sample_pdfplumber Samples.sample_to_markdown
               Samples.sample_generated (of_string "/tmp") (Ok None)
               [Samples.sample_paper] "/tmp/summaries/summary_20260109.md" true true
               None Samples.cached_pdf).2.2
  = [].
Proof.
  exact (summary_tool_never_downloads true true true Samples.failing_fitz
           Samples.sample_pdfplumber Samples.sample_to_markdown
           Samples.sample_generated (of_string "/tmp") (Ok None)
           [Samples.sample_paper] "/tmp/summaries/summary_20260109.md" true true
           None Samples.cached_pdf).
Defined.

(** An instance on the sample data. *)
Lemma summary_tool_matches_script_witness :
  (call_generate_daily_summary true true true Samples.failing_fitz
     Samples.sample_pdfplumber Samples.sample_to_markdown Samples.sample_generated
     (of_string "/tmp") (Ok None)
     [Samples.sample_paper] "/tmp/summaries/summary_20260109.md" false true
     (Some Samples.cache_root) Samples.empty_cache).1
  = (GenerateSummary.generate_daily_summary true true true Samples.good_origin
       Samples.failing_fitz Samples.sample_pdfplumber Samples.sample_to_markdown
       Samples.cache_root
       (fun _ _ _ =>
          {| GenerateSummary.motivation := Some "*To be filled by AI analysis*";
             GenerateSummary.methodology := Some "*To be filled by AI analysis*";
             GenerateSummary.data_used := Some "*To be filled by AI analysis*";
             GenerateSummary.conclusions := Some "*To be filled by AI analysis*" |})
       Samples.sample_generated [Samples.sample_paper]
       (of_string "/tmp/summaries/summary_20260109.md") false true
       Samples.empty_cache).1.
Proof.
  exact (f_equal fst
           (summary_tool_matches_script true true true Samples.good_origin
              Samples.failing_fitz Samples.sample_pdfplumber Samples.sample_to_markdown
              Samples.sample_generated (of_string "/tmp") (Ok None)
              [Samples.sample_paper] "/tmp/summaries/summary_20260109.md" true
              Samples.cache_root Samples.empty_cache)).
Defined.

End ServerExtra.
